(** * Discovery scoring pipeline of the A&R portal

    A shallow embedding of [app/core/discovery] (feature extractors, weight
    configuration, scorers, explainability engine, selectors) and of the
    SQLAlchemy models it reads and writes, followed by the properties of the
    specification.

    Conventions.
    - Python [int] columns are [Z]; nullable columns are [option].
    - Python [float] values are real numbers ([R]): rounding error of the
      binary representation is not modelled.  [nan], which the code can only
      obtain from [np.mean([])], is handled where it arises.  Two places
      depend on the binary value itself: the tolerance test of
      [validate_weights] is followed in binary64 ([PrimFloat]), and the
      loops of the selectors, which compare and round the scores they are
      given, are written over whatever numbers the scorer returns.
    - [datetime] values are microseconds since the epoch ([Z]); the clock
      [datetime.utcnow()] is a field of the session and does not advance
      during one call.
    - Strings built by f-strings are kept as the list of their literal pieces
      and interpolated values ([text]).
    - A Python exception is a value of [py_exn]; code that can raise returns
      a [result]. *)

From Stdlib Require Import ZArith List String Bool Reals Lra Lia Permutation Sorted.
From Stdlib Require Floats.
Import ListNotations.

Local Open Scope string_scope.
Local Open Scope Z_scope.

(* ================================================================= *)
(** ** Python values *)

(** One piece of an f-string. *)
Inductive fragment : Type :=
| Lit (s : string)                 (* literal characters *)
| IntF (n : Z)                     (* [{n}] for an int *)
| FloatF (x : R)                   (* [{x}] for a float *)
| FixedF (digits : nat) (x : R)    (* [{x:.<digits>f}] for a float *)
| DoubleF (x : PrimFloat.float)    (* [{x}] for a float kept in binary64 *)
| IsoF (instant : Z).              (* [instant.isoformat()] *)

Definition text : Type := list fragment.

Inductive py_exn : Type :=
| AssertionError (msg : text)
| TypeError (msg : text)
| AttributeError (msg : text)
| ZeroDivisionError (msg : text).

(** [str(e)] *)
Definition str_exn (e : py_exn) : text :=
  match e with
  | AssertionError m => m
  | TypeError m => m
  | AttributeError m => m
  | ZeroDivisionError m => m
  end.

Inductive result (A : Type) : Type :=
| Ok (a : A)
| Raise (e : py_exn).
Arguments Ok {A} a.
Arguments Raise {A} e.

Definition rbind {A B : Type} (r : result A) (k : A -> result B) : result B :=
  match r with
  | Ok a => k a
  | Raise e => Raise e
  end.

(** Truth value of an optional int: [None] and [0] are falsy. *)
Definition truthy (o : option Z) : bool :=
  match o with
  | None => false
  | Some v => negb (v =? 0)
  end.

(** Value of a column known to be truthy (used after a [truthy] test). *)
Definition val (o : option Z) : Z :=
  match o with
  | None => 0
  | Some v => v
  end.

Definition is_some {A : Type} (o : option A) : bool :=
  match o with Some _ => true | None => false end.

(** Boolean comparisons on floats. *)
Definition Rltb (x y : R) : bool := if Rlt_dec x y then true else false.
Definition Rleb (x y : R) : bool := if Rle_dec x y then true else false.
Definition Reqb (x y : R) : bool := if Req_dec_T x y then true else false.

(** Truth value of an optional float: [None] and [0.0] are falsy. *)
Definition truthy_float (o : option R) : bool :=
  match o with
  | None => false
  | Some v => negb (Reqb v 0%R)
  end.

(** [round(x, ndigits)]: the multiple of [10^-ndigits] nearest to the value
    of [x], ties to even.  Python returns the float nearest to this decimal;
    it is computed from the number [x] holds, whatever arithmetic produced
    it. *)
Definition round_half_even (x : R) : Z :=
  let f := Int_part x in
  let r := frac_part x in
  if Rltb r (1 / 2)%R then f
  else if Rltb (1 / 2)%R r then f + 1
  else if Z.even f then f else f + 1.

Definition py_round (x : R) (ndigits : nat) : R :=
  (IZR (round_half_even (x * 10 ^ ndigits)) / 10 ^ ndigits)%R.

(** A float literal of the source text, [digits * 10^-places] with
    [0 <= digits < 2^53], read in two ways: as the real number it denotes,
    and as the binary64 value Python holds for it.  Numerator and power of
    ten are exact in binary64 and the division rounds to nearest, so the
    quotient is the binary64 value nearest to the decimal. *)
Record literal : Type := mkLiteral { digits : Z; places : nat }.

Definition literal_real (l : literal) : R := (IZR (digits l) / 10 ^ places l)%R.

Definition literal_float (l : literal) : PrimFloat.float :=
  PrimFloat.div (PrimFloat.of_uint63 (Uint63.of_Z (digits l)))
                (PrimFloat.of_uint63 (Uint63.of_Z (10 ^ Z.of_nat (places l)))).

(** The real number a finite binary64 value stands for. *)
Definition float_real (x : PrimFloat.float) : R :=
  match FloatOps.Prim2SF x with
  | SpecFloat.S754_finite s m e =>
      let n := if s then Z.neg m else Z.pos m in
      if e <? 0 then (IZR n / IZR (2 ^ (- e)))%R else IZR (n * 2 ^ e)
  | _ => 0%R
  end.

(** [int(x)] for a float: truncation towards zero. *)
Definition py_int (x : R) : Z :=
  if Rleb 0%R x then Int_part x else - Int_part (- x)%R.

(** [timedelta(days=n)] in microseconds. *)
Definition timedelta_days (n : Z) : Z := n * 86400000000.

(** [(a - b).days] for two datetimes: floor of the difference in days. *)
Definition delta_days (a b : Z) : Z := (a - b) / 86400000000.

(** [(dt.year, dt.month)] of an instant, by the proleptic Gregorian calendar. *)
Definition year_month (ts : Z) : Z * Z :=
  let z := ts / 86400000000 + 719468 in
  let era := z / 146097 in
  let doe := z - era * 146097 in
  let yoe := (doe - doe / 1460 + doe / 36524 - doe / 146096) / 365 in
  let y := yoe + era * 400 in
  let doy := doe - (365 * yoe + yoe / 4 - yoe / 100) in
  let mp := (5 * doy + 2) / 153 in
  let m := if mp <? 10 then mp + 3 else mp - 9 in
  (if m <=? 2 then y + 1 else y, m).

(** [dict.get(key, default)] on a dict kept in insertion order. *)
Fixpoint dict_get {V : Type} (d : list (string * V)) (key : string) (default : V) : V :=
  match d with
  | [] => default
  | (k, v) :: d' => if String.eqb k key then v else dict_get d' key default
  end.

(** [d[key] = v]: overwrite in place, or append a new key. *)
Fixpoint dict_set {V : Type} (d : list (string * V)) (key : string) (v : V) : list (string * V) :=
  match d with
  | [] => [(key, v)]
  | (k, w) :: d' => if String.eqb k key then (k, v) :: d' else (k, w) :: dict_set d' key v
  end.

(** [np.mean] and [np.std] (population standard deviation) of a non-empty
    list of ints.  On the empty list numpy returns [nan]; every call site
    below says what the code does with it. *)
Definition sum_Z (l : list Z) : Z := fold_right Z.add 0 l.

Definition np_mean (l : list Z) : R := (IZR (sum_Z l) / INR (List.length l))%R.

Definition sum_R (l : list R) : R := fold_right Rplus 0%R l.

Definition np_std (l : list Z) : R :=
  let mu := np_mean l in
  sqrt (sum_R (map (fun x => ((IZR x - mu) * (IZR x - mu))%R) l) / INR (List.length l))%R.

(* ================================================================= *)
(** ** Models ([app/models/discovery.py]) *)

Module Track.
(** Columns the scoring core reads; the remaining metadata columns
    (isrc, platform ids, urls, popularity, last_updated) are never read. *)
Record t : Type := mk {
  id : string;
  title : string;
  artist_name : string;
  first_discovered : option Z
}.
End Track.

Module TrackMetric.
(** The primary key and [spotify_chart_country] are never read by the
    scoring core and are left out. *)
Record t : Type := mk {
  track_id : string;
  timestamp : Z;
  spotify_streams : option Z;
  spotify_streams_7d : option Z;
  spotify_streams_30d : option Z;
  spotify_playlist_count : option Z;
  spotify_chart_position : option Z;
  tiktok_posts : option Z;
  tiktok_posts_7d : option Z;
  tiktok_posts_30d : option Z;
  tiktok_views : option Z;
  tiktok_views_7d : option Z;
  tiktok_views_30d : option Z;
  tiktok_chart_position : option Z
}.
End TrackMetric.

Module TrackScore.
Record t : Type := mk {
  id : Z;
  track_id : string;
  computed_at : Z;
  trending_score : option R;
  evergreen_score : option R;
  components : list (string * R);
  why_selected : list text;
  risk_flags : list text
}.

Definition set_trending_score (s : t) (v : option R) : t :=
  mk (id s) (track_id s) (computed_at s) v (evergreen_score s)
     (components s) (why_selected s) (risk_flags s).
End TrackScore.

Module DiscoveryRun.
Record t : Type := mk {
  id : Z;
  run_type : string;
  started_at : Z;
  completed_at : option Z;
  tracks_processed : Z;      (* default=0 *)
  tracks_new : Z;            (* default=0 *)
  tracks_updated : Z;        (* default=0 *)
  status : string;           (* default="running" *)
  error_message : option text
}.
End DiscoveryRun.

(** A unit of work staged in the session and written by [db.commit()]. *)
Inductive pending_op : Type :=
| AddScore (row : TrackScore.t)
| AddRun (row : DiscoveryRun.t)
| SetRun (row : DiscoveryRun.t).   (* dirty attributes of a persistent run *)

(** The SQLAlchemy session: the committed tables, the staged work, the clock. *)
Record Session : Type := mkSession {
  tracks : list Track.t;
  track_metrics : list TrackMetric.t;
  track_scores : list TrackScore.t;
  discovery_runs : list DiscoveryRun.t;
  pending : list pending_op;
  utcnow : Z
}.

(* ----------------------------------------------------------------- *)
(** *** Queries *)

(** [.order_by(TrackMetric.timestamp.desc()).first()]: the row with the
    greatest timestamp (the earliest inserted one among equals). *)
Definition latest_metric (l : list TrackMetric.t) : option TrackMetric.t :=
  fold_left
    (fun acc m =>
       match acc with
       | None => Some m
       | Some a =>
           if TrackMetric.timestamp a <? TrackMetric.timestamp m then Some m else Some a
       end)
    l None.

(** [filter(track_id == t, timestamp >= since)] *)
Definition metrics_since (db : Session) (track_id : string) (since : Z) : list TrackMetric.t :=
  filter (fun m => String.eqb (TrackMetric.track_id m) track_id
                   && (since <=? TrackMetric.timestamp m))
         (track_metrics db).

(** [filter(track_id == t, timestamp >= lo, timestamp < hi)] *)
Definition metrics_between (db : Session) (track_id : string) (lo hi : Z) : list TrackMetric.t :=
  filter (fun m => String.eqb (TrackMetric.track_id m) track_id
                   && (lo <=? TrackMetric.timestamp m)
                   && (TrackMetric.timestamp m <? hi))
         (track_metrics db).

(** The snapshot pair every velocity feature starts from. *)
Definition recent_snapshot (db : Session) (track_id : string) (short_period : Z)
  : option TrackMetric.t :=
  latest_metric (metrics_since db track_id (utcnow db - timedelta_days short_period)).

Definition baseline_snapshot (db : Session) (track_id : string) (short_period long_period : Z)
  : option TrackMetric.t :=
  latest_metric (metrics_between db track_id
                   (utcnow db - timedelta_days long_period)
                   (utcnow db - timedelta_days short_period)).

(** [.order_by(TrackScore.computed_at.desc()).first()] *)
Definition latest_score (l : list TrackScore.t) : option TrackScore.t :=
  fold_left
    (fun acc s =>
       match acc with
       | None => Some s
       | Some a =>
           if TrackScore.computed_at a <? TrackScore.computed_at s then Some s else Some a
       end)
    l None.

Definition scores_of (db : Session) (track_id : string) : list TrackScore.t :=
  filter (fun s => String.eqb (TrackScore.track_id s) track_id) (track_scores db).

(** [db.query(Track).filter(Track.id == track_id).first()] *)
Definition find_track (db : Session) (track_id : string) : option Track.t :=
  find (fun t => String.eqb (Track.id t) track_id) (tracks db).

(* ================================================================= *)
(** ** Weight configuration ([scoring/weights.py]) *)

Module weights.
Local Open Scope R_scope.

Definition table : Type := list (string * R).

Definition TRENDING_WEIGHTS : table :=
  [ ("tiktok_posts_velocity", 0.30);
    ("tiktok_views_velocity", 0.20);
    ("spotify_stream_growth", 0.20);
    ("playlist_growth", 0.15);
    ("cross_platform_boost", 0.10);
    ("chart_entry_bonus", 0.05) ].

Definition EVERGREEN_WEIGHTS : table :=
  [ ("stream_consistency", 0.40);
    ("active_months_ratio", 0.30);
    ("low_variance_bonus", 0.20);
    ("chart_persistence", 0.10) ].

(** MIN_THRESHOLDS *)
Definition trending_min_tiktok_posts_7d : Z := 50.
Definition trending_min_spotify_streams_7d : Z := 10000.
Definition trending_min_data_points : Z := 7.
Definition evergreen_min_active_months : Z := 6.
Definition evergreen_min_data_points : Z := 90.
Definition evergreen_min_avg_streams : Z := 5000.

(** NORMALIZATION *)
Definition max_velocity : R := 10.0.
Definition min_velocity : R := 1.0.

(** The two weight tables as written in the module, value by value;
    [TRENDING_WEIGHTS] and [EVERGREEN_WEIGHTS] are their readings in the
    reals. *)
Definition source_table : Type := list (string * literal).

Definition TRENDING_SOURCE : source_table :=
  [ ("tiktok_posts_velocity", mkLiteral 30 2);
    ("tiktok_views_velocity", mkLiteral 20 2);
    ("spotify_stream_growth", mkLiteral 20 2);
    ("playlist_growth", mkLiteral 15 2);
    ("cross_platform_boost", mkLiteral 10 2);
    ("chart_entry_bonus", mkLiteral 5 2) ].

Definition EVERGREEN_SOURCE : source_table :=
  [ ("stream_consistency", mkLiteral 40 2);
    ("active_months_ratio", mkLiteral 30 2);
    ("low_variance_bonus", mkLiteral 20 2);
    ("chart_persistence", mkLiteral 10 2) ].

Definition as_reals (w : source_table) : table :=
  map (fun kv => (fst kv, literal_real (snd kv))) w.

Definition float_table : Type := list (string * PrimFloat.float).

Definition as_floats (w : source_table) : float_table :=
  map (fun kv => (fst kv, literal_float (snd kv))) w.

(** [sum(W.values())] on floats: the values are added one by one, from left
    to right, starting from 0. *)
Definition sum_values (w : float_table) : PrimFloat.float :=
  fold_left (fun acc kv => PrimFloat.add acc (snd kv)) w PrimFloat.zero.

(** The body of [validate_weights], over the two tables it reads:
    [abs(s - 1.0) < 0.001] is evaluated in binary64. *)
Definition validate_weights_of (trending evergreen : float_table) : result unit :=
  let trending_sum := sum_values trending in
  let evergreen_sum := sum_values evergreen in
  if negb (PrimFloat.ltb (PrimFloat.abs (PrimFloat.sub trending_sum PrimFloat.one))
                         (literal_float (mkLiteral 1 3))) then
    Raise (AssertionError
             [Lit "Trending weights sum to "; DoubleF trending_sum; Lit ", not 1.0"])
  else if negb (PrimFloat.ltb (PrimFloat.abs (PrimFloat.sub evergreen_sum PrimFloat.one))
                              (literal_float (mkLiteral 1 3))) then
    Raise (AssertionError
             [Lit "Evergreen weights sum to "; DoubleF evergreen_sum; Lit ", not 1.0"])
  else Ok tt.

Definition validate_weights : result unit :=
  validate_weights_of (as_floats TRENDING_SOURCE) (as_floats EVERGREEN_SOURCE).

(** Executing the module body: the tables are bound, then
    [validate_weights()] runs ("Validate on module load"); the import
    yields the tables only if that call returns. *)
Definition load_module (trending evergreen : source_table) : result (table * table) :=
  rbind (validate_weights_of (as_floats trending) (as_floats evergreen))
        (fun _ => Ok (as_reals trending, as_reals evergreen)).
End weights.

(* ================================================================= *)
(** ** Feature extractors ([features/]) *)

Module TikTokFeatures.
Import TrackMetric.

Definition calculate_posts_velocity
    (track_id : string) (db : Session) (short_period long_period : Z) : R :=
  match recent_snapshot db track_id short_period,
        baseline_snapshot db track_id short_period long_period with
  | Some recent, Some baseline =>
      if negb (truthy (tiktok_posts_7d recent)) || negb (truthy (tiktok_posts_7d baseline))
      then 0%R
      else if val (tiktok_posts_7d baseline) =? 0
      then (if 0 <? val (tiktok_posts_7d recent) then 10.0%R else 0%R)
      else (IZR (val (tiktok_posts_7d recent)) / IZR (val (tiktok_posts_7d baseline)))%R
  | _, _ => 0%R
  end.

Definition calculate_views_velocity
    (track_id : string) (db : Session) (short_period long_period : Z) : R :=
  match recent_snapshot db track_id short_period,
        baseline_snapshot db track_id short_period long_period with
  | Some recent, Some baseline =>
      if negb (truthy (tiktok_views_7d recent)) || negb (truthy (tiktok_views_7d baseline))
      then 0%R
      else if val (tiktok_views_7d baseline) =? 0
      then (if 0 <? val (tiktok_views_7d recent) then 10.0%R else 0%R)
      else (IZR (val (tiktok_views_7d recent)) / IZR (val (tiktok_views_7d baseline)))%R
  | _, _ => 0%R
  end.

Definition has_tiktok_momentum
    (track_id : string) (db : Session) (threshold_posts_7d : Z) : bool :=
  match recent_snapshot db track_id 7 with
  | Some recent =>
      if negb (truthy (tiktok_posts_7d recent)) then false
      else threshold_posts_7d <=? val (tiktok_posts_7d recent)
  | None => false
  end.

Definition calculate_cross_platform_confirmation (track_id : string) (db : Session) : bool :=
  match recent_snapshot db track_id 7, baseline_snapshot db track_id 7 30 with
  | Some recent, Some baseline =>
      let tiktok_growing :=
        if truthy (tiktok_posts_7d recent) && truthy (tiktok_posts_7d baseline) then
          if 0 <? val (tiktok_posts_7d baseline)
          then val (tiktok_posts_7d baseline) <? val (tiktok_posts_7d recent)
          else false
        else false in
      let spotify_growing :=
        if truthy (spotify_streams_7d recent) && truthy (spotify_streams_7d baseline) then
          if 0 <? val (spotify_streams_7d baseline)
          then val (spotify_streams_7d baseline) <? val (spotify_streams_7d recent)
          else false
        else false in
      tiktok_growing && spotify_growing
  | _, _ => false
  end.

Definition has_chart_entry (track_id : string) (db : Session) (lookback_days : Z) : bool :=
  let since := utcnow db - timedelta_days lookback_days in
  existsb (fun m => is_some (tiktok_chart_position m)) (metrics_since db track_id since).
End TikTokFeatures.

Module SpotifyFeatures.
Import TrackMetric.

(** [max(streams)] of a non-empty list *)
Definition list_max (l : list Z) : Z :=
  match l with
  | [] => 0
  | x :: l' => fold_left Z.max l' x
  end.

(** The rows come back ordered by timestamp; only their number, their
    mean and their deviation are used, so the order is not kept here. *)
Definition calculate_stream_consistency
    (track_id : string) (db : Session) (lookback_days : Z) : R :=
  let since := utcnow db - timedelta_days lookback_days in
  let metrics := filter (fun m => is_some (spotify_streams m))
                        (metrics_since db track_id since) in
  if Z.of_nat (List.length metrics) <? 30 then 0%R
  else
    let streams := map (fun m => val (spotify_streams m))
                       (filter (fun m => truthy (spotify_streams m)) metrics) in
    match streams with
    | [] => 0%R
    | _ =>
        if list_max streams =? 0 then 0%R
        else
          let mean_streams := np_mean streams in
          let std_streams := np_std streams in
          if Reqb mean_streams 0%R then 0%R
          else
            let cv := (std_streams / mean_streams)%R in
            let consistency_score := Rmax 0%R (1 - cv)%R in
            Rmin 1.0%R consistency_score
    end.

Definition calculate_stream_growth
    (track_id : string) (db : Session) (short_period long_period : Z) : R :=
  match recent_snapshot db track_id short_period,
        baseline_snapshot db track_id short_period long_period with
  | Some recent, Some baseline =>
      if negb (truthy (spotify_streams_7d recent)) || negb (truthy (spotify_streams_7d baseline))
      then 0%R
      else if val (spotify_streams_7d baseline) =? 0
      then (if 0 <? val (spotify_streams_7d recent) then 10.0%R else 0%R)
      else (IZR (val (spotify_streams_7d recent)) / IZR (val (spotify_streams_7d baseline)))%R
  | _, _ => 0%R
  end.

(** [len(active_months)]: number of distinct (year, month) keys *)
Definition pair_eq_dec (a b : Z * Z) : {a = b} + {a <> b}.
Proof. decide equality; apply Z.eq_dec. Defined.

Definition active_months (metrics : list TrackMetric.t) : list (Z * Z) :=
  nodup pair_eq_dec (map (fun m => year_month (timestamp m)) metrics).

Definition calculate_active_months_ratio
    (track_id : string) (db : Session) (lookback_days : Z) : result R :=
  let since := utcnow db - timedelta_days lookback_days in
  let metrics := filter (fun m => is_some (spotify_streams m) && (0 <? val (spotify_streams m)))
                        (metrics_since db track_id since) in
  match metrics with
  | [] => Ok 0%R
  | _ =>
      let expected_months := (IZR lookback_days / 30)%R in
      if lookback_days =? 0 then Raise (ZeroDivisionError [Lit "float division by zero"])
      else
        let ratio := (INR (List.length (active_months metrics)) / expected_months)%R in
        Ok (Rmin 1.0%R ratio)
  end.

(** The baseline window is [period] to 7 days back; the recent window is
    the last 7 days whatever [period] is. *)
Definition calculate_playlist_growth (track_id : string) (db : Session) (period : Z) : R :=
  match recent_snapshot db track_id 7, baseline_snapshot db track_id 7 period with
  | Some recent, Some baseline =>
      if negb (truthy (spotify_playlist_count recent))
         || negb (truthy (spotify_playlist_count baseline))
      then 0%R
      else if val (spotify_playlist_count baseline) =? 0
      then (if 0 <? val (spotify_playlist_count recent) then 5.0%R else 0%R)
      else (IZR (val (spotify_playlist_count recent))
            / IZR (val (spotify_playlist_count baseline)))%R
  | _, _ => 0%R
  end.

Definition has_chart_presence (track_id : string) (db : Session) (lookback_days : Z) : bool :=
  let since := utcnow db - timedelta_days lookback_days in
  existsb (fun m => is_some (spotify_chart_position m)) (metrics_since db track_id since).
End SpotifyFeatures.

Module TemporalFeatures.
(** [now] is the reading of [datetime.utcnow()].  The subtraction
    [now - track.first_discovered] raises [TypeError] when the nullable
    column holds NULL. *)
Definition get_track_age_days (now : Z) (track : Track.t) : result Z :=
  match Track.first_discovered track with
  | Some d => Ok (delta_days now d)
  | None =>
      Raise (TypeError
               [Lit "unsupported operand type(s) for -: 'datetime.datetime' and 'NoneType'"])
  end.

Definition is_new_discovery (now : Z) (track : Track.t) (threshold_days : Z) : result bool :=
  rbind (get_track_age_days now track) (fun age => Ok (age <=? threshold_days)).

Definition calculate_recency_score (track_id : string) (db : Session) : R :=
  match latest_metric (filter (fun m => String.eqb (TrackMetric.track_id m) track_id)
                              (track_metrics db)) with
  | None => 0%R
  | Some latest =>
      let days_old := delta_days (utcnow db) (TrackMetric.timestamp latest) in
      if days_old <=? 1 then 1.0%R
      else if days_old <=? 7 then 0.9%R
      else if days_old <=? 30 then 0.5%R
      else if days_old <=? 60 then 0.2%R
      else 0.0%R
  end.

Definition get_data_points_count (track_id : string) (db : Session) (lookback_days : Z) : Z :=
  let since := utcnow db - timedelta_days lookback_days in
  Z.of_nat (List.length (metrics_since db track_id since)).
End TemporalFeatures.

(* ================================================================= *)
(** ** Scorers ([scoring/]) *)

Definition components_t : Type := list (string * R).

Module TrendingScorer.
Import weights.

Definition normalize_velocity (velocity : R) : R :=
  let min_vel := min_velocity in
  let max_vel := max_velocity in
  if Rleb velocity min_vel then 0.0%R
  else if Rleb max_vel velocity then 1.0%R
  else ((velocity - min_vel) / (max_vel - min_vel))%R.

Definition _check_thresholds (track_id : string) (db : Session) : bool :=
  match recent_snapshot db track_id 7 with
  | None => false
  | Some recent =>
      if truthy (TrackMetric.tiktok_posts_7d recent)
         && (val (TrackMetric.tiktok_posts_7d recent) <? trending_min_tiktok_posts_7d)
      then false
      else if truthy (TrackMetric.spotify_streams_7d recent)
              && (val (TrackMetric.spotify_streams_7d recent) <? trending_min_spotify_streams_7d)
      then false
      else
        let data_points := TemporalFeatures.get_data_points_count track_id db 30 in
        if data_points <? trending_min_data_points then false else true
  end.

(** The weighted sum over the items of a weight table, scaled to 0-100. *)
Definition weighted_total (w : table) (components : components_t) : R :=
  (fold_left (fun total_score fw =>
                total_score + dict_get components (fst fw) 0.0 * snd fw)
             w 0.0 * 100)%R.

(** [calculate_score], over the weight table the module imported. *)
Definition calculate_score_with (W : table)
    (track : Track.t) (track_id : string) (db : Session)
  : R * components_t * bool :=
  let tiktok_posts_vel := TikTokFeatures.calculate_posts_velocity track_id db 7 30 in
  let tiktok_views_vel := TikTokFeatures.calculate_views_velocity track_id db 7 30 in
  let spotify_growth := SpotifyFeatures.calculate_stream_growth track_id db 7 30 in
  let playlist_growth := SpotifyFeatures.calculate_playlist_growth track_id db 30 in
  let cross_platform := TikTokFeatures.calculate_cross_platform_confirmation track_id db in
  let has_chart := TikTokFeatures.has_chart_entry track_id db 30
                   || SpotifyFeatures.has_chart_presence track_id db 30 in
  let components :=
    [ ("tiktok_posts_velocity", normalize_velocity tiktok_posts_vel);
      ("tiktok_views_velocity", normalize_velocity tiktok_views_vel);
      ("spotify_stream_growth", normalize_velocity spotify_growth);
      ("playlist_growth", normalize_velocity playlist_growth);
      ("cross_platform_boost", if cross_platform then 1.0%R else 0.0%R);
      ("chart_entry_bonus", if has_chart then 1.0%R else 0.0%R) ] in
  let total_score := weighted_total W components in
  let passes_threshold := _check_thresholds track_id db in
  (total_score, components, passes_threshold).

Definition calculate_score : Track.t -> string -> Session -> R * components_t * bool :=
  calculate_score_with TRENDING_WEIGHTS.
End TrendingScorer.

Module EvergreenScorer.
Import weights.

Definition _check_thresholds (track_id : string) (db : Session) : result bool :=
  let data_points := TemporalFeatures.get_data_points_count track_id db 365 in
  if data_points <? evergreen_min_data_points then Ok false
  else
    rbind (SpotifyFeatures.calculate_active_months_ratio track_id db 365) (fun active_ratio =>
    let expected_active := (IZR evergreen_min_active_months / 12)%R in
    if Rltb active_ratio expected_active then Ok false
    else
      let metrics := filter (fun m => is_some (TrackMetric.spotify_streams m))
                            (metrics_since db track_id (utcnow db - timedelta_days 180)) in
      match metrics with
      | [] => Ok false
      | _ =>
          let streams := map (fun m => val (TrackMetric.spotify_streams m))
                             (filter (fun m => truthy (TrackMetric.spotify_streams m)) metrics) in
          match streams with
          | [] => Ok true      (* [nan < 5000] is [False] *)
          | _ =>
              if Rltb (np_mean streams) (IZR evergreen_min_avg_streams) then Ok false
              else Ok true
          end
      end).

(** [calculate_score], over the weight table the module imported. *)
Definition calculate_score_with (W : table)
    (track : Track.t) (track_id : string) (db : Session)
  : result (R * components_t * bool) :=
  let consistency := SpotifyFeatures.calculate_stream_consistency track_id db 180 in
  rbind (SpotifyFeatures.calculate_active_months_ratio track_id db 365) (fun active_ratio =>
  let low_variance_bonus :=
    if Rltb 0.8%R consistency then 1.0%R
    else if Rltb 0.6%R consistency then 0.5%R
    else 0.0%R in
  let has_chart := SpotifyFeatures.has_chart_presence track_id db 180 in
  let components :=
    [ ("stream_consistency", consistency);
      ("active_months_ratio", active_ratio);
      ("low_variance_bonus", low_variance_bonus);
      ("chart_persistence", if has_chart then 1.0%R else 0.0%R) ] in
  let total_score := TrendingScorer.weighted_total W components in
  rbind (_check_thresholds track_id db) (fun passes_threshold =>
  Ok (total_score, components, passes_threshold))).

Definition calculate_score
  : Track.t -> string -> Session -> result (R * components_t * bool) :=
  calculate_score_with EVERGREEN_WEIGHTS.
End EvergreenScorer.

(** Importing the scoring package runs the body of [weights] first: the
    scorers exist only if it returns. *)
Record scoring_package : Type := mkScoring {
  trending_calculate_score : Track.t -> string -> Session -> R * components_t * bool;
  evergreen_calculate_score : Track.t -> string -> Session -> result (R * components_t * bool)
}.

Definition import_scoring (trending evergreen : weights.source_table)
  : result scoring_package :=
  rbind (weights.load_module trending evergreen) (fun w =>
    Ok (mkScoring (TrendingScorer.calculate_score_with (fst w))
                  (EvergreenScorer.calculate_score_with (snd w)))).

(* ================================================================= *)
(** ** Explainability engine ([explainability.py]) *)

Module ExplainabilityEngine.

Record explanation : Type := mkExplanation {
  why_selected : list text;
  risk_flags : list text
}.

(** [l.append(x)] when [c] holds *)
Definition append_if (c : bool) (l : list text) (x : text) : list text :=
  if c then (l ++ [x])%list else l.

Definition explain_trending
    (track : Track.t) (track_id : string) (components : components_t) (db : Session)
  : result explanation :=
  let why := [] in
  let risk := [] in
  let why := append_if (Rltb 0.5%R (dict_get components "tiktok_posts_velocity" 0%R)) why
               [Lit "TikTok posts growing ";
                FixedF 1 (TikTokFeatures.calculate_posts_velocity track_id db 7 30);
                Lit "x (7d vs 30d)"] in
  let why := append_if (Rltb 0.5%R (dict_get components "tiktok_views_velocity" 0%R)) why
               [Lit "TikTok views accelerating ";
                FixedF 1 (TikTokFeatures.calculate_views_velocity track_id db 7 30);
                Lit "x"] in
  let why := append_if (Rltb 0.5%R (dict_get components "spotify_stream_growth" 0%R)) why
               [Lit "Spotify streams up ";
                FixedF 1 (SpotifyFeatures.calculate_stream_growth track_id db 7 30);
                Lit "x in past week"] in
  let why := append_if (Rltb 0.5%R (dict_get components "playlist_growth" 0%R)) why
               [Lit "Adding to Spotify playlists rapidly"] in
  let cross := Reqb (dict_get components "cross_platform_boost" 0%R) 1.0%R in
  let why := append_if cross why
               [Lit "Growing on BOTH TikTok and Spotify (high confidence)"] in
  let risk := append_if (negb cross) risk
               [Lit "Single-platform growth only (may not translate)"] in
  let why := append_if (Reqb (dict_get components "chart_entry_bonus" 0%R) 1.0%R) why
               [Lit "Appeared on TikTok or Spotify charts"] in
  rbind (TemporalFeatures.get_track_age_days (utcnow db) track) (fun track_age =>
  let risk := append_if (track_age <? 7) risk
                [Lit "Very new to system ("; IntF track_age; Lit " days) - limited data"] in
  let data_points := TemporalFeatures.get_data_points_count track_id db 30 in
  let risk := append_if (data_points <? 15) risk
                [Lit "Limited historical data ("; IntF data_points; Lit " points)"] in
  let risk :=
    match recent_snapshot db track_id 7 with
    | Some recent =>
        let risk := append_if (negb (truthy (TrackMetric.tiktok_posts_7d recent))
                               || (val (TrackMetric.tiktok_posts_7d recent) <? 50)) risk
                      [Lit "Low/no TikTok presence"] in
        append_if (negb (truthy (TrackMetric.spotify_streams_7d recent))
                   || (val (TrackMetric.spotify_streams_7d recent) <? 10000)) risk
          [Lit "Low Spotify streams"]
    | None => risk
    end in
  Ok (mkExplanation why risk)).

Definition explain_evergreen
    (track : Track.t) (track_id : string) (components : components_t) (db : Session)
  : result explanation :=
  let why := [] in
  let risk := [] in
  let consistency := dict_get components "stream_consistency" 0%R in
  let why := append_if (Rltb 0.8%R consistency) why
               [Lit "Extremely consistent streams (CV score: "; FixedF 2 consistency; Lit ")"] in
  let why := append_if (negb (Rltb 0.8%R consistency) && Rltb 0.6%R consistency) why
               [Lit "Stable streaming pattern (CV score: "; FixedF 2 consistency; Lit ")"] in
  let risk := append_if (negb (Rltb 0.8%R consistency) && negb (Rltb 0.6%R consistency)) risk
                [Lit "Some variance in streams (CV score: "; FixedF 2 consistency; Lit ")"] in
  let active_ratio := dict_get components "active_months_ratio" 0%R in
  let months := py_int (active_ratio * 12)%R in
  let why := append_if (Rltb 0.9%R active_ratio) why
               [Lit "Active "; IntF months; Lit "/12 months in past year"] in
  let why := append_if (negb (Rltb 0.9%R active_ratio) && Rltb 0.7%R active_ratio) why
               [Lit "Consistent presence ("; IntF months; Lit "/12 months active)"] in
  let risk := append_if (negb (Rltb 0.9%R active_ratio) && negb (Rltb 0.7%R active_ratio)) risk
                [Lit "Gaps in streaming activity"] in
  let why := append_if (Reqb (dict_get components "low_variance_bonus" 0%R) 1.0%R) why
               [Lit "Very low variance - highly predictable cashflow"] in
  let why := append_if (Reqb (dict_get components "chart_persistence" 0%R) 1.0%R) why
               [Lit "Long-term chart presence (180+ days)"] in
  rbind (TemporalFeatures.get_track_age_days (utcnow db) track) (fun track_age =>
  let risk := append_if (track_age <? 180) risk
                [Lit "Relatively new ("; IntF track_age;
                 Lit " days) - evergreen status unproven"] in
  let data_points := TemporalFeatures.get_data_points_count track_id db 365 in
  let risk := append_if (data_points <? 180) risk
                [Lit "Limited long-term data ("; IntF data_points; Lit " points)"] in
  let growth := SpotifyFeatures.calculate_stream_growth track_id db 7 30 in
  let risk := append_if (Rltb 3.0%R growth) risk
                [Lit "Currently experiencing viral growth - may destabilize"] in
  let risk := append_if (negb (Rltb 3.0%R growth) && Rltb growth 0.7%R) risk
                [Lit "Declining streams - may be losing evergreen status"] in
  Ok (mkExplanation why risk)).

Definition generate_summary
    (track : Track.t) (trending_score evergreen_score : R) (mode : string)
    (why_selected risk_flags : list text) : text :=
  if String.eqb mode "trending" then
    let level :=
      if Rltb 80%R trending_score then "Strong"
      else if Rltb 60%R trending_score then "Moderate"
      else "Emerging" in
    let summary := [Lit level; Lit " momentum"] in
    match why_selected with
    | first :: _ => (summary ++ [Lit ": "] ++ first)%list
    | [] => summary
    end
  else
    let level :=
      if Rltb 80%R evergreen_score then "Highly stable"
      else if Rltb 60%R evergreen_score then "Stable"
      else "Moderately stable" in
    let summary := [Lit level; Lit " evergreen track"] in
    match why_selected with
    | first :: _ => (summary ++ [Lit " - "] ++ first)%list
    | [] => summary
    end.
End ExplainabilityEngine.

(* ================================================================= *)
(** ** Session operations *)

(** A computation on the session: it returns or raises, and leaves the
    session as it is at that point. *)
Definition M (A : Type) : Type := Session -> Session * result A.

Definition ret {A : Type} (a : A) : M A := fun db => (db, Ok a).

Definition bind {A B : Type} (m : M A) (k : A -> M B) : M B :=
  fun db =>
    match m db with
    | (db', Ok a) => k a db'
    | (db', Raise e) => (db', Raise e)
    end.

Notation "x <- m ;; k" := (bind m (fun x => k))
  (at level 61, m at next level, right associativity).
Notation "' p <- m ;; k" := (bind m (fun x => let 'p := x in k))
  (at level 61, p pattern, m at next level, right associativity).

(** [db.query(...)] that cannot raise, and a read-only call that can. *)
Definition query {A : Type} (f : Session -> A) : M A := fun db => (db, Ok (f db)).
Definition call {A : Type} (f : Session -> result A) : M A := fun db => (db, f db).

(** [try: body / except Exception as e: handler(e)] *)
Definition try_except {A : Type} (body : M A) (handler : py_exn -> M A) : M A :=
  fun db =>
    match body db with
    | (db', Ok a) => (db', Ok a)
    | (db', Raise e) => handler e db'
    end.

Definition set_pending (db : Session) (p : list pending_op) : Session :=
  mkSession (tracks db) (track_metrics db) (track_scores db) (discovery_runs db) p (utcnow db).

(** Autoincrement primary key: one more than the greatest key in use. *)
Definition next_id (ids : list Z) : Z := 1 + fold_right Z.max 0 ids.

(** [db.add(row)].  The primary key is drawn when the row is staged; the
    code commits right after every [add]. *)
Definition db_add_score (row : TrackScore.t) : M TrackScore.t :=
  fun db =>
    let row' := TrackScore.mk (next_id (map TrackScore.id (track_scores db)))
                  (TrackScore.track_id row) (TrackScore.computed_at row)
                  (TrackScore.trending_score row) (TrackScore.evergreen_score row)
                  (TrackScore.components row) (TrackScore.why_selected row)
                  (TrackScore.risk_flags row) in
    (set_pending db (pending db ++ [AddScore row']), Ok row').

Definition db_add_run (row : DiscoveryRun.t) : M DiscoveryRun.t :=
  fun db =>
    let row' := DiscoveryRun.mk (next_id (map DiscoveryRun.id (discovery_runs db)))
                  (DiscoveryRun.run_type row) (DiscoveryRun.started_at row)
                  (DiscoveryRun.completed_at row) (DiscoveryRun.tracks_processed row)
                  (DiscoveryRun.tracks_new row) (DiscoveryRun.tracks_updated row)
                  (DiscoveryRun.status row) (DiscoveryRun.error_message row) in
    (set_pending db (pending db ++ [AddRun row']), Ok row').

(** Attribute assignments on a persistent run: staged until the commit. *)
Definition db_set_run (row : DiscoveryRun.t) : M unit :=
  fun db => (set_pending db (pending db ++ [SetRun row]), Ok tt).

Definition apply_op (db : Session) (op : pending_op) : Session :=
  match op with
  | AddScore row =>
      mkSession (tracks db) (track_metrics db) (track_scores db ++ [row])
                (discovery_runs db) (pending db) (utcnow db)
  | AddRun row =>
      mkSession (tracks db) (track_metrics db) (track_scores db)
                (discovery_runs db ++ [row]) (pending db) (utcnow db)
  | SetRun row =>
      mkSession (tracks db) (track_metrics db) (track_scores db)
                (map (fun r => if DiscoveryRun.id r =? DiscoveryRun.id row then row else r)
                     (discovery_runs db))
                (pending db) (utcnow db)
  end.

(** [db.commit()] *)
Definition db_commit : M unit :=
  fun db => (fold_left apply_op (pending db) (set_pending db []), Ok tt).

(* ================================================================= *)
(** ** Selectors ([selectors/]) *)

(** One element of the list [select_tracks] returns; [score] is the value
    under the key ["trending_score"] or ["evergreen_score"]. *)
Module ScoredTrack.
Record t : Type := mk {
  track_id : string;
  title : string;
  artist_name : string;
  score : R;
  components : components_t;
  summary : text;
  why_selected : list text;
  risk_flags : list text;
  first_discovered : text
}.
End ScoredTrack.

(** [{k: round(v, n) for k, v in components.items()}] *)
Definition round_components (n : nat) (components : components_t) : components_t :=
  map (fun kv => (fst kv, py_round (snd kv) n)) components.

(** [track.first_discovered.isoformat()] *)
Definition isoformat (d : option Z) : result text :=
  match d with
  | Some i => Ok [IsoF i]
  | None => Raise (AttributeError [Lit "'NoneType' object has no attribute 'isoformat'"])
  end.

(** [l.sort(key=score, reverse=True)]: stable, greatest score first. *)
Fixpoint insert_desc (x : ScoredTrack.t) (l : list ScoredTrack.t) : list ScoredTrack.t :=
  match l with
  | [] => [x]
  | y :: l' =>
      if Rltb (ScoredTrack.score x) (ScoredTrack.score y)
      then y :: insert_desc x l'
      else x :: y :: l'
  end.

Definition sort_desc (l : list ScoredTrack.t) : list ScoredTrack.t :=
  fold_right insert_desc [] l.

(** [l[:limit]]: a negative [limit] counts from the end. *)
Definition slice_to {A : Type} (l : list A) (limit : Z) : list A :=
  if 0 <=? limit then firstn (Z.to_nat limit) l
  else firstn (Z.to_nat (Z.of_nat (List.length l) + limit)) l.

(** The two selectors run the same loops over their own scorer, explainer
    and mode.  The loops only compare, round and copy the numbers the scorer
    returns, so they are written over any scorer and explainer: what is
    proved of them holds for the exact arithmetic of the scorers above and
    for the numbers a scorer returns in binary floating point alike. *)
Section SelectorLoops.
Variable calculate_score : Track.t -> string -> Session -> result (R * components_t * bool).
Variable explain : Track.t -> string -> components_t -> Session
                   -> result ExplainabilityEngine.explanation.
Variable summarize : Track.t -> R -> list text -> list text -> text.

(** The [for track in tracks] loop of [select_tracks]. *)
Fixpoint score_loop (tracks : list Track.t) (min_score : R)
    (scored_tracks : list ScoredTrack.t) : M (list ScoredTrack.t) :=
  match tracks with
  | [] => ret scored_tracks
  | track :: rest =>
      '(score, components, passes_threshold) <- call (calculate_score track (Track.id track)) ;;
      if negb passes_threshold || Rltb score min_score
      then score_loop rest min_score scored_tracks
      else
        explanation <- call (explain track (Track.id track) components) ;;
        let summary := summarize track score
                         (ExplainabilityEngine.why_selected explanation)
                         (ExplainabilityEngine.risk_flags explanation) in
        iso <- call (fun _ => isoformat (Track.first_discovered track)) ;;
        score_loop rest min_score
          (scored_tracks ++
           [ScoredTrack.mk (Track.id track) (Track.title track) (Track.artist_name track)
              (py_round score 2) (round_components 3 components) summary
              (ExplainabilityEngine.why_selected explanation)
              (ExplainabilityEngine.risk_flags explanation) iso])
  end.

Definition select_from (tracks : list Track.t) (limit : Z) (min_score : R)
  : M (list ScoredTrack.t) :=
  scored_tracks <- score_loop tracks min_score [] ;;
  ret (slice_to (sort_desc scored_tracks) limit).

Variable score_and_persist : Track.t -> string -> M (option TrackScore.t).

(** The [for track_id in track_ids] loop of [run_discovery_batch], with its
    two counters. *)
Fixpoint batch_loop (track_ids : list string) (tracks_processed tracks_scored : Z)
  : M (Z * Z) :=
  match track_ids with
  | [] => ret (tracks_processed, tracks_scored)
  | track_id :: rest =>
      found <- query (fun db => find_track db track_id) ;;
      match found with
      | None => batch_loop rest tracks_processed tracks_scored
      | Some track =>
          let tracks_processed := tracks_processed + 1 in
          score <- score_and_persist track track_id ;;
          batch_loop rest tracks_processed
            (if is_some score then tracks_scored + 1 else tracks_scored)
      end
  end.

(** The run is created with [run_type], [started_at] and [status]; the
    other columns take their defaults (counters 0, the rest NULL). *)
Definition run_batch (run_type : string) (track_ids : list string) : M DiscoveryRun.t :=
  now <- query utcnow ;;
  run <- db_add_run (DiscoveryRun.mk 0 run_type now None 0 0 0 "running" None) ;;
  _ <- db_commit ;;
  run <- try_except
           ('(tracks_processed, tracks_scored) <- batch_loop track_ids 0 0 ;;
            now <- query utcnow ;;
            let run := DiscoveryRun.mk (DiscoveryRun.id run) (DiscoveryRun.run_type run)
                         (DiscoveryRun.started_at run) (Some now) tracks_processed
                         (DiscoveryRun.tracks_new run) tracks_scored "completed"
                         (DiscoveryRun.error_message run) in
            _ <- db_set_run run ;;
            ret run)
           (fun e =>
              let run := DiscoveryRun.mk (DiscoveryRun.id run) (DiscoveryRun.run_type run)
                           (DiscoveryRun.started_at run) (DiscoveryRun.completed_at run)
                           (DiscoveryRun.tracks_processed run) (DiscoveryRun.tracks_new run)
                           (DiscoveryRun.tracks_updated run) "failed" (Some (str_exn e)) in
              _ <- db_set_run run ;;
              ret run) ;;
  _ <- db_commit ;;
  ret run.
End SelectorLoops.

Module TrendingSelector.

Definition summarize (track : Track.t) (score : R) (why risk : list text) : text :=
  ExplainabilityEngine.generate_summary track score 0.0%R "trending" why risk.

(** The body of [select_tracks], over the scorer and the explainer it
    calls. *)
Definition select_tracks_with
    (calculate_score : Track.t -> string -> Session -> result (R * components_t * bool))
    (explain : Track.t -> string -> components_t -> Session
               -> result ExplainabilityEngine.explanation)
    (limit : Z) (min_score : R) (platform country : option string)
  : M (list ScoredTrack.t) :=
  tracks <- query tracks ;;
  select_from calculate_score explain summarize tracks limit min_score.

Definition select_tracks (limit : Z) (min_score : R) (platform country : option string)
  : M (list ScoredTrack.t) :=
  tracks <- query tracks ;;
  select_from (fun track track_id db => Ok (TrendingScorer.calculate_score track track_id db))
              ExplainabilityEngine.explain_trending summarize tracks limit min_score.

Definition score_and_persist (track : Track.t) (track_id : string) : M (option TrackScore.t) :=
  '(score, components, passes_threshold) <-
     query (TrendingScorer.calculate_score track track_id) ;;
  if negb passes_threshold then ret None
  else
    explanation <- call (ExplainabilityEngine.explain_trending track track_id components) ;;
    now <- query utcnow ;;
    track_score <- db_add_score
                     (TrackScore.mk 0 track_id now (Some score) None
                        (round_components 4 components)
                        (ExplainabilityEngine.why_selected explanation)
                        (ExplainabilityEngine.risk_flags explanation)) ;;
    _ <- db_commit ;;
    ret (Some track_score).

Definition run_discovery_batch (track_ids : list string) : M DiscoveryRun.t :=
  run_batch score_and_persist "trending" track_ids.
End TrendingSelector.

Module EvergreenSelector.

Definition summarize (track : Track.t) (score : R) (why risk : list text) : text :=
  ExplainabilityEngine.generate_summary track 0.0%R score "evergreen" why risk.

(** [Track.first_discovered <= min_age]; a NULL column never satisfies it. *)
Definition old_enough (min_age : Z) (track : Track.t) : bool :=
  match Track.first_discovered track with
  | Some d => d <=? min_age
  | None => false
  end.

(** The body of [select_tracks], over the scorer and the explainer it
    calls. *)
Definition select_tracks_with
    (calculate_score : Track.t -> string -> Session -> result (R * components_t * bool))
    (explain : Track.t -> string -> components_t -> Session
               -> result ExplainabilityEngine.explanation)
    (limit : Z) (min_score : R) (min_months : Z)
  : M (list ScoredTrack.t) :=
  now <- query utcnow ;;
  let min_age := now - timedelta_days (min_months * 30) in
  tracks <- query (fun db => filter (old_enough min_age) (tracks db)) ;;
  select_from calculate_score explain summarize tracks limit min_score.

Definition select_tracks (limit : Z) (min_score : R) (min_months : Z)
  : M (list ScoredTrack.t) :=
  now <- query utcnow ;;
  let min_age := now - timedelta_days (min_months * 30) in
  tracks <- query (fun db => filter (old_enough min_age) (tracks db)) ;;
  select_from EvergreenScorer.calculate_score
              ExplainabilityEngine.explain_evergreen summarize tracks limit min_score.

Definition score_and_persist (track : Track.t) (track_id : string) : M (option TrackScore.t) :=
  '(score, components, passes_threshold) <-
     call (EvergreenScorer.calculate_score track track_id) ;;
  if negb passes_threshold then ret None
  else
    explanation <- call (ExplainabilityEngine.explain_evergreen track track_id components) ;;
    existing_score <- query (fun db => latest_score (scores_of db track_id)) ;;
    now <- query utcnow ;;
    let track_score := TrackScore.mk 0 track_id now None (Some score)
                         (round_components 4 components)
                         (ExplainabilityEngine.why_selected explanation)
                         (ExplainabilityEngine.risk_flags explanation) in
    let track_score :=
      match existing_score with
      | Some existing =>
          if truthy_float (TrackScore.trending_score existing)
          then TrackScore.set_trending_score track_score (TrackScore.trending_score existing)
          else track_score
      | None => track_score
      end in
    track_score <- db_add_score track_score ;;
    _ <- db_commit ;;
    ret (Some track_score).

Definition run_discovery_batch (track_ids : list string) : M DiscoveryRun.t :=
  run_batch score_and_persist "evergreen" track_ids.
End EvergreenSelector.

(* ================================================================= *)
(** ** API callers ([api/discovery/]) *)

(** How an endpoint body ends: it returns its JSON body, it raises an
    [HTTPException], or an exception escapes it (FastAPI answers 500). *)
Inductive api_outcome (A : Type) : Type :=
| Returned (body : A)
| HTTPException (status_code : Z) (detail : text)
| Unhandled (e : py_exn).
Arguments Returned {A} body.
Arguments HTTPException {A} status_code detail.
Arguments Unhandled {A} e.

Definition endpoint (A : Type) : Type := Session -> Session * api_outcome A.

(** The body of the two refresh endpoints; [score] is the value under
    ["trending_score"] or ["evergreen_score"]. *)
Module Refreshed.
Record t : Type := mk {
  track_id : string;
  score : option R;
  computed_at : text;
  why_selected : list text;
  risk_flags : list text
}.
End Refreshed.

Module TrendingAPI.

(** The body of the list endpoint. *)
Record listing : Type := mkListing {
  total : Z;
  limit : Z;
  min_score : R;
  filters_platform : option string;
  filters_country : option string;
  tracks : list ScoredTrack.t
}.

(** [limit] and [min_score] arrive validated by their [Query] bounds
    ([1 <= limit <= 200], [0 <= min_score <= 100]). *)
Definition get_trending_tracks (limit : Z) (min_score : R)
    (platform country : option string) : endpoint listing :=
  fun db =>
    match TrendingSelector.select_tracks limit min_score platform country db with
    | (db', Ok tracks) =>
        (db', Returned (mkListing (Z.of_nat (List.length tracks)) limit min_score
                                  platform country tracks))
    | (db', Raise e) =>
        (db', HTTPException 500 ([Lit "Error fetching trending tracks: "] ++ str_exn e)%list)
    end.

Definition refresh_trending_score (track_id : string) : endpoint Refreshed.t :=
  fun db =>
    match find_track db track_id with
    | None => (db, HTTPException 404 [Lit "Track not found"])
    | Some track =>
        match TrendingSelector.score_and_persist track track_id db with
        | (db', Raise e) => (db', Unhandled e)
        | (db', Ok None) =>
            (db', HTTPException 400
                    [Lit "Track does not meet minimum thresholds for trending scoring"])
        | (db', Ok (Some track_score)) =>
            (db', Returned (Refreshed.mk track_id
                              (TrackScore.trending_score track_score)
                              [IsoF (TrackScore.computed_at track_score)]
                              (TrackScore.why_selected track_score)
                              (TrackScore.risk_flags track_score)))
        end
    end.
End TrendingAPI.

Module EvergreenAPI.

(** The body of the list endpoint. *)
Record listing : Type := mkListing {
  total : Z;
  limit : Z;
  min_score : R;
  min_months : Z;
  tracks : list ScoredTrack.t
}.

(** The arguments arrive validated by their [Query] bounds
    ([1 <= limit <= 200], [0 <= min_score <= 100], [3 <= min_months <= 24]). *)
Definition get_evergreen_tracks (limit : Z) (min_score : R) (min_months : Z)
  : endpoint listing :=
  fun db =>
    match EvergreenSelector.select_tracks limit min_score min_months db with
    | (db', Ok tracks) =>
        (db', Returned (mkListing (Z.of_nat (List.length tracks)) limit min_score
                                  min_months tracks))
    | (db', Raise e) =>
        (db', HTTPException 500 ([Lit "Error fetching evergreen tracks: "] ++ str_exn e)%list)
    end.

Definition refresh_evergreen_score (track_id : string) : endpoint Refreshed.t :=
  fun db =>
    match find_track db track_id with
    | None => (db, HTTPException 404 [Lit "Track not found"])
    | Some track =>
        match EvergreenSelector.score_and_persist track track_id db with
        | (db', Raise e) => (db', Unhandled e)
        | (db', Ok None) =>
            (db', HTTPException 400
                    [Lit "Track does not meet minimum thresholds for evergreen scoring"])
        | (db', Ok (Some track_score)) =>
            (db', Returned (Refreshed.mk track_id
                              (TrackScore.evergreen_score track_score)
                              [IsoF (TrackScore.computed_at track_score)]
                              (TrackScore.why_selected track_score)
                              (TrackScore.risk_flags track_score)))
        end
    end.
End EvergreenAPI.

Module ExplainAPI.

(** One of the blocks under ["trending"] and ["evergreen"]. *)
Record block : Type := mkBlock {
  score : option R;
  computed_at : text;
  why_selected : list text;
  risk_flags : list text;
  components : components_t
}.

(** The body of [explain_track]; a block that is [None] is a key the dict
    does not have. *)
Record explained : Type := mkExplained {
  track : string * string * string;      (* id, title, artist_name *)
  trending : option block;
  evergreen : option block
}.

(** [filter(track_id == t, <score>.isnot(None)).order_by(computed_at.desc()).first()] *)
Definition latest_with (score_of : TrackScore.t -> option R) (db : Session)
    (track_id : string) : option TrackScore.t :=
  latest_score (filter (fun s => is_some (score_of s)) (scores_of db track_id)).

Definition explain_track (track_id : string) : endpoint explained :=
  fun db =>
    match find_track db track_id with
    | None => (db, HTTPException 404 [Lit "Track not found"])
    | Some track =>
        let latest_trending := latest_with TrackScore.trending_score db track_id in
        let latest_evergreen := latest_with TrackScore.evergreen_score db track_id in
        let trending_block :=
          option_map (fun s => mkBlock (TrackScore.trending_score s)
                                       [IsoF (TrackScore.computed_at s)]
                                       (TrackScore.why_selected s)
                                       (TrackScore.risk_flags s)
                                       (TrackScore.components s))
                     latest_trending in
        let evergreen_block :=
          option_map (fun s => mkBlock (TrackScore.evergreen_score s)
                                       [IsoF (TrackScore.computed_at s)]
                                       (TrackScore.why_selected s)
                                       (TrackScore.risk_flags s)
                                       (TrackScore.components s))
                     latest_evergreen in
        if negb (is_some latest_trending) && negb (is_some latest_evergreen)
        then (db, HTTPException 404 [Lit "No scores available for this track"])
        else (db, Returned (mkExplained
                              (Track.id track, Track.title track, Track.artist_name track)
                              trending_block evergreen_block))
    end.
End ExplainAPI.

(* ================================================================= *)
(** ** Example sessions *)

Definition day : Z := 86400000000.

(** A metric row with the columns the examples set. *)
Definition metric (track_id : string) (ts : Z)
    (streams streams_7d playlists posts_7d views_7d : option Z) : TrackMetric.t :=
  TrackMetric.mk track_id ts streams streams_7d None playlists None
                 None posts_7d None None views_7d None None.

Definition session_of (ts : list Track.t) (ms : list TrackMetric.t)
    (ss : list TrackScore.t) : Session :=
  mkSession ts ms ss [] [] (1000 * day).

(** A track whose baseline snapshot (10 days back) has no TikTok posts, no
    playlists and no streams, and whose recent snapshot (yesterday) has 100
    posts, 12 playlists and 20000 streams. *)
Definition zero_baseline_recent : TrackMetric.t :=
  metric "t1" (999 * day) None (Some 20000) (Some 12) (Some 100) None.

Definition zero_baseline_base : TrackMetric.t :=
  metric "t1" (990 * day) None (Some 0) (Some 0) (Some 0) None.

Definition zero_baseline_db : Session :=
  session_of [Track.mk "t1" "Song" "Artist" (Some (900 * day))]
             [zero_baseline_base; zero_baseline_recent] [].

(** Seven daily rows, the latest one yesterday, every one reporting 0 TikTok
    posts and 0 Spotify streams over 7 days. *)
Definition zero_activity_db : Session :=
  session_of [Track.mk "t1" "Song" "Artist" (Some (900 * day))]
             (map (fun i => metric "t1" ((993 + Z.of_nat i) * day) None (Some 0) None (Some 0) None)
                  (seq 0 7))
             [].

(** Thirty daily rows of 30000 streams each. *)
Definition steady_db : Session :=
  session_of [Track.mk "t1" "Song" "Artist" (Some (700 * day))]
             (map (fun i => metric "t1" ((970 + Z.of_nat i) * day) (Some 30000) None None None None)
                  (seq 0 30))
             [].

(** A track discovered ten days ago, and one whose discovery date is NULL,
    neither with any metric row. *)
Definition new_track : Track.t := Track.mk "t1" "Song" "Artist" (Some (990 * day)).
Definition undated_track : Track.t := Track.mk "t2" "Demo" "Artist" None.
Definition no_metrics_db : Session := session_of [new_track; undated_track] [] [].

(** A track that passes the trending gate (seven daily rows, the latest one
    yesterday) and whose latest score row carries an evergreen score of
    72.5 and no trending score. *)
Definition seven_rows (track_id : string) : list TrackMetric.t :=
  map (fun i => metric track_id ((993 + Z.of_nat i) * day) None None None None None)
      (seq 0 7).

Definition prior_evergreen_row : TrackScore.t :=
  TrackScore.mk 1 "t1" (998 * day) None (Some 72.5%R) [] [] [].

Definition carry_db : Session :=
  session_of [Track.mk "t1" "Song" "Artist" (Some (900 * day))]
             (seven_rows "t1") [prior_evergreen_row].

(** Two tracks that pass the trending gate; the second has a NULL
    discovery date, so explaining its score raises. *)
Definition dated_track : Track.t := Track.mk "t1" "Song" "Artist" (Some (900 * day)).

Definition failing_batch_db : Session :=
  session_of [dated_track; undated_track] (seven_rows "t1" ++ seven_rows "t2") [].

(** A session without tracks. *)
Definition empty_db : Session := session_of [] [] [].

(** Two tracks that pass the trending gate, both with a discovery date. *)
Definition second_track : Track.t := Track.mk "t2" "Other" "Artist" (Some (800 * day)).

Definition two_tracks_db : Session :=
  session_of [dated_track; second_track] (seven_rows "t1" ++ seven_rows "t2") [].

(** A track growing on both platforms: 20 to 200 posts, 1000 to 9000 views,
    10000 to 30000 streams and 10 to 15 playlists between the baseline
    snapshot (10 days back) and the recent one (yesterday). *)
Definition growing_base : TrackMetric.t :=
  metric "t1" (990 * day) (Some 1500) (Some 10000) (Some 10) (Some 20) (Some 1000).

Definition growing_recent : TrackMetric.t :=
  metric "t1" (999 * day) (Some 4000) (Some 30000) (Some 15) (Some 200) (Some 9000).

Definition growing_db : Session :=
  session_of [Track.mk "t1" "Song" "Artist" (Some (900 * day))]
             [growing_base; growing_recent] [].

(** The same session read [n] days later. *)
Definition days_later (n : Z) (db : Session) : Session :=
  mkSession (tracks db) (track_metrics db) (track_scores db) (discovery_runs db)
            (pending db) (utcnow db + n * day).

(** A track with one row, two days old, that holds Spotify chart position
    5 and positive streams. *)
Definition charted_db : Session :=
  session_of [Track.mk "t1" "Song" "Artist" (Some (900 * day))]
             [TrackMetric.mk "t1" (998 * day) (Some 4000) None None None (Some 5)
                             None None None None None None None]
             [].

(** A track whose only row is stamped with the current instant. *)
Definition fresh_row_db : Session :=
  session_of [Track.mk "t1" "Song" "Artist" (Some (900 * day))]
             [metric "t1" (1000 * day) (Some 5) None None None None] [].

(** A track with ninety rows of 8000 streams, one every second day from
    637 to 815 days after the epoch (seven calendar months, all within the
    last year and none within the last 180 days), and one row of yesterday
    with 0 streams. *)
Definition dormant_db : Session :=
  session_of [Track.mk "t1" "Song" "Artist" (Some (600 * day))]
             (map (fun i => metric "t1" ((637 + 2 * Z.of_nat i) * day)
                                   (Some 8000) None None None None)
                  (seq 0 90)
              ++ [metric "t1" (999 * day) (Some 0) None None None None])
             [].

(** ** Statements and shapes used in the proofs *)

(** The session after one score row has been added and committed. *)
Definition commit_score (db : Session) (row : TrackScore.t) : Session :=
  mkSession (tracks db) (track_metrics db) (track_scores db ++ [row])
            (discovery_runs db) [] (utcnow db).

(** The row [TrendingSelector.score_and_persist] builds. *)
Definition trending_row (track : Track.t) (track_id : string) (db : Session)
    (explanation : ExplainabilityEngine.explanation) : TrackScore.t :=
  TrackScore.mk (next_id (map TrackScore.id (track_scores db))) track_id (utcnow db)
    (Some (fst (fst (TrendingScorer.calculate_score track track_id db)))) None
    (round_components 4 (snd (fst (TrendingScorer.calculate_score track track_id db))))
    (ExplainabilityEngine.why_selected explanation)
    (ExplainabilityEngine.risk_flags explanation).

(** The rows [calculate_stream_consistency] counts (stream count not null,
    inside the window) and the values it averages (those of them that are
    not 0). *)
Definition consistency_rows (track_id : string) (db : Session) (lookback_days : Z)
  : list TrackMetric.t :=
  filter (fun m => is_some (TrackMetric.spotify_streams m))
         (metrics_since db track_id (utcnow db - timedelta_days lookback_days)).

Definition consistency_streams (track_id : string) (db : Session) (lookback_days : Z)
  : list Z :=
  map (fun m => val (TrackMetric.spotify_streams m))
      (filter (fun m => truthy (TrackMetric.spotify_streams m))
              (consistency_rows track_id db lookback_days)).

(** The test of the two asserts of [validate_weights], [abs(s - 1.0) < 0.001]
    in binary64, on the sum of a table. *)
Definition sums_to_one (w : weights.float_table) : bool :=
  PrimFloat.ltb (PrimFloat.abs (PrimFloat.sub (weights.sum_values w) PrimFloat.one))
                (literal_float (mkLiteral 1 3)).

(** A table of one weight, [d / 1000]. *)
Definition one_weight (d : Z) : weights.source_table :=
  [ ("stream_consistency", mkLiteral d 3) ].

(** An evergreen table of two weights, 0.5 and 0.501. *)
Definition boundary_table : weights.source_table :=
  [ ("stream_consistency", mkLiteral 5 1); ("active_months_ratio", mkLiteral 501 3) ].

(** The trending gate in the words of the specification: a 7-day field that
    is present is compared with its minimum, whatever its value. *)
Definition claimed_trending_gate (track_id : string) (db : Session) : bool :=
  match recent_snapshot db track_id 7 with
  | None => false
  | Some recent =>
      match TrackMetric.tiktok_posts_7d recent with
      | None => true
      | Some v => 50 <=? v
      end
      && match TrackMetric.spotify_streams_7d recent with
         | None => true
         | Some v => 10000 <=? v
         end
      && (7 <=? TemporalFeatures.get_data_points_count track_id db 30)
  end.

(** The shape shared by the four velocity extractors: [cap] is the constant
    of the zero-baseline branch. *)
Definition velocity_of (cap : R) (recent baseline : option Z) : R :=
  if negb (truthy recent) || negb (truthy baseline) then 0%R
  else if val baseline =? 0 then (if 0 <? val recent then cap else 0%R)
  else (IZR (val recent) / IZR (val baseline))%R.

(** The row [EvergreenSelector.score_and_persist] builds: the prior trending
    score is copied when the latest row of the track has a truthy one. *)
Definition evergreen_row (track_id : string) (db : Session) (score : R)
    (components : components_t) (explanation : ExplainabilityEngine.explanation)
  : TrackScore.t :=
  TrackScore.mk (next_id (map TrackScore.id (track_scores db))) track_id (utcnow db)
    match latest_score (scores_of db track_id) with
    | Some existing =>
        if truthy_float (TrackScore.trending_score existing)
        then TrackScore.trending_score existing else None
    | None => None
    end
    (Some score) (round_components 4 components)
    (ExplainabilityEngine.why_selected explanation)
    (ExplainabilityEngine.risk_flags explanation).

(** The audit row as created, as completed and as failed, and the session
    once it is written. *)
Definition start_run (run_type : string) (db : Session) : DiscoveryRun.t :=
  DiscoveryRun.mk (next_id (map DiscoveryRun.id (discovery_runs db))) run_type (utcnow db)
                  None 0 0 0 "running" None.

Definition started (run_type : string) (db : Session) : Session :=
  mkSession (tracks db) (track_metrics db) (track_scores db)
            (discovery_runs db ++ [start_run run_type db]) [] (utcnow db).

Definition completed_run (run : DiscoveryRun.t) (now processed scored : Z) : DiscoveryRun.t :=
  DiscoveryRun.mk (DiscoveryRun.id run) (DiscoveryRun.run_type run)
                  (DiscoveryRun.started_at run) (Some now) processed
                  (DiscoveryRun.tracks_new run) scored "completed"
                  (DiscoveryRun.error_message run).

Definition failed_run (run : DiscoveryRun.t) (e : py_exn) : DiscoveryRun.t :=
  DiscoveryRun.mk (DiscoveryRun.id run) (DiscoveryRun.run_type run)
                  (DiscoveryRun.started_at run) (DiscoveryRun.completed_at run)
                  (DiscoveryRun.tracks_processed run) (DiscoveryRun.tracks_new run)
                  (DiscoveryRun.tracks_updated run) "failed" (Some (str_exn e)).

Definition write_run (db : Session) (row : DiscoveryRun.t) : Session :=
  mkSession (tracks db) (track_metrics db) (track_scores db)
            (map (fun r => if DiscoveryRun.id r =? DiscoveryRun.id row then row else r)
                 (discovery_runs db))
            [] (utcnow db).

(** What a [score_and_persist] does to a session with nothing staged: it
    returns no score or raises and leaves the session as it is, or it
    commits exactly one new row and returns it. *)
Definition persists_one_row (sp : Track.t -> string -> M (option TrackScore.t)) : Prop :=
  forall track track_id db,
    pending db = [] ->
    sp track track_id db = (db, Ok None)
    \/ (exists e, sp track track_id db = (db, Raise e))
    \/ (exists row, sp track track_id db = (commit_score db row, Ok (Some row))).

(** Number of the ids that name a track of the session. *)
Definition found_count (db : Session) (track_ids : list string) : Z :=
  Z.of_nat (List.length (filter (fun i => is_some (find_track db i)) track_ids)).

(** [db'] is [db] with the score rows [extra] appended and nothing staged. *)
Definition grown (db db' : Session) (extra : list TrackScore.t) : Prop :=
  pending db' = []
  /\ tracks db' = tracks db
  /\ track_metrics db' = track_metrics db
  /\ discovery_runs db' = discovery_runs db
  /\ utcnow db' = utcnow db
  /\ track_scores db' = (track_scores db ++ extra)%list.

(** What one run of a batch method [batch] over the loop of [sp] leaves
    behind.  The audit row is committed with status "running", and no score
    row is written, before the loop starts from that session; the call
    returns the final audit row, which replaces the initial one; every score
    row the loop committed is in the final table.  On normal completion the
    row is "completed" and holds the two counters; when the loop raised at
    some track, it is "failed" and holds the message of the exception, its
    counters and [completed_at] are as created (0, 0 and NULL) although at
    least one track was attempted, and the session is the one the tracks
    before the failing one left. *)
Definition batch_postcondition
    (sp : Track.t -> string -> M (option TrackScore.t))
    (batch : list string -> M DiscoveryRun.t)
    (run_type : string) (track_ids : list string) (db : Session) : Prop :=
  let run0 := start_run run_type db in
  let db1 := started run_type db in
  In run0 (discovery_runs db1)
  /\ DiscoveryRun.status run0 = "running"
  /\ pending db1 = []
  /\ track_scores db1 = track_scores db
  /\ exists db2 r extra db3 run,
      batch_loop sp track_ids 0 0 db1 = (db2, r)
      /\ batch track_ids db = (db3, Ok run)
      /\ discovery_runs db3 = (discovery_runs db ++ [run])%list
      /\ DiscoveryRun.run_type run = run_type
      /\ track_scores db2 = (track_scores db ++ extra)%list
      /\ track_scores db3 = track_scores db2
      /\ match r with
         | Ok (processed, scored) =>
             DiscoveryRun.status run = "completed"
             /\ DiscoveryRun.completed_at run = Some (utcnow db)
             /\ DiscoveryRun.error_message run = None
             /\ DiscoveryRun.tracks_processed run = processed
             /\ processed = found_count db track_ids
             /\ DiscoveryRun.tracks_updated run = scored
             /\ scored = Z.of_nat (List.length extra)
         | Raise e =>
             DiscoveryRun.status run = "failed"
             /\ DiscoveryRun.error_message run = Some (str_exn e)
             /\ DiscoveryRun.tracks_processed run = 0
             /\ DiscoveryRun.tracks_updated run = 0
             /\ DiscoveryRun.completed_at run = None
             /\ exists before failing rest track processed scored,
                 track_ids = (before ++ failing :: rest)%list
                 /\ batch_loop sp before 0 0 db1 = (db2, Ok (processed, scored))
                 /\ processed = found_count db before
                 /\ scored = Z.of_nat (List.length extra)
                 /\ find_track db failing = Some track
                 /\ sp track failing db2 = (db2, Raise e)
         end.

(** [sp'] does what [sp] does on every session that has nothing staged and
    holds the audit row [run0]. *)
Definition agree_where_committed
    (run0 : DiscoveryRun.t) (sp sp' : Track.t -> string -> M (option TrackScore.t)) : Prop :=
  forall track track_id db,
    pending db = [] ->
    In run0 (discovery_runs db) ->
    sp' track track_id db = sp track track_id db.

(** Greatest score first. *)
Definition by_score_desc (a b : ScoredTrack.t) : Prop :=
  (ScoredTrack.score b <= ScoredTrack.score a)%R.

(** An element of a selection: it is built from a candidate track for
    which the scorer reported the gate passed and a score of at least
    [min_score], and pairs that score rounded to 2 digits with the
    components rounded to 3, the summary and the two lists of the
    explanation. *)
Definition selected_entry
    (calculate_score : Track.t -> string -> Session -> result (R * components_t * bool))
    (explain : Track.t -> string -> components_t -> Session
               -> result ExplainabilityEngine.explanation)
    (summarize : Track.t -> R -> list text -> list text -> text)
    (db : Session) (min_score : R) (candidates : list Track.t)
    (entry : ScoredTrack.t) : Prop :=
  exists track score components explanation iso,
    In track candidates
    /\ calculate_score track (Track.id track) db = Ok (score, components, true)
    /\ (min_score <= score)%R
    /\ explain track (Track.id track) components db = Ok explanation
    /\ isoformat (Track.first_discovered track) = Ok iso
    /\ entry = ScoredTrack.mk (Track.id track) (Track.title track) (Track.artist_name track)
                 (py_round score 2) (round_components 3 components)
                 (summarize track score
                    (ExplainabilityEngine.why_selected explanation)
                    (ExplainabilityEngine.risk_flags explanation))
                 (ExplainabilityEngine.why_selected explanation)
                 (ExplainabilityEngine.risk_flags explanation) iso.

(** What a [select_tracks] call [out] on the session [db] guarantees: the
    session is unchanged, and a returned list is sorted by descending score,
    has at most [limit] entries when [limit] is not negative, and holds
    selected entries only. *)
Definition select_postcondition
    (calculate_score : Track.t -> string -> Session -> result (R * components_t * bool))
    (explain : Track.t -> string -> components_t -> Session
               -> result ExplainabilityEngine.explanation)
    (summarize : Track.t -> R -> list text -> list text -> text)
    (candidates : list Track.t) (limit : Z) (min_score : R) (db : Session)
    (out : Session * result (list ScoredTrack.t)) : Prop :=
  fst out = db
  /\ forall l, snd out = Ok l ->
       StronglySorted by_score_desc l
       /\ (0 <= limit -> Z.of_nat (List.length l) <= limit)
       /\ Forall (selected_entry calculate_score explain summarize db min_score candidates) l.


(** The scorer and the explainer return on every candidate, and every
    candidate has a discovery date. *)
Definition returns_on
    (calculate_score : Track.t -> string -> Session -> result (R * components_t * bool))
    (explain : Track.t -> string -> components_t -> Session
               -> result ExplainabilityEngine.explanation)
    (db : Session) (candidates : list Track.t) : Prop :=
  forall track,
    In track candidates ->
    (exists r, calculate_score track (Track.id track) db = Ok r)
    /\ (forall components,
          exists explanation, explain track (Track.id track) components db = Ok explanation)
    /\ Track.first_discovered track <> None.

(** The rows [calculate_active_months_ratio] groups by month: those of the
    window with a positive stream count. *)
Definition active_rows (track_id : string) (db : Session) (lookback_days : Z)
  : list TrackMetric.t :=
  filter (fun m => is_some (TrackMetric.spotify_streams m)
                   && (0 <? val (TrackMetric.spotify_streams m)))
         (metrics_since db track_id (utcnow db - timedelta_days lookback_days)).

(** What a [score_and_persist] call [out] for [track_id] on [db] may change:
    every table but the scores, the clock and the staging area are as
    before; the score rows of [db] are kept, in order, and at most one row
    is appended - the returned one, for this track, stamped with the
    current instant, under a key above every key in use. *)
Definition append_only_outcome (track_id : string) (db : Session)
    (out : Session * result (option TrackScore.t)) : Prop :=
  tracks (fst out) = tracks db
  /\ track_metrics (fst out) = track_metrics db
  /\ discovery_runs (fst out) = discovery_runs db
  /\ utcnow (fst out) = utcnow db
  /\ pending (fst out) = []
  /\ match snd out with
     | Ok (Some row) =>
         track_scores (fst out) = (track_scores db ++ [row])%list
         /\ TrackScore.track_id row = track_id
         /\ TrackScore.computed_at row = utcnow db
         /\ forall old, In old (track_scores db) -> TrackScore.id old < TrackScore.id row
     | _ => track_scores (fst out) = track_scores db
     end.

(** The session when the clock reads [t]. *)
Definition at_time (t : Z) (db : Session) : Session :=
  mkSession (tracks db) (track_metrics db) (track_scores db) (discovery_runs db)
            (pending db) t.

(** The session after one call of the same session operation at each of
    the instants [times], in order: every call reads the clock anew. *)
Fixpoint calls_at {A : Type} (m : M A) (times : list Z) (db : Session) : Session :=
  match times with
  | [] => db
  | t :: later => calls_at m later (fst (m (at_time t db)))
  end.

(** How a refresh endpoint ends, in terms of one [score_and_persist] [sp]
    and the score [score_of] it reports: 404 and no write when no track has
    the id; 400 and no write when the track is not eligible; an escaping
    exception and no write when scoring raised; otherwise exactly one row
    appended and its score, instant and explanation in the body. *)
Definition refresh_outcome
    (sp : Track.t -> string -> M (option TrackScore.t))
    (score_of : TrackScore.t -> option R)
    (track_id : string) (db : Session)
    (out : Session * api_outcome Refreshed.t) : Prop :=
  match snd out with
  | HTTPException status_code detail =>
      fst out = db
      /\ ((status_code = 404 /\ find_track db track_id = None)
          \/ (status_code = 400
              /\ exists track,
                  find_track db track_id = Some track
                  /\ sp track track_id db = (db, Ok None)))
  | Unhandled e =>
      fst out = db
      /\ exists track,
          find_track db track_id = Some track
          /\ sp track track_id db = (db, Raise e)
  | Returned body =>
      exists track row,
        find_track db track_id = Some track
        /\ sp track track_id db = (commit_score db row, Ok (Some row))
        /\ fst out = commit_score db row
        /\ body = Refreshed.mk track_id (score_of row) [IsoF (utcnow db)]
                                (TrackScore.why_selected row) (TrackScore.risk_flags row)
  end.

(* ================================================================= *)
(** * Properties *)

(** ** Comparisons and basic list facts *)

Lemma Rltb_true (x y : R) : Rltb x y = true <-> (x < y)%R.
Proof. unfold Rltb; destruct (Rlt_dec x y); split; intros; try discriminate; tauto. Qed.

Lemma Rltb_false (x y : R) : Rltb x y = false <-> (y <= x)%R.
Proof.
  unfold Rltb; destruct (Rlt_dec x y); split; intros; try discriminate; try reflexivity; lra.
Qed.

Lemma Rleb_true (x y : R) : Rleb x y = true <-> (x <= y)%R.
Proof. unfold Rleb; destruct (Rle_dec x y); split; intros; try discriminate; tauto. Qed.

Lemma Rleb_false (x y : R) : Rleb x y = false <-> (y < x)%R.
Proof.
  unfold Rleb; destruct (Rle_dec x y); split; intros; try discriminate; try reflexivity; lra.
Qed.

Lemma Reqb_true (x y : R) : Reqb x y = true <-> x = y.
Proof. unfold Reqb; destruct (Req_dec_T x y); split; intros; try discriminate; tauto. Qed.

Lemma truthy_false (o : option Z) : truthy o = false <-> o = None \/ o = Some 0.
Proof.
  destruct o as [v|]; simpl.
  - rewrite negb_false_iff, Z.eqb_eq. split.
    + intros ->. now right.
    + intros [H|H]; congruence.
  - split; auto.
Qed.

Lemma truthy_true (o : option Z) : truthy o = true <-> exists v, o = Some v /\ v <> 0.
Proof.
  destruct o as [v|]; simpl.
  - rewrite negb_true_iff, Z.eqb_neq. split.
    + intros H. now exists v.
    + intros (w & E & H). congruence.
  - split; [discriminate | intros (w & E & _); discriminate].
Qed.

(** ** Normalisation and the weighted total *)

Lemma normalize_velocity_cases (v : R) :
  ((v <= 1 -> TrendingScorer.normalize_velocity v = 0)
   /\ (10 <= v -> TrendingScorer.normalize_velocity v = 1)
   /\ (1 < v < 10 -> TrendingScorer.normalize_velocity v = (v - 1.0) / (10.0 - 1.0)))%R.
Proof.
  unfold TrendingScorer.normalize_velocity, weights.min_velocity, weights.max_velocity.
  repeat split; intros H.
  - destruct (Rleb v 1.0) eqn:E; [lra|]. apply Rleb_false in E. lra.
  - destruct (Rleb v 1.0) eqn:E; [apply Rleb_true in E; lra|].
    destruct (Rleb 10.0 v) eqn:E'; [lra|]. apply Rleb_false in E'. lra.
  - destruct (Rleb v 1.0) eqn:E; [apply Rleb_true in E; lra|].
    destruct (Rleb 10.0 v) eqn:E'; [apply Rleb_true in E'; lra|]. reflexivity.
Qed.

Lemma normalize_velocity_range (v : R) :
  (0 <= TrendingScorer.normalize_velocity v <= 1)%R.
Proof.
  unfold TrendingScorer.normalize_velocity, weights.min_velocity, weights.max_velocity.
  destruct (Rleb v 1.0) eqn:E; [lra|]. apply Rleb_false in E.
  destruct (Rleb 10.0 v) eqn:E'; [lra|]. apply Rleb_false in E'.
  split.
  - apply Rmult_le_pos; [lra|]. apply Rlt_le, Rinv_0_lt_compat. lra.
  - apply (Rmult_le_reg_r (10.0 - 1.0)); [lra|]. unfold Rdiv.
    rewrite Rmult_assoc, Rinv_l by lra. lra.
Qed.

Lemma bool_component_cases (b : bool) :
  ((if b then 1.0 else 0.0) = 0 \/ (if b then 1.0 else 0.0) = 1)%R.
Proof. destruct b; [right|left]; lra. Qed.

(** C7.  For every track and metric history, [TrendingScorer.calculate_score]
    normalises each of the four velocity features by the map that sends a
    ratio at most 1.0 to 0, a ratio at least 10.0 to 1 and any ratio [v] in
    between to [(v - 1.0) / (10.0 - 1.0)]; the two boolean components are
    exactly 0.0 or 1.0; the returned total is 100 times the sum of
    weight times component over the trending weights 0.30, 0.20, 0.20, 0.15,
    0.10, 0.05; and the total lies in [0, 100]. *)
Theorem C7_trending_score_formula :
  forall (track : Track.t) (track_id : string) (db : Session),
    let total := fst (fst (TrendingScorer.calculate_score track track_id db)) in
    let components := snd (fst (TrendingScorer.calculate_score track track_id db)) in
    let c := fun k => dict_get components k 0%R in
    (forall v : R,
        (v <= 1 -> TrendingScorer.normalize_velocity v = 0)
        /\ (10 <= v -> TrendingScorer.normalize_velocity v = 1)
        /\ (1 < v < 10 -> TrendingScorer.normalize_velocity v = (v - 1.0) / (10.0 - 1.0))
        /\ 0 <= TrendingScorer.normalize_velocity v <= 1)%R
    /\ c "tiktok_posts_velocity"
       = TrendingScorer.normalize_velocity
           (TikTokFeatures.calculate_posts_velocity track_id db 7 30)
    /\ c "tiktok_views_velocity"
       = TrendingScorer.normalize_velocity
           (TikTokFeatures.calculate_views_velocity track_id db 7 30)
    /\ c "spotify_stream_growth"
       = TrendingScorer.normalize_velocity
           (SpotifyFeatures.calculate_stream_growth track_id db 7 30)
    /\ c "playlist_growth"
       = TrendingScorer.normalize_velocity
           (SpotifyFeatures.calculate_playlist_growth track_id db 30)
    /\ (c "cross_platform_boost" = 0 \/ c "cross_platform_boost" = 1)%R
    /\ (c "chart_entry_bonus" = 0 \/ c "chart_entry_bonus" = 1)%R
    /\ map fst components = map fst weights.TRENDING_WEIGHTS
    /\ (total = 100 * (0.30 * c "tiktok_posts_velocity"
                       + 0.20 * c "tiktok_views_velocity"
                       + 0.20 * c "spotify_stream_growth"
                       + 0.15 * c "playlist_growth"
                       + 0.10 * c "cross_platform_boost"
                       + 0.05 * c "chart_entry_bonus"))%R
    /\ (0 <= total <= 100)%R.
Proof.
  intros track track_id db. cbv zeta.
  unfold TrendingScorer.calculate_score, TrendingScorer.calculate_score_with.
  cbn [fst snd].
  set (v1 := TikTokFeatures.calculate_posts_velocity track_id db 7 30).
  set (v2 := TikTokFeatures.calculate_views_velocity track_id db 7 30).
  set (v3 := SpotifyFeatures.calculate_stream_growth track_id db 7 30).
  set (v4 := SpotifyFeatures.calculate_playlist_growth track_id db 30).
  set (b5 := TikTokFeatures.calculate_cross_platform_confirmation track_id db).
  set (b6 := (TikTokFeatures.has_chart_entry track_id db 30
              || SpotifyFeatures.has_chart_presence track_id db 30)%bool).
  split.
  { intros v. pose proof (normalize_velocity_cases v) as (A & B & C).
    pose proof (normalize_velocity_range v). tauto. }
  cbn [dict_get String.eqb Ascii.eqb Bool.eqb].
  repeat (split; [first [reflexivity | apply bool_component_cases] |]).
  unfold TrendingScorer.weighted_total, weights.TRENDING_WEIGHTS.
  cbn [fold_left fst snd dict_get String.eqb Ascii.eqb Bool.eqb].
  pose proof (normalize_velocity_range v1).
  pose proof (normalize_velocity_range v2).
  pose proof (normalize_velocity_range v3).
  pose proof (normalize_velocity_range v4).
  pose proof (bool_component_cases b5).
  pose proof (bool_component_cases b6).
  split; [lra|]. split; lra.
Qed.

(** ** Weight validation at import *)

Lemma validate_weights_of_cases (trending evergreen : weights.float_table) :
  weights.validate_weights_of trending evergreen
  = if negb (sums_to_one trending) then
      Raise (AssertionError [Lit "Trending weights sum to ";
                             DoubleF (weights.sum_values trending); Lit ", not 1.0"])
    else if negb (sums_to_one evergreen) then
      Raise (AssertionError [Lit "Evergreen weights sum to ";
                             DoubleF (weights.sum_values evergreen); Lit ", not 1.0"])
    else Ok tt.
Proof. reflexivity. Qed.

Lemma validate_weights_of_raises (trending evergreen : weights.float_table) :
  sums_to_one trending = false \/ sums_to_one evergreen = false ->
  exists msg, weights.validate_weights_of trending evergreen = Raise (AssertionError msg).
Proof.
  intros H. rewrite validate_weights_of_cases.
  destruct (sums_to_one trending); cbn [negb]; [|eexists; reflexivity].
  destruct (sums_to_one evergreen); cbn [negb]; [|eexists; reflexivity].
  destruct H; discriminate.
Qed.

Lemma shipped_weights_valid : weights.validate_weights = Ok tt.
Proof. vm_compute. reflexivity. Qed.

Lemma shipped_tables_as_reals :
  weights.as_reals weights.TRENDING_SOURCE = weights.TRENDING_WEIGHTS
  /\ weights.as_reals weights.EVERGREEN_SOURCE = weights.EVERGREEN_WEIGHTS.
Proof.
  unfold weights.as_reals, weights.TRENDING_SOURCE, weights.EVERGREEN_SOURCE,
    weights.TRENDING_WEIGHTS, weights.EVERGREEN_WEIGHTS, literal_real.
  cbn [map fst snd digits places pow].
  split; repeat (f_equal; try lra).
Qed.

Lemma float_real_of (x : PrimFloat.float) (s : bool) (m : positive) (e : Z) :
  FloatOps.Prim2SF x = SpecFloat.S754_finite s m e ->
  float_real x
  = let n := if s then Z.neg m else Z.pos m in
    if e <? 0 then (IZR n / IZR (2 ^ (- e)))%R else IZR (n * 2 ^ e).
Proof. intros H. unfold float_real. now rewrite H. Qed.

Lemma one_weight_passes (d : Z) :
  0 <= d <= 2000 ->
  sums_to_one (weights.as_floats (one_weight d)) = (1000 <=? d) && (d <=? 1001).
Proof.
  intros H.
  assert (A : forallb (fun n =>
                         Bool.eqb (sums_to_one (weights.as_floats (one_weight (Z.of_nat n))))
                                  ((1000 <=? Z.of_nat n) && (Z.of_nat n <=? 1001)))
                      (seq 0 2001) = true) by (vm_compute; reflexivity).
  rewrite forallb_forall in A. specialize (A (Z.to_nat d)).
  rewrite Z2Nat.id in A by lia. apply eqb_prop, A, in_seq. lia.
Qed.

(** C4 (amended).  For every pair of weight tables, if the binary64 sum of
    the trending values or of the evergreen values fails the test
    [abs(sum - 1.0) < 0.001], [validate_weights] raises [AssertionError] at
    module load and importing the scoring package raises the same error, so
    no scorer is obtained; if both sums pass, the import yields the two
    scorers over these tables.  Among the tables of one weight [d / 1000],
    [0 <= d <= 2000], the test passes for 1.000 and for 1.001 and fails for
    all others, 0.999 included.  The shipped tables pass: their binary64
    sums are 1.0 and 1 - 2^-53, and the import yields the two scorers. *)
Theorem C4_weight_validation_at_load :
  (forall trending evergreen : weights.source_table,
      sums_to_one (weights.as_floats trending) = false
      \/ sums_to_one (weights.as_floats evergreen) = false ->
      exists msg,
        weights.validate_weights_of (weights.as_floats trending) (weights.as_floats evergreen)
        = Raise (AssertionError msg)
        /\ weights.load_module trending evergreen = Raise (AssertionError msg)
        /\ import_scoring trending evergreen = Raise (AssertionError msg))
  /\ (forall trending evergreen : weights.source_table,
         sums_to_one (weights.as_floats trending) = true ->
         sums_to_one (weights.as_floats evergreen) = true ->
         import_scoring trending evergreen
         = Ok (mkScoring (TrendingScorer.calculate_score_with (weights.as_reals trending))
                         (EvergreenScorer.calculate_score_with (weights.as_reals evergreen))))
  /\ (forall d : Z,
         0 <= d <= 2000 ->
         sums_to_one (weights.as_floats (one_weight d)) = (1000 <=? d) && (d <=? 1001))
  /\ float_real (weights.sum_values (weights.as_floats weights.TRENDING_SOURCE)) = 1%R
  /\ float_real (weights.sum_values (weights.as_floats weights.EVERGREEN_SOURCE))
     = (1 - 1 / 2 ^ 53)%R
  /\ weights.validate_weights = Ok tt
  /\ import_scoring weights.TRENDING_SOURCE weights.EVERGREEN_SOURCE
     = Ok (mkScoring TrendingScorer.calculate_score EvergreenScorer.calculate_score).
Proof.
  split; [|split; [|split; [|split; [|split; [|split]]]]].
  - intros trending evergreen H.
    destruct (validate_weights_of_raises _ _ H) as [msg E].
    exists msg. unfold import_scoring, weights.load_module. rewrite E. cbn [rbind]. auto.
  - intros trending evergreen Ht He.
    unfold import_scoring, weights.load_module.
    rewrite validate_weights_of_cases, Ht, He. reflexivity.
  - exact one_weight_passes.
  - rewrite (float_real_of _ false 4503599627370496 (-52)) by (vm_compute; reflexivity).
    cbv zeta. cbn [Z.ltb Z.compare Z.opp].
    change (2 ^ 52) with 4503599627370496. lra.
  - rewrite (float_real_of _ false 9007199254740991 (-53)) by (vm_compute; reflexivity).
    cbv zeta. cbn [Z.ltb Z.compare Z.opp].
    change (2 ^ 53) with 9007199254740992.
    replace (2 ^ 53)%R with 9007199254740992%R by (cbn [pow]; lra). lra.
  - exact shipped_weights_valid.
  - unfold import_scoring, weights.load_module.
    pose proof shipped_weights_valid as E. unfold weights.validate_weights in E.
    rewrite E. cbn [rbind fst snd].
    destruct shipped_tables_as_reals as [-> ->]. reflexivity.
Qed.

Lemma C4_weight_validation_at_load_witness :
  exists msg,
    weights.validate_weights_of
      (weights.as_floats [("tiktok_posts_velocity", mkLiteral 5 1)])
      (weights.as_floats weights.EVERGREEN_SOURCE)
    = Raise (AssertionError msg)
    /\ weights.load_module [("tiktok_posts_velocity", mkLiteral 5 1)] weights.EVERGREEN_SOURCE
       = Raise (AssertionError msg)
    /\ import_scoring [("tiktok_posts_velocity", mkLiteral 5 1)] weights.EVERGREEN_SOURCE
       = Raise (AssertionError msg).
Proof.
  apply (proj1 C4_weight_validation_at_load).
  left. vm_compute. reflexivity.
Defined.

(** C4 as stated fails at the tolerance: the evergreen table with the two
    weights 0.5 and 0.501 sums to 1.001 as written, and to no less than
    that in the exact values of its two binary64 entries, so it differs from
    1.0 by 0.001 or more; its binary64 sum is the nearest value below 1.001,
    the test passes, nothing is raised and the scorers are obtained. *)
Lemma C4_tolerance_boundary_counterexample :
  (0.001 <= Rabs (sum_R (map snd (weights.as_reals boundary_table)) - 1))%R
  /\ (0.001 <= Rabs (sum_R (map float_real (map snd (weights.as_floats boundary_table))) - 1))%R
  /\ weights.validate_weights_of (weights.as_floats weights.TRENDING_SOURCE)
                                 (weights.as_floats boundary_table) = Ok tt
  /\ exists scorers, import_scoring weights.TRENDING_SOURCE boundary_table = Ok scorers.
Proof.
  split; [|split; [|split]].
  - unfold boundary_table, weights.as_reals, literal_real.
    cbn [map fst snd digits places pow sum_R fold_right].
    rewrite Rabs_right by lra. lra.
  - unfold boundary_table, weights.as_floats. cbn [map fst snd sum_R fold_right].
    rewrite (float_real_of _ false 4503599627370496 (-53)) by (vm_compute; reflexivity).
    rewrite (float_real_of _ false 4512606826625237 (-53)) by (vm_compute; reflexivity).
    cbv zeta. cbn [Z.ltb Z.compare Z.opp].
    change (2 ^ 53) with 9007199254740992.
    rewrite Rabs_right by lra. lra.
  - vm_compute. reflexivity.
  - unfold import_scoring, weights.load_module.
    assert (E : weights.validate_weights_of (weights.as_floats weights.TRENDING_SOURCE)
                  (weights.as_floats boundary_table) = Ok tt) by (vm_compute; reflexivity).
    rewrite E. eexists. reflexivity.
Qed.

(** ** Velocity extractors *)

(** The zero-baseline branch is never taken: a baseline of 0 is falsy and has
    already returned 0.0. *)
Lemma velocity_of_reached (cap : R) (recent baseline : option Z) :
  velocity_of cap recent baseline
  = if truthy recent && truthy baseline
    then (IZR (val recent) / IZR (val baseline))%R else 0%R.
Proof.
  unfold velocity_of.
  destruct (truthy recent) eqn:Er; cbn [negb orb andb]; [|reflexivity].
  destruct (truthy baseline) eqn:Eb; cbn [negb]; [|reflexivity].
  apply truthy_true in Eb. destruct Eb as (v & -> & Hv). cbn [val].
  apply Z.eqb_neq in Hv. rewrite Hv. reflexivity.
Qed.

Lemma velocity_of_absent (cap : R) (recent baseline : option Z) :
  truthy recent = false \/ truthy baseline = false ->
  velocity_of cap recent baseline = 0%R.
Proof.
  intros [H|H]; rewrite velocity_of_reached, H; [reflexivity|].
  now rewrite andb_false_r.
Qed.

Lemma velocity_of_ratio (cap : R) (r b : Z) :
  b <> 0 -> velocity_of cap (Some r) (Some b) = (IZR r / IZR b)%R.
Proof.
  intros Hb. rewrite velocity_of_reached. cbn [truthy val].
  apply Z.eqb_neq in Hb. rewrite Hb. cbn [negb].
  destruct (r =? 0) eqn:Er; cbn [negb andb]; [|reflexivity].
  apply Z.eqb_eq in Er. subst r. unfold Rdiv. now rewrite Rmult_0_l.
Qed.

Lemma posts_velocity_unfold (track_id : string) (db : Session) (sp lp : Z) :
  TikTokFeatures.calculate_posts_velocity track_id db sp lp
  = match recent_snapshot db track_id sp, baseline_snapshot db track_id sp lp with
    | Some recent, Some baseline =>
        velocity_of 10.0 (TrackMetric.tiktok_posts_7d recent)
                    (TrackMetric.tiktok_posts_7d baseline)
    | _, _ => 0%R
    end.
Proof. reflexivity. Qed.

Lemma views_velocity_unfold (track_id : string) (db : Session) (sp lp : Z) :
  TikTokFeatures.calculate_views_velocity track_id db sp lp
  = match recent_snapshot db track_id sp, baseline_snapshot db track_id sp lp with
    | Some recent, Some baseline =>
        velocity_of 10.0 (TrackMetric.tiktok_views_7d recent)
                    (TrackMetric.tiktok_views_7d baseline)
    | _, _ => 0%R
    end.
Proof. reflexivity. Qed.

Lemma stream_growth_unfold (track_id : string) (db : Session) (sp lp : Z) :
  SpotifyFeatures.calculate_stream_growth track_id db sp lp
  = match recent_snapshot db track_id sp, baseline_snapshot db track_id sp lp with
    | Some recent, Some baseline =>
        velocity_of 10.0 (TrackMetric.spotify_streams_7d recent)
                    (TrackMetric.spotify_streams_7d baseline)
    | _, _ => 0%R
    end.
Proof. reflexivity. Qed.

Lemma playlist_growth_unfold (track_id : string) (db : Session) (period : Z) :
  SpotifyFeatures.calculate_playlist_growth track_id db period
  = match recent_snapshot db track_id 7, baseline_snapshot db track_id 7 period with
    | Some recent, Some baseline =>
        velocity_of 5.0 (TrackMetric.spotify_playlist_count recent)
                    (TrackMetric.spotify_playlist_count baseline)
    | _, _ => 0%R
    end.
Proof. reflexivity. Qed.

Lemma zero_baseline_snapshots :
  recent_snapshot zero_baseline_db "t1" 7 = Some zero_baseline_recent
  /\ baseline_snapshot zero_baseline_db "t1" 7 30 = Some zero_baseline_base.
Proof. split; vm_compute; reflexivity. Qed.

(** C2.  The code at a zero baseline with positive recent activity: the
    baseline snapshot holds 0 posts and 0 playlists, the recent one 100
    posts and 12 playlists, and both [calculate_posts_velocity] and
    [calculate_playlist_growth] return 0.0, not the cap 10.0.  The other
    cases hold: an absent snapshot gives 0, a baseline [B] other than 0
    gives recent / B. *)
Theorem C2_zero_baseline_velocity_is_zero :
  (exists recent baseline,
      recent_snapshot zero_baseline_db "t1" 7 = Some recent
      /\ baseline_snapshot zero_baseline_db "t1" 7 30 = Some baseline
      /\ TrackMetric.tiktok_posts_7d baseline = Some 0
      /\ TrackMetric.tiktok_posts_7d recent = Some 100
      /\ TrackMetric.spotify_playlist_count baseline = Some 0
      /\ TrackMetric.spotify_playlist_count recent = Some 12)
  /\ TikTokFeatures.calculate_posts_velocity "t1" zero_baseline_db 7 30 = 0%R
  /\ TikTokFeatures.calculate_posts_velocity "t1" zero_baseline_db 7 30 <> 10.0%R
  /\ SpotifyFeatures.calculate_playlist_growth "t1" zero_baseline_db 30 = 0%R
  /\ (forall db track_id sp lp,
         recent_snapshot db track_id sp = None
         \/ baseline_snapshot db track_id sp lp = None ->
         TikTokFeatures.calculate_posts_velocity track_id db sp lp = 0%R)
  /\ (forall db track_id sp lp recent baseline r b,
         recent_snapshot db track_id sp = Some recent ->
         baseline_snapshot db track_id sp lp = Some baseline ->
         TrackMetric.tiktok_posts_7d recent = Some r ->
         TrackMetric.tiktok_posts_7d baseline = Some b ->
         b <> 0 ->
         TikTokFeatures.calculate_posts_velocity track_id db sp lp = (IZR r / IZR b)%R).
Proof.
  destruct zero_baseline_snapshots as [Er Eb].
  split; [|split; [|split; [|split; [|split]]]].
  - exists zero_baseline_recent, zero_baseline_base. repeat split; assumption.
  - rewrite posts_velocity_unfold, Er, Eb. apply velocity_of_absent. now right.
  - rewrite posts_velocity_unfold, Er, Eb, velocity_of_absent by now right. lra.
  - rewrite playlist_growth_unfold, Er, Eb. apply velocity_of_absent. now right.
  - intros db track_id sp lp [H|H]; rewrite posts_velocity_unfold, H; [reflexivity|].
    now destruct (recent_snapshot db track_id sp).
  - intros db track_id sp lp recent baseline r b Hr Hb Er' Eb' Hnz.
    rewrite posts_velocity_unfold, Hr, Hb, Er', Eb'. now apply velocity_of_ratio.
Qed.

(** ** Cross-platform confirmation *)

Lemma cross_platform_false_of_baseline (track_id : string) (db : Session) :
  (baseline_snapshot db track_id 7 30 = None
   \/ exists baseline,
       baseline_snapshot db track_id 7 30 = Some baseline
       /\ (truthy (TrackMetric.tiktok_posts_7d baseline) = false
           \/ truthy (TrackMetric.spotify_streams_7d baseline) = false)) ->
  TikTokFeatures.calculate_cross_platform_confirmation track_id db = false.
Proof.
  unfold TikTokFeatures.calculate_cross_platform_confirmation.
  intros [H | (baseline & H & Hb)]; rewrite H.
  - now destruct (recent_snapshot db track_id 7).
  - destruct (recent_snapshot db track_id 7) as [recent|]; [|reflexivity].
    destruct Hb as [Hb|Hb]; rewrite Hb, andb_false_r; [reflexivity|].
    apply andb_false_r.
Qed.

(** C10 (amended).  For every metric history,
    [calculate_cross_platform_confirmation] returns False whenever the
    baseline snapshot is absent or its 7-day value for either platform is
    null or 0, whatever the recent values are: zero-baseline activity never
    counts as cross-platform growth. *)
Theorem C10_cross_platform_zero_baseline :
  forall (db : Session) (track_id : string),
    (baseline_snapshot db track_id 7 30 = None
     \/ exists baseline,
         baseline_snapshot db track_id 7 30 = Some baseline
         /\ (TrackMetric.tiktok_posts_7d baseline = None
             \/ TrackMetric.tiktok_posts_7d baseline = Some 0
             \/ TrackMetric.spotify_streams_7d baseline = None
             \/ TrackMetric.spotify_streams_7d baseline = Some 0)) ->
    TikTokFeatures.calculate_cross_platform_confirmation track_id db = false.
Proof.
  intros db track_id H. apply cross_platform_false_of_baseline.
  destruct H as [H | (baseline & H & Hb)]; [now left|].
  right. exists baseline. split; [assumption|].
  rewrite !truthy_false. tauto.
Qed.

Lemma C10_cross_platform_zero_baseline_witness :
  TikTokFeatures.calculate_cross_platform_confirmation "t1" zero_baseline_db = false.
Proof.
  apply C10_cross_platform_zero_baseline.
  right. exists zero_baseline_base. split.
  - vm_compute. reflexivity.
  - right. left. reflexivity.
Defined.

(** C10 as stated fails in its last clause: with a baseline of 0 posts and
    100 recent posts the confirmation is False, but the posts velocity is
    0.0 as well, not the maximal growth 10.0. *)
Lemma C10_velocity_not_maximal_counterexample :
  baseline_snapshot zero_baseline_db "t1" 7 30 = Some zero_baseline_base
  /\ recent_snapshot zero_baseline_db "t1" 7 = Some zero_baseline_recent
  /\ TrackMetric.tiktok_posts_7d zero_baseline_base = Some 0
  /\ TrackMetric.tiktok_posts_7d zero_baseline_recent = Some 100
  /\ ~ (TikTokFeatures.calculate_cross_platform_confirmation "t1" zero_baseline_db = false
        /\ TikTokFeatures.calculate_posts_velocity "t1" zero_baseline_db 7 30
           = weights.max_velocity).
Proof.
  destruct zero_baseline_snapshots as [Er Eb].
  repeat split; try assumption.
  intros [_ H]. rewrite posts_velocity_unfold, Er, Eb in H.
  rewrite velocity_of_absent in H by now right.
  unfold weights.max_velocity in H. lra.
Qed.

(** ** Trending threshold gate *)

Lemma in_append_if (c : bool) (l : list text) (y x : text) :
  In x (ExplainabilityEngine.append_if c l y) <-> In x l \/ (c = true /\ x = y).
Proof.
  unfold ExplainabilityEngine.append_if. destruct c.
  - rewrite in_app_iff. cbn [In]. split.
    + intros [H|[H|[]]]; [now left | right; split; congruence].
    + intros [H|[_ H]]; [now left | right; left; congruence].
  - split; [now left|]. intros [H|[H _]]; [assumption | discriminate].
Qed.

Lemma present_below_minimum (o : option Z) (minimum : Z) :
  truthy o && (val o <? minimum) = false
  <-> (forall v, o = Some v -> v <> 0 -> minimum <= v).
Proof.
  destruct o as [v|]; cbn [truthy val].
  - destruct (v =? 0) eqn:E; cbn [negb andb].
    + apply Z.eqb_eq in E. split; [|reflexivity].
      intros _ w Hw Hnz. congruence.
    + apply Z.eqb_neq in E. rewrite Z.ltb_ge. split.
      * intros H w Hw _. congruence.
      * intros H. now apply H.
  - split; [intros _ v Hv; discriminate | reflexivity].
Qed.

Lemma trending_gate_iff (track_id : string) (db : Session) :
  TrendingScorer._check_thresholds track_id db = true
  <-> exists recent,
      recent_snapshot db track_id 7 = Some recent
      /\ (forall v, TrackMetric.tiktok_posts_7d recent = Some v -> v <> 0 -> 50 <= v)
      /\ (forall v, TrackMetric.spotify_streams_7d recent = Some v -> v <> 0 -> 10000 <= v)
      /\ 7 <= TemporalFeatures.get_data_points_count track_id db 30.
Proof.
  unfold TrendingScorer._check_thresholds, weights.trending_min_tiktok_posts_7d,
    weights.trending_min_spotify_streams_7d, weights.trending_min_data_points.
  destruct (recent_snapshot db track_id 7) as [recent|].
  - pose proof (present_below_minimum (TrackMetric.tiktok_posts_7d recent) 50) as P1.
    pose proof (present_below_minimum (TrackMetric.spotify_streams_7d recent) 10000) as P2.
    destruct (truthy (TrackMetric.tiktok_posts_7d recent)
              && (val (TrackMetric.tiktok_posts_7d recent) <? 50)) eqn:E1.
    { split; [discriminate|]. intros (r & Hr & H & _). inversion Hr; subst r.
      apply P1 in H. discriminate. }
    destruct (truthy (TrackMetric.spotify_streams_7d recent)
              && (val (TrackMetric.spotify_streams_7d recent) <? 10000)) eqn:E2.
    { split; [discriminate|]. intros (r & Hr & _ & H & _). inversion Hr; subst r.
      apply P2 in H. discriminate. }
    destruct (TemporalFeatures.get_data_points_count track_id db 30 <? 7) eqn:E3.
    + apply Z.ltb_lt in E3. split; [discriminate|]. intros (r & _ & _ & _ & H). lia.
    + apply Z.ltb_ge in E3. split; [|reflexivity]. intros _.
      exists recent. repeat split; [apply P1 | apply P2 | assumption]; reflexivity.
  - split; [discriminate|]. intros (r & Hr & _). discriminate.
Qed.

Lemma claimed_gate_implies_gate (track_id : string) (db : Session) :
  claimed_trending_gate track_id db = true ->
  TrendingScorer._check_thresholds track_id db = true.
Proof.
  intros H. apply trending_gate_iff. unfold claimed_trending_gate in H.
  destruct (recent_snapshot db track_id 7) as [recent|]; [|discriminate].
  apply andb_true_iff in H. destruct H as [H H3].
  apply andb_true_iff in H. destruct H as [H1 H2].
  exists recent. split; [reflexivity|].
  split; [|split].
  - intros v E _. rewrite E in H1. now apply Z.leb_le.
  - intros v E _. rewrite E in H2. now apply Z.leb_le.
  - now apply Z.leb_le.
Qed.

Lemma gate_is_claimed_gate_without_zero (track_id : string) (db : Session) :
  (forall recent,
      recent_snapshot db track_id 7 = Some recent ->
      TrackMetric.tiktok_posts_7d recent <> Some 0
      /\ TrackMetric.spotify_streams_7d recent <> Some 0) ->
  TrendingScorer._check_thresholds track_id db = claimed_trending_gate track_id db.
Proof.
  intros Hnz.
  destruct (claimed_trending_gate track_id db) eqn:Ec;
    [now apply claimed_gate_implies_gate|].
  destruct (TrendingScorer._check_thresholds track_id db) eqn:Eg; [|reflexivity].
  apply trending_gate_iff in Eg. destruct Eg as (recent & Er & H1 & H2 & H3).
  destruct (Hnz recent Er) as [N1 N2].
  unfold claimed_trending_gate in Ec. rewrite Er in Ec.
  assert (A : match TrackMetric.tiktok_posts_7d recent with
              | Some v => 50 <=? v | None => true end = true).
  { destruct (TrackMetric.tiktok_posts_7d recent) as [v|] eqn:E; [|reflexivity].
    apply Z.leb_le, (H1 v eq_refl). congruence. }
  assert (B : match TrackMetric.spotify_streams_7d recent with
              | Some v => 10000 <=? v | None => true end = true).
  { destruct (TrackMetric.spotify_streams_7d recent) as [v|] eqn:E; [|reflexivity].
    apply Z.leb_le, (H2 v eq_refl). congruence. }
  apply Z.leb_le in H3. rewrite A, B, H3 in Ec. discriminate.
Qed.

(** C3.  The gate at a snapshot whose 7-day counts are present and 0: seven
    daily rows, the latest of yesterday, each with 0 TikTok posts and 0
    Spotify streams over 7 days.  Both fields are present and below their
    minimum, so the gate of the claim fails; [_check_thresholds] returns
    True and [calculate_score] reports [passes_threshold = True], while the
    explanation of the same track lists "Low/no TikTok presence" and "Low
    Spotify streams".  Apart from zero fields the gate is the one claimed:
    whenever the claimed gate passes so does the code's, the two agree on
    every track whose latest snapshot has no 7-day field equal to 0, and the
    flag does not depend on the weight table, hence not on the score. *)
Theorem C3_zero_fields_pass_the_gate :
  (exists recent,
      recent_snapshot zero_activity_db "t1" 7 = Some recent
      /\ TrackMetric.tiktok_posts_7d recent = Some 0
      /\ TrackMetric.spotify_streams_7d recent = Some 0)
  /\ claimed_trending_gate "t1" zero_activity_db = false
  /\ TrendingScorer._check_thresholds "t1" zero_activity_db = true
  /\ snd (TrendingScorer.calculate_score dated_track "t1" zero_activity_db) = true
  /\ (exists explanation,
        ExplainabilityEngine.explain_trending dated_track "t1"
          (snd (fst (TrendingScorer.calculate_score dated_track "t1" zero_activity_db)))
          zero_activity_db = Ok explanation
        /\ In [Lit "Low/no TikTok presence"] (ExplainabilityEngine.risk_flags explanation)
        /\ In [Lit "Low Spotify streams"] (ExplainabilityEngine.risk_flags explanation))
  /\ (forall (track_id : string) (db : Session),
        claimed_trending_gate track_id db = true ->
        TrendingScorer._check_thresholds track_id db = true)
  /\ (forall (track_id : string) (db : Session),
        (forall recent,
            recent_snapshot db track_id 7 = Some recent ->
            TrackMetric.tiktok_posts_7d recent <> Some 0
            /\ TrackMetric.spotify_streams_7d recent <> Some 0) ->
        TrendingScorer._check_thresholds track_id db = claimed_trending_gate track_id db)
  /\ (forall (W : weights.table) (track other : Track.t) (track_id : string) (db : Session),
        snd (TrendingScorer.calculate_score_with W other track_id db)
        = snd (TrendingScorer.calculate_score track track_id db)).
Proof.
  assert (Hrecent : recent_snapshot zero_activity_db "t1" 7
                    = Some (metric "t1" (999 * day) None (Some 0) None (Some 0) None))
    by (vm_compute; reflexivity).
  assert (Hgate : TrendingScorer._check_thresholds "t1" zero_activity_db = true)
    by (vm_compute; reflexivity).
  split; [|split; [|split; [|split; [|split; [|split; [|split]]]]]].
  - eexists. split; [exact Hrecent|]. split; reflexivity.
  - vm_compute. reflexivity.
  - exact Hgate.
  - unfold TrendingScorer.calculate_score, TrendingScorer.calculate_score_with. cbn [snd].
    exact Hgate.
  - unfold ExplainabilityEngine.explain_trending, TemporalFeatures.get_track_age_days.
    cbn [Track.first_discovered dated_track rbind]. eexists. split; [reflexivity|].
    cbn [ExplainabilityEngine.risk_flags]. rewrite Hrecent. split.
    + apply in_append_if. left. apply in_append_if. right. split; reflexivity.
    + apply in_append_if. right. split; reflexivity.
  - exact claimed_gate_implies_gate.
  - exact gate_is_claimed_gate_without_zero.
  - intros W track other track_id db. reflexivity.
Qed.

(** ** Stream consistency *)

Lemma fold_max_in (l : list Z) (x : Z) : In (fold_left Z.max l x) (x :: l).
Proof.
  revert x. induction l as [|y l IH]; intros x; cbn [fold_left].
  - now left.
  - destruct (IH (Z.max x y)) as [H|H].
    + rewrite <- H. destruct (Z.max_spec x y) as [[_ E]|[_ E]]; rewrite E.
      * right. now left.
      * now left.
    + right. now right.
Qed.

Lemma list_max_in (l : list Z) : l <> [] -> In (SpotifyFeatures.list_max l) l.
Proof. destruct l as [|x l]; [congruence|]. intros _. apply fold_max_in. Qed.

Lemma consistency_streams_nonzero (track_id : string) (db : Session) (lookback_days : Z) :
  ~ In 0 (consistency_streams track_id db lookback_days).
Proof.
  unfold consistency_streams. intros H. apply in_map_iff in H.
  destruct H as (m & Hv & Hm). apply filter_In in Hm. destruct Hm as [_ Ht].
  apply truthy_true in Ht. destruct Ht as (v & E & Hnz). rewrite E in Hv. cbn in Hv. lia.
Qed.

Lemma stream_consistency_unfold (track_id : string) (db : Session) (lookback_days : Z) :
  SpotifyFeatures.calculate_stream_consistency track_id db lookback_days
  = if Z.of_nat (List.length (consistency_rows track_id db lookback_days)) <? 30 then 0%R
    else
      match consistency_streams track_id db lookback_days with
      | [] => 0%R
      | _ =>
          if Reqb (np_mean (consistency_streams track_id db lookback_days)) 0%R then 0%R
          else Rmin 1.0%R
                 (Rmax 0%R (1 - np_std (consistency_streams track_id db lookback_days)
                                / np_mean (consistency_streams track_id db lookback_days))%R)
      end.
Proof.
  unfold SpotifyFeatures.calculate_stream_consistency.
  fold (consistency_rows track_id db lookback_days).
  fold (consistency_streams track_id db lookback_days).
  destruct (Z.of_nat (List.length (consistency_rows track_id db lookback_days)) <? 30);
    [reflexivity|].
  pose proof (consistency_streams_nonzero track_id db lookback_days) as Hnz.
  destruct (consistency_streams track_id db lookback_days) as [|x l] eqn:E; [reflexivity|].
  destruct (SpotifyFeatures.list_max (x :: l) =? 0) eqn:Em; [|reflexivity].
  apply Z.eqb_eq in Em. exfalso. apply Hnz. rewrite <- Em.
  apply list_max_in. discriminate.
Qed.








(** ** Tracks without metric rows *)

Section EmptyHistory.
Variable db : Session.
Variable track_id : string.
Hypothesis no_rows :
  forall m, In m (track_metrics db) -> TrackMetric.track_id m <> track_id.

Lemma no_rows_filter (p : TrackMetric.t -> bool) :
  filter (fun m => String.eqb (TrackMetric.track_id m) track_id && p m) (track_metrics db) = [].
Proof.
  induction (track_metrics db) as [|m l IH]; [reflexivity|].
  cbn [filter].
  destruct (String.eqb (TrackMetric.track_id m) track_id) eqn:E.
  - apply String.eqb_eq in E. exfalso. apply (no_rows m); [now left | assumption].
  - cbn [andb]. apply IH. intros m' Hm'. apply no_rows. now right.
Qed.

Lemma no_rows_since (since : Z) : metrics_since db track_id since = [].
Proof. unfold metrics_since. apply no_rows_filter. Qed.

Lemma no_rows_between (lo hi : Z) : metrics_between db track_id lo hi = [].
Proof.
  unfold metrics_between.
  rewrite <- (no_rows_filter (fun m => (lo <=? TrackMetric.timestamp m)
                                       && (TrackMetric.timestamp m <? hi))).
  apply filter_ext. intros m. now rewrite andb_assoc.
Qed.

Lemma no_rows_recent (sp : Z) : recent_snapshot db track_id sp = None.
Proof. unfold recent_snapshot. now rewrite no_rows_since. Qed.

Lemma no_rows_baseline (sp lp : Z) : baseline_snapshot db track_id sp lp = None.
Proof. unfold baseline_snapshot. now rewrite no_rows_between. Qed.

Lemma no_rows_all :
  filter (fun m => String.eqb (TrackMetric.track_id m) track_id) (track_metrics db) = [].
Proof.
  rewrite <- (no_rows_filter (fun _ => true)).
  apply filter_ext. intros m. now rewrite andb_true_r.
Qed.

Lemma no_rows_extractors :
  (forall sp lp, TikTokFeatures.calculate_posts_velocity track_id db sp lp = 0%R)
  /\ (forall sp lp, TikTokFeatures.calculate_views_velocity track_id db sp lp = 0%R)
  /\ (forall threshold, TikTokFeatures.has_tiktok_momentum track_id db threshold = false)
  /\ TikTokFeatures.calculate_cross_platform_confirmation track_id db = false
  /\ (forall lookback, TikTokFeatures.has_chart_entry track_id db lookback = false)
  /\ (forall lookback,
         SpotifyFeatures.calculate_stream_consistency track_id db lookback = 0%R)
  /\ (forall sp lp, SpotifyFeatures.calculate_stream_growth track_id db sp lp = 0%R)
  /\ (forall lookback,
         SpotifyFeatures.calculate_active_months_ratio track_id db lookback = Ok 0%R)
  /\ (forall period, SpotifyFeatures.calculate_playlist_growth track_id db period = 0%R)
  /\ (forall lookback, SpotifyFeatures.has_chart_presence track_id db lookback = false)
  /\ TemporalFeatures.calculate_recency_score track_id db = 0%R
  /\ (forall lookback, TemporalFeatures.get_data_points_count track_id db lookback = 0).
Proof.
  repeat split; intros.
  - rewrite posts_velocity_unfold, no_rows_recent. reflexivity.
  - rewrite views_velocity_unfold, no_rows_recent. reflexivity.
  - unfold TikTokFeatures.has_tiktok_momentum. now rewrite no_rows_recent.
  - unfold TikTokFeatures.calculate_cross_platform_confirmation. now rewrite no_rows_recent.
  - unfold TikTokFeatures.has_chart_entry. now rewrite no_rows_since.
  - unfold SpotifyFeatures.calculate_stream_consistency. now rewrite no_rows_since.
  - rewrite stream_growth_unfold, no_rows_recent. reflexivity.
  - unfold SpotifyFeatures.calculate_active_months_ratio. now rewrite no_rows_since.
  - rewrite playlist_growth_unfold, no_rows_recent. reflexivity.
  - unfold SpotifyFeatures.has_chart_presence. now rewrite no_rows_since.
  - unfold TemporalFeatures.calculate_recency_score. now rewrite no_rows_all.
  - unfold TemporalFeatures.get_data_points_count. now rewrite no_rows_since.
Qed.

Lemma no_rows_trending_gate : TrendingScorer._check_thresholds track_id db = false.
Proof. unfold TrendingScorer._check_thresholds. now rewrite no_rows_recent. Qed.

Lemma no_rows_evergreen_gate : EvergreenScorer._check_thresholds track_id db = Ok false.
Proof.
  unfold EvergreenScorer._check_thresholds, TemporalFeatures.get_data_points_count.
  now rewrite no_rows_since.
Qed.

Lemma no_rows_evergreen_score (track : Track.t) :
  exists total components,
    EvergreenScorer.calculate_score track track_id db = Ok (total, components, false).
Proof.
  unfold EvergreenScorer.calculate_score, EvergreenScorer.calculate_score_with.
  destruct no_rows_extractors as (_ & _ & _ & _ & _ & _ & _ & Ha & _).
  rewrite Ha, no_rows_evergreen_gate. cbn [rbind].
  eexists. eexists. reflexivity.
Qed.
End EmptyHistory.

(** C5 (amended).  For every track with zero metric rows, every feature
    extractor that reads the metric history returns 0 (False for the boolean
    ones) and does not raise, and both [TrendingScorer.calculate_score] and
    [EvergreenScorer.calculate_score] return with [passes_threshold] False.
    (The age extractors read the track record, not its metrics.) *)
Theorem C5_empty_history :
  forall (db : Session) (track : Track.t) (track_id : string),
    (forall m, In m (track_metrics db) -> TrackMetric.track_id m <> track_id) ->
    ((forall sp lp, TikTokFeatures.calculate_posts_velocity track_id db sp lp = 0%R)
     /\ (forall sp lp, TikTokFeatures.calculate_views_velocity track_id db sp lp = 0%R)
     /\ (forall threshold, TikTokFeatures.has_tiktok_momentum track_id db threshold = false)
     /\ TikTokFeatures.calculate_cross_platform_confirmation track_id db = false
     /\ (forall lookback, TikTokFeatures.has_chart_entry track_id db lookback = false)
     /\ (forall lookback,
            SpotifyFeatures.calculate_stream_consistency track_id db lookback = 0%R)
     /\ (forall sp lp, SpotifyFeatures.calculate_stream_growth track_id db sp lp = 0%R)
     /\ (forall lookback,
            SpotifyFeatures.calculate_active_months_ratio track_id db lookback = Ok 0%R)
     /\ (forall period, SpotifyFeatures.calculate_playlist_growth track_id db period = 0%R)
     /\ (forall lookback, SpotifyFeatures.has_chart_presence track_id db lookback = false)
     /\ TemporalFeatures.calculate_recency_score track_id db = 0%R
     /\ (forall lookback, TemporalFeatures.get_data_points_count track_id db lookback = 0))
    /\ snd (TrendingScorer.calculate_score track track_id db) = false
    /\ exists total components,
        EvergreenScorer.calculate_score track track_id db = Ok (total, components, false).
Proof.
  intros db track track_id H. split; [|split].
  - now apply no_rows_extractors.
  - unfold TrendingScorer.calculate_score, TrendingScorer.calculate_score_with. cbn [snd].
    now apply no_rows_trending_gate.
  - now apply no_rows_evergreen_score.
Qed.

Lemma C5_empty_history_witness :
  snd (TrendingScorer.calculate_score new_track "t1" no_metrics_db) = false
  /\ exists total components,
      EvergreenScorer.calculate_score new_track "t1" no_metrics_db
      = Ok (total, components, false).
Proof.
  apply (C5_empty_history no_metrics_db new_track "t1").
  intros m Hm. destruct Hm.
Defined.

(** C5 as stated fails for the age extractors: on a track with no metric row
    [get_track_age_days] returns the age, 10 days here, and
    [is_new_discovery] returns True; on a track whose discovery date is NULL
    [get_track_age_days] raises. *)
Lemma C5_track_age_counterexample :
  track_metrics no_metrics_db = []
  /\ TemporalFeatures.get_track_age_days (utcnow no_metrics_db) new_track = Ok 10
  /\ TemporalFeatures.get_track_age_days (utcnow no_metrics_db) new_track <> Ok 0
  /\ TemporalFeatures.is_new_discovery (utcnow no_metrics_db) new_track 30 = Ok true
  /\ exists e, TemporalFeatures.get_track_age_days (utcnow no_metrics_db) undated_track
               = Raise e.
Proof.
  split; [reflexivity|]. split; [vm_compute; reflexivity|].
  split; [vm_compute; discriminate|]. split; [vm_compute; reflexivity|].
  eexists. reflexivity.
Qed.

(** ** Persisting a score *)

Lemma explain_trending_dated track track_id components db d :
  Track.first_discovered track = Some d ->
  exists explanation,
    ExplainabilityEngine.explain_trending track track_id components db = Ok explanation.
Proof.
  intros H. unfold ExplainabilityEngine.explain_trending, TemporalFeatures.get_track_age_days.
  rewrite H. cbn [rbind]. eexists. reflexivity.
Qed.

Lemma explain_trending_undated track track_id components db :
  Track.first_discovered track = None ->
  exists e, ExplainabilityEngine.explain_trending track track_id components db = Raise e.
Proof.
  intros H. unfold ExplainabilityEngine.explain_trending, TemporalFeatures.get_track_age_days.
  rewrite H. cbn [rbind]. eexists. reflexivity.
Qed.

Lemma explain_evergreen_dated track track_id components db d :
  Track.first_discovered track = Some d ->
  exists explanation,
    ExplainabilityEngine.explain_evergreen track track_id components db = Ok explanation.
Proof.
  intros H. unfold ExplainabilityEngine.explain_evergreen, TemporalFeatures.get_track_age_days.
  rewrite H. cbn [rbind]. eexists. reflexivity.
Qed.

Lemma set_pending_same (db : Session) : pending db = [] -> set_pending db [] = db.
Proof. destruct db; cbn. now intros ->. Qed.

Lemma commit_after_add_score (db : Session) (row : TrackScore.t) :
  pending db = [] ->
  fst (db_commit (set_pending db (pending db ++ [AddScore row]))) = commit_score db row.
Proof. destruct db; cbn. intros ->. reflexivity. Qed.

(** What [TrendingSelector.score_and_persist] does, by the outcome of the
    gate and of the explanation. *)
Lemma trending_persist_unfold (track : Track.t) (track_id : string) (db : Session) :
  pending db = [] ->
  TrendingSelector.score_and_persist track track_id db
  = if negb (TrendingScorer._check_thresholds track_id db) then (db, Ok None)
    else
      match ExplainabilityEngine.explain_trending track track_id
              (snd (fst (TrendingScorer.calculate_score track track_id db))) db with
      | Raise e => (db, Raise e)
      | Ok explanation =>
          (commit_score db (trending_row track track_id db explanation),
           Ok (Some (trending_row track track_id db explanation)))
      end.
Proof.
  intros Hp.
  unfold TrendingSelector.score_and_persist, bind, query, call, ret.
  unfold TrendingScorer.calculate_score, TrendingScorer.calculate_score_with.
  cbv beta iota zeta. cbn [fst snd].
  destruct (TrendingScorer._check_thresholds track_id db); cbn [negb]; [|reflexivity].
  match goal with
  | |- context [ExplainabilityEngine.explain_trending ?t ?i ?c ?d] =>
      destruct (ExplainabilityEngine.explain_trending t i c d) as [explanation|e]
  end; [|reflexivity].
  unfold db_add_score, db_commit. cbv beta iota zeta.
  destruct db; cbn in Hp |- *. subst. reflexivity.
Qed.

Lemma evergreen_persist_unfold (track : Track.t) (track_id : string) (db : Session) :
  pending db = [] ->
  EvergreenSelector.score_and_persist track track_id db
  = match EvergreenScorer.calculate_score track track_id db with
    | Raise e => (db, Raise e)
    | Ok (score, components, passes_threshold) =>
        if negb passes_threshold then (db, Ok None)
        else
          match ExplainabilityEngine.explain_evergreen track track_id components db with
          | Raise e => (db, Raise e)
          | Ok explanation =>
              (commit_score db (evergreen_row track_id db score components explanation),
               Ok (Some (evergreen_row track_id db score components explanation)))
          end
    end.
Proof.
  intros Hp.
  unfold EvergreenSelector.score_and_persist, bind, query, call, ret.
  destruct (EvergreenScorer.calculate_score track track_id db)
    as [[[score components] passes]|e]; [|reflexivity].
  destruct passes; cbn [negb]; [|reflexivity].
  destruct (ExplainabilityEngine.explain_evergreen track track_id components db)
    as [explanation|e]; [|reflexivity].
  unfold db_add_score, db_commit, evergreen_row. cbv beta iota zeta.
  destruct (latest_score (scores_of db track_id)) as [existing|].
  - destruct (truthy_float (TrackScore.trending_score existing));
      destruct db; cbn in Hp |- *; subst; reflexivity.
  - destruct db; cbn in Hp |- *; subst; reflexivity.
Qed.

Lemma trending_persists_one_row : persists_one_row TrendingSelector.score_and_persist.
Proof.
  intros track track_id db Hp. rewrite trending_persist_unfold by assumption.
  destruct (TrendingScorer._check_thresholds track_id db); cbn [negb]; [|now left].
  match goal with
  | |- context [ExplainabilityEngine.explain_trending ?t ?i ?c ?d] =>
      destruct (ExplainabilityEngine.explain_trending t i c d) as [explanation|e]
  end.
  - right. right. eexists. reflexivity.
  - right. left. eexists. reflexivity.
Qed.

Lemma evergreen_persists_one_row : persists_one_row EvergreenSelector.score_and_persist.
Proof.
  intros track track_id db Hp. rewrite evergreen_persist_unfold by assumption.
  destruct (EvergreenScorer.calculate_score track track_id db)
    as [[[score components] passes]|e]; [|right; left; eexists; reflexivity].
  destruct passes; cbn [negb]; [|now left].
  destruct (ExplainabilityEngine.explain_evergreen track track_id components db)
    as [explanation|e].
  - right. right. eexists. reflexivity.
  - right. left. eexists. reflexivity.
Qed.

Lemma trending_persist_no_evergreen track track_id db db' row :
  pending db = [] ->
  TrendingSelector.score_and_persist track track_id db = (db', Ok (Some row)) ->
  TrackScore.evergreen_score row = None /\ track_scores db' = (track_scores db ++ [row])%list.
Proof.
  intros Hp. rewrite trending_persist_unfold by assumption.
  destruct (TrendingScorer._check_thresholds track_id db); cbn [negb]; [|discriminate].
  match goal with
  | |- context [ExplainabilityEngine.explain_trending ?t ?i ?c ?d] =>
      destruct (ExplainabilityEngine.explain_trending t i c d) as [explanation|e]
  end; [|discriminate].
  intros H. inversion H; subst. split; reflexivity.
Qed.

Lemma evergreen_persist_copies_trending track track_id db db' row prior v :
  pending db = [] ->
  EvergreenSelector.score_and_persist track track_id db = (db', Ok (Some row)) ->
  latest_score (scores_of db track_id) = Some prior ->
  TrackScore.trending_score prior = Some v ->
  v <> 0%R ->
  TrackScore.trending_score row = Some v
  /\ track_scores db' = (track_scores db ++ [row])%list.
Proof.
  intros Hp. rewrite evergreen_persist_unfold by assumption.
  destruct (EvergreenScorer.calculate_score track track_id db)
    as [[[score components] passes]|e]; [|discriminate].
  destruct passes; cbn [negb]; [|discriminate].
  destruct (ExplainabilityEngine.explain_evergreen track track_id components db)
    as [explanation|e]; [|discriminate].
  intros H Hl Hv Hnz. inversion H; subst. split; [|reflexivity].
  unfold evergreen_row. cbn [TrackScore.trending_score]. rewrite Hl, Hv.
  cbn [truthy_float]. destruct (Reqb v 0) eqn:E; [apply Reqb_true in E; contradiction|].
  reflexivity.
Qed.

(** C1.  The code on a track that passes the trending gate and whose latest
    score row has [evergreen_score = 72.5]:
    [TrendingSelector.score_and_persist] succeeds and the row it commits has
    no evergreen score.  It never sets one: every row it returns has
    [evergreen_score] null.  [EvergreenSelector.score_and_persist] does copy
    a prior trending score other than 0.0 into the row it commits. *)
Theorem C1_trending_persist_drops_evergreen :
  (latest_score (scores_of carry_db "t1") = Some prior_evergreen_row
   /\ TrackScore.evergreen_score prior_evergreen_row = Some 72.5%R)
  /\ (exists explanation,
         let track := Track.mk "t1" "Song" "Artist" (Some (900 * day)) in
         let row := trending_row track "t1" carry_db explanation in
         TrendingSelector.score_and_persist track "t1" carry_db
         = (commit_score carry_db row, Ok (Some row))
         /\ TrackScore.evergreen_score row = None)
  /\ (forall track track_id db db' row,
         pending db = [] ->
         TrendingSelector.score_and_persist track track_id db = (db', Ok (Some row)) ->
         TrackScore.evergreen_score row = None)
  /\ (forall track track_id db db' row prior v,
         pending db = [] ->
         EvergreenSelector.score_and_persist track track_id db = (db', Ok (Some row)) ->
         latest_score (scores_of db track_id) = Some prior ->
         TrackScore.trending_score prior = Some v ->
         v <> 0%R ->
         TrackScore.trending_score row = Some v).
Proof.
  split; [|split; [|split]].
  - split; reflexivity.
  - cbv zeta.
    set (track := Track.mk "t1" "Song" "Artist" (Some (900 * day))).
    rewrite trending_persist_unfold by reflexivity.
    assert (G : TrendingScorer._check_thresholds "t1" carry_db = true)
      by (vm_compute; reflexivity).
    rewrite G. cbn [negb].
    destruct (explain_trending_dated track "t1"
                (snd (fst (TrendingScorer.calculate_score track "t1" carry_db)))
                carry_db (900 * day) eq_refl) as [explanation E].
    exists explanation. rewrite E. split; reflexivity.
  - intros track track_id db db' row Hp H.
    now destruct (trending_persist_no_evergreen track track_id db db' row Hp H).
  - intros track track_id db db' row prior v Hp H Hl Hv Hnz.
    now destruct (evergreen_persist_copies_trending track track_id db db' row prior v
                    Hp H Hl Hv Hnz).
Qed.

(** ** The batch loop *)

Section BatchRun.
Variable sp : Track.t -> string -> M (option TrackScore.t).
Hypothesis sp_one_row : persists_one_row sp.

Lemma batch_loop_cons (track_id : string) (rest : list string) (p s : Z) (db : Session) :
  batch_loop sp (track_id :: rest) p s db
  = match find_track db track_id with
    | None => batch_loop sp rest p s db
    | Some track =>
        match sp track track_id db with
        | (db', Ok score) =>
            batch_loop sp rest (p + 1) (if is_some score then s + 1 else s) db'
        | (db', Raise e) => (db', Raise e)
        end
    end.
Proof.
  cbn [batch_loop]. unfold bind at 1, query.
  destruct (find_track db track_id) as [track|]; [|reflexivity].
  unfold bind. destruct (sp track track_id db) as [db' [score|e]]; reflexivity.
Qed.

Lemma found_count_cons (db : Session) (track_id : string) (rest : list string) :
  found_count db (track_id :: rest)
  = (if is_some (find_track db track_id) then 1 else 0) + found_count db rest.
Proof.
  unfold found_count. cbn [filter].
  destruct (is_some (find_track db track_id)); cbn [List.length]; lia.
Qed.

Lemma found_count_tracks (db db' : Session) (track_ids : list string) :
  tracks db' = tracks db -> found_count db' track_ids = found_count db track_ids.
Proof. intros H. unfold found_count, find_track. now rewrite H. Qed.

Lemma batch_loop_grows (track_ids : list string) :
  forall (p s : Z) (db : Session),
    pending db = [] ->
    exists db' r extra,
      batch_loop sp track_ids p s db = (db', r)
      /\ grown db db' extra
      /\ (forall p' s', r = Ok (p', s') ->
            p' = p + found_count db track_ids
            /\ s' = s + Z.of_nat (List.length extra)).
Proof.
  induction track_ids as [|track_id rest IH]; intros p s db Hp.
  - exists db, (Ok (p, s)), []. split; [reflexivity|]. split.
    + unfold grown. rewrite app_nil_r. tauto.
    + intros p' s' H. inversion H; subst. unfold found_count. cbn. lia.
  - rewrite batch_loop_cons, found_count_cons.
    destruct (find_track db track_id) as [track|]; cbn [is_some].
    + destruct (sp_one_row track track_id db Hp) as [E | [(e & E) | (row & E)]]; rewrite E.
      * destruct (IH (p + 1) s db Hp) as (db' & r & extra & El & Hg & Hc).
        exists db', r, extra. split; [assumption|]. split; [assumption|].
        intros p' s' Hr. destruct (Hc p' s' Hr). lia.
      * exists db, (Raise e), []. split; [reflexivity|]. split.
        -- unfold grown. rewrite app_nil_r. tauto.
        -- intros p' s' H. discriminate.
      * cbn [is_some].
        destruct (IH (p + 1) (s + 1) (commit_score db row) eq_refl)
          as (db' & r & extra & El & Hg & Hc).
        exists db', r, (row :: extra). split; [assumption|]. split.
        -- destruct Hg as (G1 & G2 & G3 & G4 & G5 & G6).
           unfold grown. cbn in G2, G3, G4, G5, G6.
           rewrite <- app_assoc in G6. tauto.
        -- intros p' s' Hr. destruct (Hc p' s' Hr) as [Hp' Hs'].
           rewrite (found_count_tracks db (commit_score db row)) in Hp' by reflexivity.
           cbn [List.length]. lia.
    + destruct (IH p s db Hp) as (db' & r & extra & El & Hg & Hc).
      exists db', r, extra. split; [assumption|]. split; [assumption|].
      intros p' s' Hr. destruct (Hc p' s' Hr). lia.
Qed.

(** A raising loop stops at the track that raised: the ids before it were
    processed in full, and the session is the one they left. *)
Lemma batch_loop_raises_at (track_ids : list string) :
  forall (p s : Z) (db db' : Session) (e : py_exn),
    pending db = [] ->
    batch_loop sp track_ids p s db = (db', Raise e) ->
    exists before failing rest track p' s',
      track_ids = (before ++ failing :: rest)%list
      /\ batch_loop sp before p s db = (db', Ok (p', s'))
      /\ find_track db' failing = Some track
      /\ sp track failing db' = (db', Raise e).
Proof.
  induction track_ids as [|track_id rest IH]; intros p s db db' e Hp H.
  - discriminate.
  - rewrite batch_loop_cons in H.
    destruct (find_track db track_id) as [track|] eqn:Ef.
    + destruct (sp_one_row track track_id db Hp) as [E | [(e' & E) | (row & E)]];
        rewrite E in H.
      * destruct (IH _ _ _ _ _ Hp H) as (before & failing & rest' & t & p' & s' & A & B & C & D).
        exists (track_id :: before), failing, rest', t, p', s'.
        split; [now rewrite A|]. split; [|tauto].
        rewrite batch_loop_cons, Ef, E. assumption.
      * inversion H; subst.
        exists [], track_id, rest, track, p, s. repeat split; assumption.
      * destruct (IH _ _ _ _ _ (eq_refl : pending (commit_score db row) = []) H)
          as (before & failing & rest' & t & p' & s' & A & B & C & D).
        exists (track_id :: before), failing, rest', t, p', s'.
        split; [now rewrite A|]. split; [|tauto].
        rewrite batch_loop_cons, Ef, E. assumption.
    + destruct (IH _ _ _ _ _ Hp H) as (before & failing & rest' & t & p' & s' & A & B & C & D).
      exists (track_id :: before), failing, rest', t, p', s'.
      split; [now rewrite A|]. split; [|tauto].
      rewrite batch_loop_cons, Ef. assumption.
Qed.

Lemma run_batch_unfold (run_type : string) (track_ids : list string) (db : Session) :
  pending db = [] ->
  run_batch sp run_type track_ids db
  = match batch_loop sp track_ids 0 0 (started run_type db) with
    | (db2, Ok (p, s)) =>
        let run := completed_run (start_run run_type db) (utcnow db2) p s in
        (write_run db2 run, Ok run)
    | (db2, Raise e) =>
        let run := failed_run (start_run run_type db) e in
        (write_run db2 run, Ok run)
    end.
Proof.
  intros Hp.
  destruct (batch_loop_grows track_ids 0 0 (started run_type db) eq_refl)
    as (db2 & r & extra & El & Hg & _).
  destruct Hg as (Hp2 & _).
  unfold run_batch, bind, query, db_add_run, db_commit, try_except, db_set_run, ret.
  destruct db as [ts ms ss rs ps now]. cbn in Hp. subst ps.
  unfold started, start_run in El |- *.
  cbn [pending app fold_left apply_op set_pending tracks track_metrics track_scores
       discovery_runs utcnow DiscoveryRun.id DiscoveryRun.run_type DiscoveryRun.started_at
       DiscoveryRun.completed_at DiscoveryRun.tracks_processed DiscoveryRun.tracks_new
       DiscoveryRun.tracks_updated DiscoveryRun.status DiscoveryRun.error_message]
    in El |- *.
  rewrite El.
  destruct db2 as [ts2 ms2 ss2 rs2 ps2 now2]. cbn in Hp2. subst ps2.
  destruct r as [[p s]|e]; reflexivity.
Qed.

Lemma next_id_fresh (ids : list Z) (x : Z) : In x ids -> x < next_id ids.
Proof.
  unfold next_id. induction ids as [|y ids IH]; cbn [In fold_right]; [tauto|].
  intros [->|H]; [lia|]. specialize (IH H). lia.
Qed.

Lemma write_run_started (rows : list DiscoveryRun.t) (run0 run : DiscoveryRun.t) :
  DiscoveryRun.id run0 = next_id (map DiscoveryRun.id rows) ->
  DiscoveryRun.id run = DiscoveryRun.id run0 ->
  map (fun r => if DiscoveryRun.id r =? DiscoveryRun.id run then run else r)
      (rows ++ [run0])
  = (rows ++ [run])%list.
Proof.
  intros H0 H. rewrite map_app. cbn [map]. rewrite H, Z.eqb_refl. f_equal.
  rewrite <- (map_id rows) at 2. apply map_ext_in. intros r Hr.
  assert (DiscoveryRun.id r < DiscoveryRun.id run0).
  { rewrite H0. apply next_id_fresh. now apply in_map. }
  destruct (DiscoveryRun.id r =? DiscoveryRun.id run0) eqn:E; [|reflexivity].
  apply Z.eqb_eq in E. lia.
Qed.

Lemma run_batch_postcondition (run_type : string) (track_ids : list string) (db : Session) :
  pending db = [] ->
  batch_postcondition sp (run_batch sp run_type) run_type track_ids db.
Proof.
  intros Hp. unfold batch_postcondition. cbv zeta.
  split; [cbn; apply in_or_app; right; now left|].
  split; [reflexivity|]. split; [reflexivity|]. split; [reflexivity|].
  destruct (batch_loop_grows track_ids 0 0 (started run_type db) eq_refl)
    as (db2 & r & extra & El & Hg & Hc).
  destruct Hg as (G1 & G2 & G3 & G4 & G5 & G6).
  cbn [started tracks track_metrics track_scores discovery_runs utcnow] in G2, G3, G4, G5, G6.
  rewrite (run_batch_unfold run_type track_ids db Hp), El.
  destruct r as [[p s]|e].
  - exists db2, (Ok (p, s)), extra,
      (write_run db2 (completed_run (start_run run_type db) (utcnow db2) p s)),
      (completed_run (start_run run_type db) (utcnow db2) p s).
    split; [reflexivity|]. split; [reflexivity|].
    split; [cbn [write_run discovery_runs]; rewrite G4; now apply write_run_started|].
    split; [reflexivity|]. split; [assumption|]. split; [reflexivity|].
    destruct (Hc p s eq_refl) as [Hp' Hs'].
    rewrite (found_count_tracks db (started run_type db)) in Hp' by reflexivity.
    cbn [completed_run DiscoveryRun.status DiscoveryRun.completed_at
         DiscoveryRun.error_message DiscoveryRun.tracks_processed
         DiscoveryRun.tracks_updated start_run].
    rewrite G5. repeat split; try reflexivity; lia.
  - exists db2, (Raise e), extra,
      (write_run db2 (failed_run (start_run run_type db) e)),
      (failed_run (start_run run_type db) e).
    split; [reflexivity|]. split; [reflexivity|].
    split; [cbn [write_run discovery_runs]; rewrite G4; now apply write_run_started|].
    split; [reflexivity|]. split; [assumption|]. split; [reflexivity|].
    split; [reflexivity|]. split; [reflexivity|].
    split; [reflexivity|]. split; [reflexivity|]. split; [reflexivity|].
    destruct (batch_loop_raises_at track_ids 0 0 (started run_type db) db2 e eq_refl El)
      as (before & failing & rest & track & p' & s' & A & B & C & D).
    exists before, failing, rest, track, p', s'.
    destruct (batch_loop_grows before 0 0 (started run_type db) eq_refl)
      as (db2' & r' & extra' & El' & Hg' & Hc').
    rewrite B in El'. inversion El'; subst db2' r'.
    destruct (Hc' p' s' eq_refl) as [Hp' Hs'].
    rewrite (found_count_tracks db (started run_type db)) in Hp' by reflexivity.
    destruct Hg' as (_ & _ & _ & _ & _ & G6').
    cbn [started track_scores] in G6'. rewrite G6 in G6'.
    apply app_inv_head in G6'. subst extra'.
    split; [assumption|]. split; [assumption|]. split; [lia|]. split; [lia|].
    split; [|assumption].
    unfold find_track in C |- *. now rewrite <- G2.
Qed.
End BatchRun.

(** The loop calls [score_and_persist] only on sessions that hold what was
    committed before it started: a function that agrees with [sp] on those
    sessions leads the loop, and the whole batch, to the same result. *)
Lemma batch_loop_agree
    (sp sp' : Track.t -> string -> M (option TrackScore.t)) (run0 : DiscoveryRun.t) :
  persists_one_row sp ->
  agree_where_committed run0 sp sp' ->
  forall (track_ids : list string) (p s : Z) (db : Session),
    pending db = [] ->
    In run0 (discovery_runs db) ->
    batch_loop sp' track_ids p s db = batch_loop sp track_ids p s db.
Proof.
  intros Hone Hagree. induction track_ids as [|track_id rest IH]; intros p s db Hp Hin.
  - reflexivity.
  - rewrite !batch_loop_cons.
    destruct (find_track db track_id) as [track|]; [|now apply IH].
    rewrite (Hagree track track_id db Hp Hin).
    destruct (Hone track track_id db Hp) as [E | [(e & E) | (row & E)]]; rewrite E.
    + now apply IH.
    + reflexivity.
    + apply IH; [reflexivity | exact Hin].
Qed.

Lemma run_batch_agree
    (sp sp' : Track.t -> string -> M (option TrackScore.t))
    (run_type : string) (track_ids : list string) (db : Session) :
  persists_one_row sp ->
  persists_one_row sp' ->
  pending db = [] ->
  agree_where_committed (start_run run_type db) sp sp' ->
  run_batch sp' run_type track_ids db = run_batch sp run_type track_ids db.
Proof.
  intros Hone Hone' Hp Hagree.
  rewrite (run_batch_unfold sp Hone), (run_batch_unfold sp' Hone') by assumption.
  rewrite (batch_loop_agree sp sp' (start_run run_type db) Hone Hagree);
    [reflexivity | reflexivity |].
  cbn [started discovery_runs]. apply in_or_app. right. now left.
Qed.

(** C6 (amended).  For every run of [run_discovery_batch] of either selector
    on a session with nothing staged: an audit row with status "running" is
    created and committed before any track is processed - the loop starts
    from the session that holds it, and [score_and_persist] is called only
    on sessions that hold it, so that any function agreeing with
    [score_and_persist] on those sessions gives the same batch; if a track
    raises, the run ends with status "failed", the message of the exception
    as its non-null [error_message], [tracks_processed] and [tracks_updated]
    left at 0 whatever the number of tracks attempted, and every score row
    committed for the earlier tracks still in the table; on normal
    completion the run has status "completed" with [tracks_processed] the
    number of ids found and [tracks_updated] the number of rows written. *)
Theorem C6_batch_run :
  forall (track_ids : list string) (db : Session),
    pending db = [] ->
    (batch_postcondition TrendingSelector.score_and_persist
                         TrendingSelector.run_discovery_batch "trending" track_ids db
     /\ forall sp,
          persists_one_row sp ->
          agree_where_committed (start_run "trending" db)
                                TrendingSelector.score_and_persist sp ->
          run_batch sp "trending" track_ids db
          = TrendingSelector.run_discovery_batch track_ids db)
    /\ (batch_postcondition EvergreenSelector.score_and_persist
                            EvergreenSelector.run_discovery_batch "evergreen" track_ids db
        /\ forall sp,
             persists_one_row sp ->
             agree_where_committed (start_run "evergreen" db)
                                   EvergreenSelector.score_and_persist sp ->
             run_batch sp "evergreen" track_ids db
             = EvergreenSelector.run_discovery_batch track_ids db).
Proof.
  intros track_ids db Hp. split; split.
  - apply (run_batch_postcondition _ trending_persists_one_row); assumption.
  - intros sp Hone Hagree. unfold TrendingSelector.run_discovery_batch.
    now apply run_batch_agree; [apply trending_persists_one_row | | |].
  - apply (run_batch_postcondition _ evergreen_persists_one_row); assumption.
  - intros sp Hone Hagree. unfold EvergreenSelector.run_discovery_batch.
    now apply run_batch_agree; [apply evergreen_persists_one_row | | |].
Qed.

Lemma C6_batch_run_witness :
  (batch_postcondition TrendingSelector.score_and_persist
                       TrendingSelector.run_discovery_batch "trending"
                       ["t1"; "t2"] failing_batch_db
   /\ forall sp,
        persists_one_row sp ->
        agree_where_committed (start_run "trending" failing_batch_db)
                              TrendingSelector.score_and_persist sp ->
        run_batch sp "trending" ["t1"; "t2"] failing_batch_db
        = TrendingSelector.run_discovery_batch ["t1"; "t2"] failing_batch_db)
  /\ (batch_postcondition EvergreenSelector.score_and_persist
                          EvergreenSelector.run_discovery_batch "evergreen"
                          ["t1"; "t2"] failing_batch_db
      /\ forall sp,
           persists_one_row sp ->
           agree_where_committed (start_run "evergreen" failing_batch_db)
                                 EvergreenSelector.score_and_persist sp ->
           run_batch sp "evergreen" ["t1"; "t2"] failing_batch_db
           = EvergreenSelector.run_discovery_batch ["t1"; "t2"] failing_batch_db).
Proof.
  apply C6_batch_run. reflexivity.
Defined.

Lemma trending_gate_commit_score (track_id : string) (db : Session) (row : TrackScore.t) :
  TrendingScorer._check_thresholds track_id (commit_score db row)
  = TrendingScorer._check_thresholds track_id db.
Proof. reflexivity. Qed.

Lemma trending_gate_started (track_id run_type : string) (db : Session) :
  TrendingScorer._check_thresholds track_id (started run_type db)
  = TrendingScorer._check_thresholds track_id db.
Proof. reflexivity. Qed.

(** C6 as stated fails on the counter: two tracks are attempted, the first
    is scored and committed, the second raises; the run is "failed" with an
    error message, the first track's row is kept, and [tracks_processed] is
    0, not 2. *)
Lemma C6_failed_run_counter_counterexample :
  exists db3 run,
    TrendingSelector.run_discovery_batch ["t1"; "t2"] failing_batch_db = (db3, Ok run)
    /\ found_count failing_batch_db ["t1"; "t2"] = 2
    /\ DiscoveryRun.status run = "failed"
    /\ DiscoveryRun.error_message run <> None
    /\ List.length (track_scores db3) = 1%nat
    /\ DiscoveryRun.tracks_processed run = 0
    /\ DiscoveryRun.tracks_processed run <> 2.
Proof.
  unfold TrendingSelector.run_discovery_batch.
  rewrite (run_batch_unfold _ trending_persists_one_row) by reflexivity.
  set (db1 := started "trending" failing_batch_db).
  rewrite batch_loop_cons.
  change (find_track db1 "t1") with (Some dated_track). cbv beta iota.
  rewrite trending_persist_unfold by reflexivity.
  unfold db1 at 1. rewrite trending_gate_started.
  assert (G1 : TrendingScorer._check_thresholds "t1" failing_batch_db = true)
    by (vm_compute; reflexivity).
  rewrite G1. cbn [negb].
  destruct (explain_trending_dated dated_track "t1"
              (snd (fst (TrendingScorer.calculate_score dated_track "t1" db1)))
              db1 (900 * day) eq_refl) as [explanation E].
  rewrite E. cbn [is_some].
  set (row := trending_row dated_track "t1" db1 explanation).
  rewrite batch_loop_cons.
  change (find_track (commit_score db1 row) "t2") with (Some undated_track). cbv beta iota.
  rewrite trending_persist_unfold by reflexivity.
  rewrite trending_gate_commit_score. unfold db1 at 1. rewrite trending_gate_started.
  assert (G2 : TrendingScorer._check_thresholds "t2" failing_batch_db = true)
    by (vm_compute; reflexivity).
  rewrite G2. cbn [negb].
  destruct (explain_trending_undated undated_track "t2"
              (snd (fst (TrendingScorer.calculate_score undated_track "t2"
                           (commit_score db1 row))))
              (commit_score db1 row) eq_refl) as [e E2].
  rewrite E2. cbv zeta.
  eexists. eexists. split; [reflexivity|].
  split; [vm_compute; reflexivity|].
  split; [reflexivity|]. split; [discriminate|]. split; [reflexivity|].
  split; [reflexivity|]. cbn. discriminate.
Qed.

(** ** Sorting and slicing *)

Lemma insert_desc_perm (x : ScoredTrack.t) (l : list ScoredTrack.t) :
  Permutation (insert_desc x l) (x :: l).
Proof.
  induction l as [|y l IH]; cbn [insert_desc]; [apply Permutation_refl|].
  destruct (Rltb (ScoredTrack.score x) (ScoredTrack.score y)).
  - apply perm_trans with (y :: x :: l); [now apply perm_skip | apply perm_swap].
  - apply Permutation_refl.
Qed.

Lemma sort_desc_perm (l : list ScoredTrack.t) : Permutation (sort_desc l) l.
Proof.
  induction l as [|x l IH]; cbn [sort_desc fold_right]; [apply perm_nil|].
  fold (sort_desc l).
  apply perm_trans with (x :: sort_desc l); [apply insert_desc_perm | now apply perm_skip].
Qed.

Lemma insert_desc_sorted (x : ScoredTrack.t) (l : list ScoredTrack.t) :
  Sorted by_score_desc l -> Sorted by_score_desc (insert_desc x l).
Proof.
  induction l as [|y l IH]; intros Hs; cbn [insert_desc].
  - repeat constructor.
  - destruct (Rltb (ScoredTrack.score x) (ScoredTrack.score y)) eqn:E.
    + apply Rltb_true in E. inversion Hs as [|? ? Hs' Hd]; subst.
      constructor; [now apply IH|].
      destruct l as [|z l]; cbn [insert_desc].
      * constructor. unfold by_score_desc. lra.
      * destruct (Rltb (ScoredTrack.score x) (ScoredTrack.score z)).
        -- inversion Hd; subst. now constructor.
        -- constructor. unfold by_score_desc. lra.
    + apply Rltb_false in E. constructor; [assumption|]. constructor. exact E.
Qed.

Lemma sort_desc_sorted (l : list ScoredTrack.t) : StronglySorted by_score_desc (sort_desc l).
Proof.
  apply Sorted_StronglySorted.
  - intros a b c Hab Hbc. unfold by_score_desc in *. lra.
  - induction l as [|x l IH]; cbn [sort_desc fold_right]; [constructor|].
    now apply insert_desc_sorted.
Qed.

Lemma firstn_in {A : Type} (n : nat) (l : list A) (x : A) : In x (firstn n l) -> In x l.
Proof.
  revert l. induction n as [|n IH]; intros [|y l]; cbn [firstn In]; try tauto.
  intros [H|H]; [now left | right; now apply IH].
Qed.

Lemma firstn_strongly_sorted {A : Type} (R : A -> A -> Prop) (n : nat) (l : list A) :
  StronglySorted R l -> StronglySorted R (firstn n l).
Proof.
  revert l. induction n as [|n IH]; intros l Hs; [constructor|].
  destruct l as [|x l]; [constructor|]. cbn [firstn].
  inversion Hs as [|? ? Hs' Hf]; subst. constructor; [now apply IH|].
  rewrite Forall_forall in *. intros y Hy. apply Hf. now apply firstn_in in Hy.
Qed.

Lemma slice_to_in {A : Type} (l : list A) (limit : Z) (x : A) :
  In x (slice_to l limit) -> In x l.
Proof. unfold slice_to. destruct (0 <=? limit); apply firstn_in. Qed.

Lemma slice_to_sorted {A : Type} (R : A -> A -> Prop) (l : list A) (limit : Z) :
  StronglySorted R l -> StronglySorted R (slice_to l limit).
Proof. unfold slice_to. destruct (0 <=? limit); apply firstn_strongly_sorted. Qed.

Lemma slice_to_length {A : Type} (l : list A) (limit : Z) :
  0 <= limit -> Z.of_nat (List.length (slice_to l limit)) <= limit.
Proof.
  intros H. unfold slice_to. apply Z.leb_le in H as H'. rewrite H'.
  pose proof (firstn_le_length (Z.to_nat limit) l). lia.
Qed.

(** ** Selecting tracks *)

Section Selecting.
Variable calculate_score : Track.t -> string -> Session -> result (R * components_t * bool).
Variable explain : Track.t -> string -> components_t -> Session
                   -> result ExplainabilityEngine.explanation.
Variable summarize : Track.t -> R -> list text -> list text -> text.

Lemma score_loop_cons (track : Track.t) (rest : list Track.t) (min_score : R)
    (acc : list ScoredTrack.t) (db : Session) :
  score_loop calculate_score explain summarize (track :: rest) min_score acc db
  = match calculate_score track (Track.id track) db with
    | Raise e => (db, Raise e)
    | Ok (score, components, passes) =>
        if negb passes || Rltb score min_score
        then score_loop calculate_score explain summarize rest min_score acc db
        else
          match explain track (Track.id track) components db with
          | Raise e => (db, Raise e)
          | Ok explanation =>
              match isoformat (Track.first_discovered track) with
              | Raise e => (db, Raise e)
              | Ok iso =>
                  score_loop calculate_score explain summarize rest min_score
                    (acc ++
                     [ScoredTrack.mk (Track.id track) (Track.title track)
                        (Track.artist_name track) (py_round score 2)
                        (round_components 3 components)
                        (summarize track score
                           (ExplainabilityEngine.why_selected explanation)
                           (ExplainabilityEngine.risk_flags explanation))
                        (ExplainabilityEngine.why_selected explanation)
                        (ExplainabilityEngine.risk_flags explanation) iso])
                    db
              end
          end
    end.
Proof.
  cbn [score_loop]. unfold bind at 1, call at 1.
  destruct (calculate_score track (Track.id track) db) as [[[score components] passes]|e];
    [|reflexivity].
  destruct (negb passes || Rltb score min_score); [reflexivity|].
  unfold bind at 1, call at 1.
  destruct (explain track (Track.id track) components db) as [explanation|e]; [|reflexivity].
  unfold bind at 1, call at 1.
  destruct (isoformat (Track.first_discovered track)) as [iso|e]; reflexivity.
Qed.

Lemma score_loop_spec (db : Session) (min_score : R) (candidates : list Track.t) :
  forall (todo : list Track.t) (acc : list ScoredTrack.t),
    (forall track, In track todo -> In track candidates) ->
    Forall (selected_entry calculate_score explain summarize db min_score candidates) acc ->
    fst (score_loop calculate_score explain summarize todo min_score acc db) = db
    /\ forall l,
        snd (score_loop calculate_score explain summarize todo min_score acc db) = Ok l ->
        Forall (selected_entry calculate_score explain summarize db min_score candidates) l.
Proof.
  induction todo as [|track rest IH]; intros acc Hsub Hacc.
  - cbn. split; [reflexivity|]. intros l H. inversion H; subst. assumption.
  - rewrite score_loop_cons.
    assert (Hrest : forall t, In t rest -> In t candidates)
      by (intros t Ht; apply Hsub; now right).
    destruct (calculate_score track (Track.id track) db)
      as [[[score components] passes]|e] eqn:Ec; [|split; [reflexivity | discriminate]].
    destruct (negb passes || Rltb score min_score) eqn:Eskip; [now apply IH|].
    apply orb_false_iff in Eskip. destruct Eskip as [Hpass Hmin].
    apply negb_false_iff in Hpass. subst passes. apply Rltb_false in Hmin.
    destruct (explain track (Track.id track) components db) as [explanation|e] eqn:Ee;
      [|split; [reflexivity | discriminate]].
    destruct (isoformat (Track.first_discovered track)) as [iso|e] eqn:Ei;
      [|split; [reflexivity | discriminate]].
    apply IH; [assumption|].
    apply Forall_app. split; [assumption|]. constructor; [|constructor].
    exists track, score, components, explanation, iso.
    repeat split; try assumption. apply Hsub. now left.
Qed.

Lemma score_loop_returns (db : Session) (min_score : R) :
  forall (todo : list Track.t) (acc : list ScoredTrack.t),
    (forall track, In track todo ->
       (exists r, calculate_score track (Track.id track) db = Ok r)
       /\ (forall components,
              exists explanation, explain track (Track.id track) components db = Ok explanation)
       /\ (exists iso, isoformat (Track.first_discovered track) = Ok iso)) ->
    exists l, score_loop calculate_score explain summarize todo min_score acc db = (db, Ok l).
Proof.
  induction todo as [|track rest IH]; intros acc Hall.
  - exists acc. reflexivity.
  - rewrite score_loop_cons.
    destruct (Hall track (or_introl eq_refl)) as ([[[score components] passes] Ec] & He & [iso Ei]).
    rewrite Ec.
    assert (Hrest : forall t, In t rest ->
       (exists r, calculate_score t (Track.id t) db = Ok r)
       /\ (forall components,
              exists explanation, explain t (Track.id t) components db = Ok explanation)
       /\ (exists iso, isoformat (Track.first_discovered t) = Ok iso))
      by (intros t Ht; apply Hall; now right).
    destruct (negb passes || Rltb score min_score); [now apply IH|].
    destruct (He components) as [explanation Ee]. rewrite Ee, Ei. now apply IH.
Qed.

Lemma select_from_spec (candidates : list Track.t) (limit : Z) (min_score : R) (db : Session) :
  select_postcondition calculate_score explain summarize candidates limit min_score db
    (select_from calculate_score explain summarize candidates limit min_score db).
Proof.
  unfold select_postcondition, select_from, bind, ret.
  destruct (score_loop_spec db min_score candidates candidates [] (fun _ H => H)
              (Forall_nil _)) as [Hdb Hl].
  destruct (score_loop calculate_score explain summarize candidates min_score [] db)
    as [db' [scored|e]]; cbn [fst snd] in *; subst db'.
  - split; [reflexivity|]. intros l H. inversion H; subst. clear H.
    split; [apply slice_to_sorted, sort_desc_sorted|].
    split; [apply slice_to_length|].
    specialize (Hl scored eq_refl). rewrite Forall_forall in *. intros entry He.
    apply Hl. apply slice_to_in in He.
    apply (Permutation_in _ (sort_desc_perm scored)). assumption.
  - split; [reflexivity|]. discriminate.
Qed.

Lemma select_from_returns (candidates : list Track.t) (limit : Z) (min_score : R)
    (db : Session) :
  (forall track, In track candidates ->
     (exists r, calculate_score track (Track.id track) db = Ok r)
     /\ (forall components,
            exists explanation, explain track (Track.id track) components db = Ok explanation)
     /\ (exists iso, isoformat (Track.first_discovered track) = Ok iso)) ->
  exists l,
    snd (select_from calculate_score explain summarize candidates limit min_score db) = Ok l.
Proof.
  intros Hall. unfold select_from, bind, ret.
  destruct (score_loop_returns db min_score candidates [] Hall) as [scored E].
  rewrite E. eexists. reflexivity.
Qed.
End Selecting.

Lemma active_months_ratio_year (track_id : string) (db : Session) :
  exists r, SpotifyFeatures.calculate_active_months_ratio track_id db 365 = Ok r.
Proof.
  unfold SpotifyFeatures.calculate_active_months_ratio.
  match goal with |- context [match ?m with [] => _ | _ :: _ => _ end] => destruct m end;
    eexists; reflexivity.
Qed.

Lemma evergreen_gate_returns (track_id : string) (db : Session) :
  exists b, EvergreenScorer._check_thresholds track_id db = Ok b.
Proof.
  unfold EvergreenScorer._check_thresholds.
  destruct (TemporalFeatures.get_data_points_count track_id db 365
            <? weights.evergreen_min_data_points); [eexists; reflexivity|].
  destruct (active_months_ratio_year track_id db) as [r E]. rewrite E. cbn [rbind].
  destruct (Rltb r (IZR weights.evergreen_min_active_months / 12)); [eexists; reflexivity|].
  match goal with |- context [match ?m with [] => _ | _ :: _ => _ end] => destruct m end;
    [eexists; reflexivity|].
  match goal with |- context [match ?m with [] => _ | _ :: _ => _ end] => destruct m end;
    [eexists; reflexivity|].
  match goal with |- context [if ?c then _ else _] => destruct c end; eexists; reflexivity.
Qed.

Lemma evergreen_score_returns (track : Track.t) (track_id : string) (db : Session) :
  exists r, EvergreenScorer.calculate_score track track_id db = Ok r.
Proof.
  unfold EvergreenScorer.calculate_score, EvergreenScorer.calculate_score_with.
  destruct (active_months_ratio_year track_id db) as [r E]. rewrite E. cbn [rbind].
  destruct (evergreen_gate_returns track_id db) as [b Eb]. rewrite Eb. cbn [rbind].
  eexists. reflexivity.
Qed.

Lemma isoformat_dated (d : option Z) : d <> None -> exists iso, isoformat d = Ok iso.
Proof. destruct d as [i|]; [intros _; eexists; reflexivity | congruence]. Qed.


Lemma returns_on_selects
    (calculate_score : Track.t -> string -> Session -> result (R * components_t * bool))
    (explain : Track.t -> string -> components_t -> Session
               -> result ExplainabilityEngine.explanation)
    (summarize : Track.t -> R -> list text -> list text -> text)
    (candidates : list Track.t) (limit : Z) (min_score : R) (db : Session) :
  returns_on calculate_score explain db candidates ->
  exists l,
    snd (select_from calculate_score explain summarize candidates limit min_score db) = Ok l.
Proof.
  intros H. apply select_from_returns. intros track Ht.
  destruct (H track Ht) as (A & B & C).
  split; [assumption|]. split; [assumption|]. now apply isoformat_dated.
Qed.

Lemma trending_returns_on (db : Session) :
  (forall track, In track (tracks db) -> Track.first_discovered track <> None) ->
  returns_on (fun track track_id d => Ok (TrendingScorer.calculate_score track track_id d))
             ExplainabilityEngine.explain_trending db (tracks db).
Proof.
  intros Hdated track Ht. specialize (Hdated track Ht).
  split; [eexists; reflexivity|]. split; [|assumption].
  intros components.
  destruct (Track.first_discovered track) as [d|] eqn:E; [|congruence].
  now apply (explain_trending_dated track _ components db d).
Qed.




(* ================================================================= *)
(** * Further properties of the code *)

(** ** Feature extractors *)

(** X1.  [calculate_views_velocity] and [calculate_stream_growth] return
    exactly recent / baseline when both snapshots exist and both 7-day
    values are neither null nor 0, and 0.0 in every other case; the constant
    10.0 of their zero-baseline branch is never returned as a cap. *)
Theorem views_and_streams_velocity_is_ratio_or_zero :
  forall (db : Session) (track_id : string) (sp lp : Z),
    TikTokFeatures.calculate_views_velocity track_id db sp lp
    = match recent_snapshot db track_id sp, baseline_snapshot db track_id sp lp with
      | Some recent, Some baseline =>
          if truthy (TrackMetric.tiktok_views_7d recent)
             && truthy (TrackMetric.tiktok_views_7d baseline)
          then (IZR (val (TrackMetric.tiktok_views_7d recent))
                / IZR (val (TrackMetric.tiktok_views_7d baseline)))%R
          else 0%R
      | _, _ => 0%R
      end
    /\ SpotifyFeatures.calculate_stream_growth track_id db sp lp
       = match recent_snapshot db track_id sp, baseline_snapshot db track_id sp lp with
         | Some recent, Some baseline =>
             if truthy (TrackMetric.spotify_streams_7d recent)
                && truthy (TrackMetric.spotify_streams_7d baseline)
             then (IZR (val (TrackMetric.spotify_streams_7d recent))
                   / IZR (val (TrackMetric.spotify_streams_7d baseline)))%R
             else 0%R
         | _, _ => 0%R
         end.
Proof.
  intros db track_id sp lp. rewrite views_velocity_unfold, stream_growth_unfold.
  destruct (recent_snapshot db track_id sp) as [recent|]; [|split; reflexivity].
  destruct (baseline_snapshot db track_id sp lp) as [baseline|]; [|split; reflexivity].
  split; apply velocity_of_reached.
Qed.

Lemma ratio_above_one (r b : Z) : 0 < b -> b < r -> (1 < IZR r / IZR b)%R.
Proof.
  intros Hb Hr. apply IZR_lt in Hb as Hb'. apply IZR_lt in Hr as Hr'.
  apply (Rmult_lt_reg_r (IZR b)); [assumption|].
  unfold Rdiv. rewrite Rmult_assoc, Rinv_l by lra. lra.
Qed.

Lemma growing_field (recent baseline : option Z) :
  (if truthy recent && truthy baseline
   then if 0 <? val baseline then val baseline <? val recent else false
   else false) = true ->
  (1 < velocity_of 10.0 recent baseline)%R.
Proof.
  rewrite velocity_of_reached.
  destruct (truthy recent && truthy baseline); [|discriminate].
  destruct (0 <? val baseline) eqn:Eb; [|discriminate].
  intros Hr. apply Z.ltb_lt in Eb, Hr. now apply ratio_above_one.
Qed.

(** X2.  Whenever [calculate_cross_platform_confirmation] is True, the two
    velocities it stands for agree: the TikTok posts velocity and the
    Spotify stream growth over the same 7-vs-30-day windows are both
    strictly above 1.0, so both normalised components are positive. *)
Theorem cross_platform_confirmation_means_both_grow :
  forall (db : Session) (track_id : string),
    TikTokFeatures.calculate_cross_platform_confirmation track_id db = true ->
    (1 < TikTokFeatures.calculate_posts_velocity track_id db 7 30)%R
    /\ (1 < SpotifyFeatures.calculate_stream_growth track_id db 7 30)%R
    /\ (0 < TrendingScorer.normalize_velocity
              (TikTokFeatures.calculate_posts_velocity track_id db 7 30))%R
    /\ (0 < TrendingScorer.normalize_velocity
              (SpotifyFeatures.calculate_stream_growth track_id db 7 30))%R.
Proof.
  intros db track_id H.
  assert (V : (1 < TikTokFeatures.calculate_posts_velocity track_id db 7 30)%R
              /\ (1 < SpotifyFeatures.calculate_stream_growth track_id db 7 30)%R).
  { rewrite posts_velocity_unfold, stream_growth_unfold.
    unfold TikTokFeatures.calculate_cross_platform_confirmation in H.
    destruct (recent_snapshot db track_id 7) as [recent|]; [|discriminate].
    destruct (baseline_snapshot db track_id 7 30) as [baseline|]; [|discriminate].
    apply andb_true_iff in H. destruct H as [Ht Hs].
    split; now apply growing_field. }
  destruct V as [V1 V2]. repeat split; try assumption.
  - destruct (Rle_dec 10 (TikTokFeatures.calculate_posts_velocity track_id db 7 30)).
    + destruct (normalize_velocity_cases
                  (TikTokFeatures.calculate_posts_velocity track_id db 7 30)) as (_ & B & _).
      rewrite B by assumption. lra.
    + destruct (normalize_velocity_cases
                  (TikTokFeatures.calculate_posts_velocity track_id db 7 30)) as (_ & _ & C).
      rewrite C by lra. apply Rdiv_lt_0_compat; lra.
  - destruct (Rle_dec 10 (SpotifyFeatures.calculate_stream_growth track_id db 7 30)).
    + destruct (normalize_velocity_cases
                  (SpotifyFeatures.calculate_stream_growth track_id db 7 30)) as (_ & B & _).
      rewrite B by assumption. lra.
    + destruct (normalize_velocity_cases
                  (SpotifyFeatures.calculate_stream_growth track_id db 7 30)) as (_ & _ & C).
      rewrite C by lra. apply Rdiv_lt_0_compat; lra.
Qed.

Lemma cross_platform_confirmation_means_both_grow_witness :
  (1 < TikTokFeatures.calculate_posts_velocity "t1" growing_db 7 30)%R
  /\ (1 < SpotifyFeatures.calculate_stream_growth "t1" growing_db 7 30)%R
  /\ (0 < TrendingScorer.normalize_velocity
            (TikTokFeatures.calculate_posts_velocity "t1" growing_db 7 30))%R
  /\ (0 < TrendingScorer.normalize_velocity
            (SpotifyFeatures.calculate_stream_growth "t1" growing_db 7 30))%R.
Proof.
  apply cross_platform_confirmation_means_both_grow. vm_compute. reflexivity.
Defined.

(** X3.  [has_tiktok_momentum] is antitone in its threshold: momentum at a
    threshold holds at every lower one; with a threshold of at least 50 it
    means the latest snapshot of the last 7 days has a non-null post count
    at or above the TikTok minimum of the trending gate.  A snapshot whose
    post count is null or 0 has no momentum at any threshold, negative ones
    included. *)
Theorem tiktok_momentum_threshold :
  forall (db : Session) (track_id : string) (threshold : Z),
    TikTokFeatures.has_tiktok_momentum track_id db threshold = true ->
    (forall lower, lower <= threshold ->
                   TikTokFeatures.has_tiktok_momentum track_id db lower = true)
    /\ (weights.trending_min_tiktok_posts_7d <= threshold ->
        exists recent v,
          recent_snapshot db track_id 7 = Some recent
          /\ TrackMetric.tiktok_posts_7d recent = Some v
          /\ weights.trending_min_tiktok_posts_7d <= v)
    /\ (forall recent,
           recent_snapshot db track_id 7 = Some recent ->
           truthy (TrackMetric.tiktok_posts_7d recent) = true).
Proof.
  intros db track_id threshold H.
  unfold TikTokFeatures.has_tiktok_momentum in *.
  destruct (recent_snapshot db track_id 7) as [recent|]; [|discriminate].
  destruct (truthy (TrackMetric.tiktok_posts_7d recent)) eqn:Et; cbn [negb] in *;
    [|discriminate].
  apply Z.leb_le in H. split; [|split].
  - intros lower Hl. apply Z.leb_le. lia.
  - intros Hmin. apply truthy_true in Et. destruct Et as (v & Ev & _).
    rewrite Ev in H. cbn [val] in H. exists recent, v. repeat split; [assumption | lia].
  - intros r Hr. inversion Hr; subst. assumption.
Qed.

Lemma tiktok_momentum_threshold_witness :
  (forall lower, lower <= 100 ->
                 TikTokFeatures.has_tiktok_momentum "t1" growing_db lower = true)
  /\ (weights.trending_min_tiktok_posts_7d <= 100 ->
      exists recent v,
        recent_snapshot growing_db "t1" 7 = Some recent
        /\ TrackMetric.tiktok_posts_7d recent = Some v
        /\ weights.trending_min_tiktok_posts_7d <= v)
  /\ (forall recent,
         recent_snapshot growing_db "t1" 7 = Some recent ->
         truthy (TrackMetric.tiktok_posts_7d recent) = true).
Proof.
  apply tiktok_momentum_threshold. vm_compute. reflexivity.
Defined.

Lemma filter_length_impl {A : Type} (p q : A -> bool) (l : list A) :
  (forall x, p x = true -> q x = true) ->
  (List.length (filter p l) <= List.length (filter q l))%nat.
Proof.
  intros H. induction l as [|x l IH]; cbn [filter]; [apply Nat.le_refl|].
  destruct (p x) eqn:Ep.
  - rewrite (H x Ep). cbn [List.length]. now apply le_n_S.
  - destruct (q x); cbn [List.length]; [now apply Nat.le_le_succ_r | assumption].
Qed.

Lemma filter_length_all {A : Type} (p : A -> bool) (l : list A) :
  (List.length (filter p l) <= List.length l)%nat.
Proof.
  induction l as [|x l IH]; cbn [filter List.length]; [apply Nat.le_refl|].
  destruct (p x); cbn [List.length]; [now apply le_n_S | now apply Nat.le_le_succ_r].
Qed.

Lemma metrics_since_wider (db : Session) (track_id : string) (since since' : Z) :
  since' <= since ->
  forall m, In m (metrics_since db track_id since) -> In m (metrics_since db track_id since').
Proof.
  intros H m. unfold metrics_since. rewrite !filter_In.
  intros [Hin Hp]. split; [assumption|].
  apply andb_true_iff in Hp. destruct Hp as [Hid Hts]. apply andb_true_iff.
  split; [assumption|]. apply Z.leb_le in Hts. apply Z.leb_le. lia.
Qed.

Lemma timedelta_days_le (a b : Z) : a <= b -> timedelta_days a <= timedelta_days b.
Proof. unfold timedelta_days. lia. Qed.

(** X4.  [get_data_points_count] never decreases when the lookback window
    grows, is never negative, and never exceeds the number of metric rows
    stored. *)
Theorem data_points_count_monotone :
  forall (db : Session) (track_id : string) (shorter longer : Z),
    shorter <= longer ->
    0 <= TemporalFeatures.get_data_points_count track_id db shorter
    /\ TemporalFeatures.get_data_points_count track_id db shorter
       <= TemporalFeatures.get_data_points_count track_id db longer
    /\ TemporalFeatures.get_data_points_count track_id db longer
       <= Z.of_nat (List.length (track_metrics db)).
Proof.
  intros db track_id shorter longer H.
  unfold TemporalFeatures.get_data_points_count, metrics_since.
  split; [lia|]. split.
  - apply Nat2Z.inj_le. apply filter_length_impl. intros m Hm.
    apply andb_true_iff in Hm. destruct Hm as [Hid Hts]. apply andb_true_iff.
    split; [assumption|]. apply Z.leb_le in Hts. apply Z.leb_le.
    pose proof (timedelta_days_le shorter longer H). lia.
  - apply Nat2Z.inj_le. apply filter_length_all.
Qed.

Lemma data_points_count_monotone_witness :
  0 <= TemporalFeatures.get_data_points_count "t1" steady_db 7
  /\ TemporalFeatures.get_data_points_count "t1" steady_db 7
     <= TemporalFeatures.get_data_points_count "t1" steady_db 30
  /\ TemporalFeatures.get_data_points_count "t1" steady_db 30
     <= Z.of_nat (List.length (track_metrics steady_db)).
Proof.
  apply data_points_count_monotone. lia.
Defined.

Lemma chart_window_wider (db : Session) (track_id : string) (shorter longer : Z)
    (p : TrackMetric.t -> bool) :
  shorter <= longer ->
  existsb p (metrics_since db track_id (utcnow db - timedelta_days shorter)) = true ->
  existsb p (metrics_since db track_id (utcnow db - timedelta_days longer)) = true.
Proof.
  intros H. rewrite !existsb_exists. intros (m & Hm & Hp). exists m.
  split; [|assumption].
  apply (metrics_since_wider db track_id (utcnow db - timedelta_days shorter));
    [|assumption].
  pose proof (timedelta_days_le shorter longer H). lia.
Qed.

(** X5.  A chart position seen within a lookback window is seen within
    every longer one, for [has_chart_entry] (TikTok) and for
    [has_chart_presence] (Spotify). *)
Theorem chart_lookback_monotone :
  forall (db : Session) (track_id : string) (shorter longer : Z),
    shorter <= longer ->
    (TikTokFeatures.has_chart_entry track_id db shorter = true ->
     TikTokFeatures.has_chart_entry track_id db longer = true)
    /\ (SpotifyFeatures.has_chart_presence track_id db shorter = true ->
        SpotifyFeatures.has_chart_presence track_id db longer = true).
Proof.
  intros db track_id shorter longer H.
  unfold TikTokFeatures.has_chart_entry, SpotifyFeatures.has_chart_presence.
  split; now apply chart_window_wider.
Qed.

Lemma chart_lookback_monotone_witness :
  (TikTokFeatures.has_chart_entry "t1" charted_db 30 = true ->
   TikTokFeatures.has_chart_entry "t1" charted_db 180 = true)
  /\ (SpotifyFeatures.has_chart_presence "t1" charted_db 30 = true ->
      SpotifyFeatures.has_chart_presence "t1" charted_db 180 = true).
Proof.
  apply chart_lookback_monotone. lia.
Defined.

Lemma stream_consistency_bounds (db : Session) (track_id : string) (lookback_days : Z) :
  (0 <= SpotifyFeatures.calculate_stream_consistency track_id db lookback_days <= 1)%R.
Proof.
  rewrite stream_consistency_unfold.
  destruct (Z.of_nat (List.length (consistency_rows track_id db lookback_days)) <? 30);
    [lra|].
  destruct (consistency_streams track_id db lookback_days) as [|x l]; [lra|].
  destruct (Reqb (np_mean (x :: l)) 0); [lra|].
  split.
  - apply Rmin_glb; [lra | apply Rmax_l].
  - replace 1%R with 1.0%R at 2 by lra. apply Rmin_l.
Qed.

(** X6.  [calculate_stream_consistency] always lies in [0, 1], for every
    metric history and every window. *)
Theorem stream_consistency_range :
  forall (db : Session) (track_id : string) (lookback_days : Z),
    (0 <= SpotifyFeatures.calculate_stream_consistency track_id db lookback_days <= 1)%R.
Proof.
  intros db track_id lookback_days. apply stream_consistency_bounds.
Qed.

Lemma active_months_nonempty (rows : list TrackMetric.t) :
  rows <> [] -> (0 < INR (List.length (SpotifyFeatures.active_months rows)))%R.
Proof.
  intros H. destruct rows as [|m rows]; [congruence|].
  unfold SpotifyFeatures.active_months.
  assert (Hin : In (year_month (TrackMetric.timestamp m))
                   (nodup SpotifyFeatures.pair_eq_dec
                      (map (fun m => year_month (TrackMetric.timestamp m)) (m :: rows)))).
  { apply nodup_In. now left. }
  destruct (nodup SpotifyFeatures.pair_eq_dec
              (map (fun m => year_month (TrackMetric.timestamp m)) (m :: rows)));
    [contradiction|].
  apply lt_0_INR. cbn [List.length]. apply Nat.lt_0_succ.
Qed.

Lemma active_months_ratio_unfold (track_id : string) (db : Session) (lookback_days : Z) :
  SpotifyFeatures.calculate_active_months_ratio track_id db lookback_days
  = match active_rows track_id db lookback_days with
    | [] => Ok 0%R
    | _ =>
        if lookback_days =? 0 then Raise (ZeroDivisionError [Lit "float division by zero"])
        else Ok (Rmin 1.0
                   (INR (List.length
                           (SpotifyFeatures.active_months
                              (active_rows track_id db lookback_days)))
                    / (IZR lookback_days / 30)))%R
    end.
Proof. reflexivity. Qed.

Lemma active_months_ratio_positive (db : Session) (track_id : string) (lookback_days : Z) :
  0 < lookback_days ->
  exists r,
    SpotifyFeatures.calculate_active_months_ratio track_id db lookback_days = Ok r
    /\ (0 <= r <= 1)%R
    /\ (r = 0%R <-> active_rows track_id db lookback_days = []).
Proof.
  rewrite active_months_ratio_unfold. intros Hpos.
  pose proof (active_months_nonempty (active_rows track_id db lookback_days)) as Hn.
  destruct (active_rows track_id db lookback_days) as [|m rows] eqn:E.
  - exists 0%R. split; [reflexivity|]. split; [lra|]. tauto.
  - assert (Hz : (lookback_days =? 0) = false) by (apply Z.eqb_neq; lia).
    rewrite Hz. eexists. split; [reflexivity|].
    assert (Hl : (0 < IZR lookback_days)%R) by (apply IZR_lt; assumption).
    assert (Hr : (0 < INR (List.length (SpotifyFeatures.active_months (m :: rows)))
                      / (IZR lookback_days / 30))%R).
    { apply Rdiv_lt_0_compat; [apply Hn; discriminate|].
      apply Rdiv_lt_0_compat; lra. }
    set (ratio := (INR (List.length (SpotifyFeatures.active_months (m :: rows)))
                   / (IZR lookback_days / 30))%R) in *.
    pose proof (Rmin_l 1.0 ratio) as Hmin.
    assert (Hmin0 : (0 < Rmin 1.0 ratio)%R) by (apply Rmin_glb_lt; lra).
    split; [lra|]. split; [|discriminate]. intros H0. lra.
Qed.

(** X7.  [calculate_active_months_ratio] over a positive lookback returns a
    ratio in [0, 1], which is 0 exactly when the window has no row with a
    positive stream count.  With [lookback_days = 0] it returns 0.0 when
    there is no such row and raises [ZeroDivisionError] when there is one. *)
Theorem active_months_ratio_range :
  forall (db : Session) (track_id : string) (lookback_days : Z),
    (0 < lookback_days ->
     exists r,
       SpotifyFeatures.calculate_active_months_ratio track_id db lookback_days = Ok r
       /\ (0 <= r <= 1)%R
       /\ (r = 0%R <-> active_rows track_id db lookback_days = []))
    /\ (lookback_days = 0 ->
        (active_rows track_id db lookback_days = [] ->
         SpotifyFeatures.calculate_active_months_ratio track_id db lookback_days = Ok 0%R)
        /\ (active_rows track_id db lookback_days <> [] ->
            exists msg,
              SpotifyFeatures.calculate_active_months_ratio track_id db lookback_days
              = Raise (ZeroDivisionError msg))).
Proof.
  intros db track_id lookback_days. split.
  - apply active_months_ratio_positive.
  - rewrite active_months_ratio_unfold. intros ->. split.
    + intros ->. reflexivity.
    + intros Hne. destruct (active_rows track_id db 0); [congruence|].
      eexists. reflexivity.
Qed.

Lemma active_months_ratio_range_witness :
  exists msg,
    SpotifyFeatures.calculate_active_months_ratio "t1" fresh_row_db 0
    = Raise (ZeroDivisionError msg).
Proof.
  destruct (active_months_ratio_range fresh_row_db "t1" 0) as [_ H].
  apply (H eq_refl). vm_compute. discriminate.
Defined.

Lemma delta_days_later (now ts n : Z) :
  0 <= n -> delta_days now ts <= delta_days (now + n * day) ts.
Proof.
  intros H. unfold delta_days, day. apply Z.div_le_mono; lia.
Qed.

(** X8.  [calculate_recency_score] takes one of the five values 1.0, 0.9,
    0.5, 0.2, 0.0, and never increases as time passes: read [n >= 0] days
    later over the same metric rows, it is at most what it was. *)
Theorem recency_score_decays :
  forall (db : Session) (track_id : string) (n : Z),
    0 <= n ->
    (TemporalFeatures.calculate_recency_score track_id (days_later n db)
     <= TemporalFeatures.calculate_recency_score track_id db)%R
    /\ In (TemporalFeatures.calculate_recency_score track_id db)
          [1.0; 0.9; 0.5; 0.2; 0.0]%R.
Proof.
  intros db track_id n Hn. unfold TemporalFeatures.calculate_recency_score.
  cbn [days_later track_metrics utcnow].
  destruct (latest_metric _) as [latest|];
    [|split; [lra | cbn [In]; do 4 right; left; lra]].
  pose proof (delta_days_later (utcnow db) (TrackMetric.timestamp latest) n Hn) as Hd.
  set (d1 := delta_days (utcnow db) (TrackMetric.timestamp latest)) in *.
  set (d2 := delta_days (utcnow db + n * day) (TrackMetric.timestamp latest)) in *.
  split.
  - repeat match goal with
           | |- context [?a <=? ?b] => destruct (Z.leb_spec a b)
           end; try lra; exfalso; lia.
  - repeat match goal with
           | |- context [?a <=? ?b] => destruct (Z.leb_spec a b)
           end; cbn [In]; tauto.
Qed.

Lemma recency_score_decays_witness :
  (TemporalFeatures.calculate_recency_score "t1" (days_later 40 steady_db)
   <= TemporalFeatures.calculate_recency_score "t1" steady_db)%R
  /\ In (TemporalFeatures.calculate_recency_score "t1" steady_db)
        [1.0; 0.9; 0.5; 0.2; 0.0]%R.
Proof.
  apply recency_score_decays. lia.
Defined.

(** X9.  For a track with a discovery date, [get_track_age_days] is the
    number of whole days elapsed (rounded down, negative for a date in the
    future), so [is_new_discovery] with threshold [t] is True exactly while
    fewer than [t + 1] full days have passed. *)
Theorem new_discovery_boundary :
  forall (now : Z) (track : Track.t) (d threshold_days : Z),
    Track.first_discovered track = Some d ->
    (exists age,
        TemporalFeatures.get_track_age_days now track = Ok age
        /\ age * 86400000000 <= now - d < (age + 1) * 86400000000)
    /\ TemporalFeatures.is_new_discovery now track threshold_days
       = Ok (now - d <? (threshold_days + 1) * 86400000000).
Proof.
  intros now track d t H.
  unfold TemporalFeatures.is_new_discovery, TemporalFeatures.get_track_age_days.
  rewrite H. cbn [rbind]. unfold delta_days.
  pose proof (Z.div_mod (now - d) 86400000000 ltac:(lia)) as E.
  pose proof (Z.mod_pos_bound (now - d) 86400000000 ltac:(lia)) as B.
  split.
  - eexists. split; [reflexivity|]. lia.
  - f_equal. destruct (Z.leb_spec ((now - d) / 86400000000) t);
      destruct (Z.ltb_spec (now - d) ((t + 1) * 86400000000)); try reflexivity; lia.
Qed.

Lemma new_discovery_boundary_witness :
  (exists age,
      TemporalFeatures.get_track_age_days (1000 * day) new_track = Ok age
      /\ age * 86400000000 <= 1000 * day - 990 * day < (age + 1) * 86400000000)
  /\ TemporalFeatures.is_new_discovery (1000 * day) new_track 30
     = Ok (1000 * day - 990 * day <? (30 + 1) * 86400000000).
Proof.
  apply new_discovery_boundary. reflexivity.
Defined.

(** X10.  [normalize_velocity] is monotone: a larger growth ratio never
    gets a smaller normalised value. *)
Theorem normalize_velocity_monotone :
  forall v w : R,
    (v <= w)%R ->
    (TrendingScorer.normalize_velocity v <= TrendingScorer.normalize_velocity w)%R.
Proof.
  intros v w H.
  pose proof (normalize_velocity_range v) as Rv.
  pose proof (normalize_velocity_range w) as Rw.
  destruct (normalize_velocity_cases v) as (A1 & B1 & C1).
  destruct (normalize_velocity_cases w) as (A2 & B2 & C2).
  destruct (Rle_dec v 1) as [Hv|Hv]; [rewrite A1 by assumption; lra|].
  destruct (Rle_dec 10 w) as [Hw|Hw]; [rewrite B2 by assumption; lra|].
  rewrite C1, C2 by lra.
  apply Rmult_le_compat_r; [|lra].
  apply Rlt_le, Rinv_0_lt_compat. lra.
Qed.

Lemma normalize_velocity_monotone_witness :
  (TrendingScorer.normalize_velocity 2 <= TrendingScorer.normalize_velocity 7)%R.
Proof.
  apply normalize_velocity_monotone. lra.
Defined.

(** ** Evergreen scorer *)

Lemma active_months_ratio_year_range (track_id : string) (db : Session) :
  exists r,
    SpotifyFeatures.calculate_active_months_ratio track_id db 365 = Ok r
    /\ (0 <= r <= 1)%R.
Proof.
  destruct (active_months_ratio_positive db track_id 365 ltac:(lia)) as (r & E & Hr & _).
  now exists r.
Qed.

(** X11.  [EvergreenScorer.calculate_score] always returns.  Its components
    are the stream consistency over 180 days, the active-months ratio over
    365 days, the bonus 1.0 / 0.5 / 0.0 according to whether the consistency
    exceeds 0.8, exceeds 0.6 or neither, and the 0/1 chart persistence; the
    total is 100 times their sum weighted by 0.40, 0.30, 0.20, 0.10, lies in
    [0, 100], and is at most 64 when the consistency is at most 0.6. *)
Theorem evergreen_score_formula :
  forall (track : Track.t) (track_id : string) (db : Session),
    exists total components passes,
      EvergreenScorer.calculate_score track track_id db = Ok (total, components, passes)
      /\ EvergreenScorer._check_thresholds track_id db = Ok passes
      /\ let c := fun k => dict_get components k 0%R in
         let consistency := SpotifyFeatures.calculate_stream_consistency track_id db 180 in
         c "stream_consistency" = consistency
         /\ SpotifyFeatures.calculate_active_months_ratio track_id db 365
            = Ok (c "active_months_ratio")
         /\ ((0.8 < consistency -> c "low_variance_bonus" = 1)
             /\ (0.6 < consistency <= 0.8 -> c "low_variance_bonus" = 0.5)
             /\ (consistency <= 0.6 -> c "low_variance_bonus" = 0))%R
         /\ c "chart_persistence"
            = (if SpotifyFeatures.has_chart_presence track_id db 180 then 1 else 0)%R
         /\ (total = 100 * (0.40 * c "stream_consistency"
                            + 0.30 * c "active_months_ratio"
                            + 0.20 * c "low_variance_bonus"
                            + 0.10 * c "chart_persistence"))%R
         /\ (0 <= total <= 100)%R
         /\ (consistency <= 0.6 -> total <= 64)%R.
Proof.
  intros track track_id db.
  unfold EvergreenScorer.calculate_score, EvergreenScorer.calculate_score_with.
  destruct (active_months_ratio_year_range track_id db) as (r & Er & Hr).
  destruct (evergreen_gate_returns track_id db) as [b Eb].
  pose proof (stream_consistency_bounds db track_id 180) as Hc.
  rewrite Er, Eb. cbn [rbind].
  eexists. eexists. exists b. split; [reflexivity|]. split; [reflexivity|].
  cbv zeta. cbn [dict_get String.eqb Ascii.eqb Bool.eqb].
  set (consistency := SpotifyFeatures.calculate_stream_consistency track_id db 180) in *.
  split; [reflexivity|]. split; [reflexivity|].
  assert (Hb : ((0.8 < consistency ->
                 (if Rltb 0.8 consistency then 1.0
                  else if Rltb 0.6 consistency then 0.5 else 0.0) = 1)
                /\ (0.6 < consistency <= 0.8 ->
                    (if Rltb 0.8 consistency then 1.0
                     else if Rltb 0.6 consistency then 0.5 else 0.0) = 0.5)
                /\ (consistency <= 0.6 ->
                    (if Rltb 0.8 consistency then 1.0
                     else if Rltb 0.6 consistency then 0.5 else 0.0) = 0))%R).
  { destruct (Rltb 0.8 consistency) eqn:E1;
      [apply Rltb_true in E1 | apply Rltb_false in E1];
      (destruct (Rltb 0.6 consistency) eqn:E2;
       [apply Rltb_true in E2 | apply Rltb_false in E2]);
      repeat split; intros; lra. }
  split; [exact Hb|].
  split; [destruct (SpotifyFeatures.has_chart_presence track_id db 180); lra|].
  unfold TrendingScorer.weighted_total, weights.EVERGREEN_WEIGHTS.
  cbn [fold_left fst snd dict_get String.eqb Ascii.eqb Bool.eqb].
  pose proof (bool_component_cases (SpotifyFeatures.has_chart_presence track_id db 180))
    as Hchart.
  destruct Hb as (B1 & B2 & B3).
  set (bonus := if Rltb 0.8 consistency then 1.0%R
                else if Rltb 0.6 consistency then 0.5%R else 0.0%R) in *.
  assert (Hbonus : (0 <= bonus <= 1)%R).
  { destruct (Rle_dec consistency 0.6); [rewrite B3 by assumption; lra|].
    destruct (Rle_dec consistency 0.8); [rewrite B2 by lra; lra|].
    rewrite B1 by lra. lra. }
  split; [lra|]. split; [split; lra|].
  intros Hlow. rewrite (B3 Hlow). lra.
Qed.

Lemma evergreen_gate_unfold (track_id : string) (db : Session) :
  EvergreenScorer._check_thresholds track_id db
  = if TemporalFeatures.get_data_points_count track_id db 365 <? 90 then Ok false
    else
      rbind (SpotifyFeatures.calculate_active_months_ratio track_id db 365) (fun r =>
        if Rltb r (6 / 12) then Ok false
        else
          match consistency_rows track_id db 180 with
          | [] => Ok false
          | _ =>
              match consistency_streams track_id db 180 with
              | [] => Ok true
              | _ =>
                  if Rltb (np_mean (consistency_streams track_id db 180)) 5000
                  then Ok false else Ok true
              end
          end).
Proof. reflexivity. Qed.

Lemma half_year_of_months (n : nat) :
  (6 / 12 <= Rmin 1.0 (INR n / (IZR 365 / 30)))%R <-> (7 <= n)%nat.
Proof.
  assert (Hq : (INR n / (IZR 365 / 30) = INR n * (30 / 365))%R) by (field; lra).
  rewrite Hq. split.
  - intros H. destruct (Nat.le_gt_cases 7 n) as [|Hlt]; [assumption|]. exfalso.
    assert (Hn : (INR n <= 6)%R).
    { replace 6%R with (INR 6) by (cbn; lra). apply le_INR. lia. }
    pose proof (Rmin_r 1.0 (INR n * (30 / 365))). lra.
  - intros H. apply le_INR in H.
    replace (INR 7) with 7%R in H by (cbn; lra).
    apply Rmin_glb; lra.
Qed.

(** X12.  [EvergreenScorer._check_thresholds] always returns, and returns
    True exactly when the track has at least 90 metric rows in the last 365
    days, rows with a positive stream count in at least 7 distinct calendar
    months of that year (a ratio of 6/12 over 365/30 expected months), at
    least one row with a stream count in the last 180 days, and either no
    non-zero count among those (the mean is then not a number and the
    comparison is False) or a mean non-zero count of at least 5000. *)
Theorem evergreen_gate_iff :
  forall (track_id : string) (db : Session),
    exists passes,
      EvergreenScorer._check_thresholds track_id db = Ok passes
      /\ (passes = true
          <-> 90 <= TemporalFeatures.get_data_points_count track_id db 365
              /\ (7 <= List.length
                         (SpotifyFeatures.active_months (active_rows track_id db 365)))%nat
              /\ consistency_rows track_id db 180 <> []
              /\ (consistency_streams track_id db 180 = []
                  \/ (5000 <= np_mean (consistency_streams track_id db 180))%R)).
Proof.
  intros track_id db. rewrite evergreen_gate_unfold, active_months_ratio_unfold.
  destruct (Z.ltb_spec (TemporalFeatures.get_data_points_count track_id db 365) 90)
    as [Hc|Hc].
  { exists false. split; [reflexivity|]. split; [discriminate|]. intros (H & _). lia. }
  pose proof (half_year_of_months
                (List.length (SpotifyFeatures.active_months (active_rows track_id db 365))))
    as Hm.
  destruct (active_rows track_id db 365) as [|m rows] eqn:Ea; cbn [rbind].
  { assert (L : Rltb 0 (6 / 12) = true) by (apply Rltb_true; lra). rewrite L.
    exists false. split; [reflexivity|]. split; [discriminate|].
    intros (_ & H & _). cbn in H. lia. }
  cbn [Z.eqb]. cbn [rbind].
  match goal with
  | |- context [Rltb ?x (6 / 12)] => destruct (Rltb x (6 / 12)) eqn:Er
  end.
  { apply Rltb_true in Er.
    exists false. split; [reflexivity|]. split; [discriminate|].
    intros (_ & H & _). apply Hm in H. lra. }
  apply Rltb_false in Er. apply Hm in Er.
  destruct (consistency_rows track_id db 180) as [|m' rows'] eqn:Ec.
  { exists false. split; [reflexivity|]. split; [discriminate|].
    intros (_ & _ & H & _). congruence. }
  destruct (consistency_streams track_id db 180) as [|x l] eqn:Es.
  { exists true. split; [reflexivity|]. split; [|reflexivity]. intros _.
    repeat split; [assumption | assumption | discriminate | now left]. }
  destruct (Rltb (np_mean (x :: l)) 5000) eqn:E5.
  - apply Rltb_true in E5. exists false. split; [reflexivity|]. split; [discriminate|].
    intros (_ & _ & _ & [H|H]); [discriminate | lra].
  - apply Rltb_false in E5. exists true. split; [reflexivity|]. split; [|reflexivity].
    intros _. repeat split; [assumption | assumption | discriminate | now right].
Qed.

Lemma evergreen_gate_iff_witness :
  EvergreenScorer._check_thresholds "t1" dormant_db = Ok true
  /\ consistency_streams "t1" dormant_db 180 = [].
Proof.
  destruct (evergreen_gate_iff "t1" dormant_db) as (passes & E & Hiff).
  assert (Hs : consistency_streams "t1" dormant_db 180 = []) by (vm_compute; reflexivity).
  split; [|exact Hs].
  rewrite E. f_equal. apply Hiff.
  split; [apply Z.leb_le; vm_compute; reflexivity|].
  split; [apply Nat.leb_le; vm_compute; reflexivity|].
  split; [vm_compute; discriminate|].
  left. exact Hs.
Defined.

(** ** Explanations *)

Lemma normalize_above_half (v : R) :
  (0.5 < TrendingScorer.normalize_velocity v <-> 5.5 < v)%R.
Proof.
  destruct (normalize_velocity_cases v) as (A & B & C).
  destruct (Rle_dec v 1) as [H1|H1]; [rewrite A by assumption; lra|].
  destruct (Rle_dec 10 v) as [H2|H2]; [rewrite B by assumption; lra|].
  rewrite C by lra. split; intros H.
  - apply (Rmult_lt_compat_r (10.0 - 1.0)) in H; [|lra].
    unfold Rdiv in H. rewrite Rmult_assoc, Rinv_l in H by lra. lra.
  - apply (Rmult_lt_reg_r (10.0 - 1.0)); [lra|].
    unfold Rdiv. rewrite Rmult_assoc, Rinv_l by lra. lra.
Qed.

Lemma Rltb_iff (x y : R) (P : Prop) : ((x < y)%R <-> P) -> (Rltb x y = true <-> P).
Proof. intros H. rewrite Rltb_true. exact H. Qed.

(** X13.  In the explanation of a trending score, for the components the
    scorer computed: each growth sentence is given exactly when the raw
    ratio exceeds 5.5 (a normalised value above 0.5) - TikTok posts, TikTok
    views, Spotify streams, each quoting its ratio, and playlists. *)
Theorem trending_growth_reasons :
  forall (track : Track.t) (track_id : string) (db : Session)
         (explanation : ExplainabilityEngine.explanation),
    ExplainabilityEngine.explain_trending track track_id
      (snd (fst (TrendingScorer.calculate_score track track_id db))) db = Ok explanation ->
    let why := ExplainabilityEngine.why_selected explanation in
    let posts := TikTokFeatures.calculate_posts_velocity track_id db 7 30 in
    let views := TikTokFeatures.calculate_views_velocity track_id db 7 30 in
    let streams := SpotifyFeatures.calculate_stream_growth track_id db 7 30 in
    let playlists := SpotifyFeatures.calculate_playlist_growth track_id db 30 in
    (In [Lit "TikTok posts growing "; FixedF 1 posts; Lit "x (7d vs 30d)"] why
     <-> (5.5 < posts)%R)
    /\ (In [Lit "TikTok views accelerating "; FixedF 1 views; Lit "x"] why
        <-> (5.5 < views)%R)
    /\ (In [Lit "Spotify streams up "; FixedF 1 streams; Lit "x in past week"] why
        <-> (5.5 < streams)%R)
    /\ (In [Lit "Adding to Spotify playlists rapidly"] why <-> (5.5 < playlists)%R).
Proof.
  intros track track_id db explanation H. cbv zeta.
  unfold ExplainabilityEngine.explain_trending in H.
  destruct (TemporalFeatures.get_track_age_days (utcnow db) track) as [age|e];
    cbn [rbind] in H; [|discriminate].
  inversion H; subst explanation; clear H.
  cbn [ExplainabilityEngine.why_selected].
  unfold TrendingScorer.calculate_score, TrendingScorer.calculate_score_with.
  cbn [fst snd dict_get String.eqb Ascii.eqb Bool.eqb].
  repeat rewrite in_append_if. cbn [In].
  rewrite <- !normalize_above_half, <- !Rltb_true.
  repeat split; intros H;
    repeat match goal with
           | H : _ \/ _ |- _ => destruct H as [H|H]
           | H : _ /\ _ |- _ => destruct H as [? H]
           | H : False |- _ => destruct H
           end;
    try discriminate; try assumption; tauto.
Qed.

Lemma growing_snapshots :
  recent_snapshot growing_db "t1" 7 = Some growing_recent
  /\ baseline_snapshot growing_db "t1" 7 30 = Some growing_base.
Proof. split; vm_compute; reflexivity. Qed.

Lemma trending_growth_reasons_witness :
  exists explanation,
    ExplainabilityEngine.explain_trending dated_track "t1"
      (snd (fst (TrendingScorer.calculate_score dated_track "t1" growing_db))) growing_db
    = Ok explanation
    /\ In [Lit "TikTok posts growing ";
           FixedF 1 (TikTokFeatures.calculate_posts_velocity "t1" growing_db 7 30);
           Lit "x (7d vs 30d)"]
          (ExplainabilityEngine.why_selected explanation).
Proof.
  destruct (explain_trending_dated dated_track "t1"
              (snd (fst (TrendingScorer.calculate_score dated_track "t1" growing_db)))
              growing_db (900 * day) eq_refl) as [explanation E].
  exists explanation. split; [exact E|].
  apply (proj1 (trending_growth_reasons dated_track "t1" growing_db explanation E)).
  destruct growing_snapshots as [Er Eb].
  rewrite posts_velocity_unfold, Er, Eb.
  change (TrackMetric.tiktok_posts_7d growing_recent) with (Some 200).
  change (TrackMetric.tiktok_posts_7d growing_base) with (Some 20).
  rewrite velocity_of_ratio by lia. lra.
Defined.

Lemma bool_component_is_one (b : bool) :
  Reqb (if b then 1.0 else 0.0)%R 1.0%R = b.
Proof.
  destruct b.
  - apply Reqb_true. reflexivity.
  - destruct (Reqb 0.0 1.0) eqn:E; [apply Reqb_true in E; lra | reflexivity].
Qed.

(** X14.  In the explanation of a trending score, for the components the
    scorer computed: the cross-platform sentence is among the reasons
    exactly when the cross-platform confirmation is True, the
    single-platform warning is among the risk flags exactly when it is
    False, and the chart sentence is given exactly when the track was on a
    TikTok or a Spotify chart in the last 30 days. *)
Theorem trending_boolean_reasons :
  forall (track : Track.t) (track_id : string) (db : Session)
         (explanation : ExplainabilityEngine.explanation),
    ExplainabilityEngine.explain_trending track track_id
      (snd (fst (TrendingScorer.calculate_score track track_id db))) db = Ok explanation ->
    let why := ExplainabilityEngine.why_selected explanation in
    let risk := ExplainabilityEngine.risk_flags explanation in
    (In [Lit "Growing on BOTH TikTok and Spotify (high confidence)"] why
     <-> TikTokFeatures.calculate_cross_platform_confirmation track_id db = true)
    /\ (In [Lit "Single-platform growth only (may not translate)"] risk
        <-> TikTokFeatures.calculate_cross_platform_confirmation track_id db = false)
    /\ (In [Lit "Appeared on TikTok or Spotify charts"] why
        <-> TikTokFeatures.has_chart_entry track_id db 30 = true
            \/ SpotifyFeatures.has_chart_presence track_id db 30 = true).
Proof.
  intros track track_id db explanation H. cbv zeta.
  unfold ExplainabilityEngine.explain_trending in H.
  destruct (TemporalFeatures.get_track_age_days (utcnow db) track) as [age|e];
    cbn [rbind] in H; [|discriminate].
  inversion H; subst explanation; clear H.
  cbn [ExplainabilityEngine.why_selected ExplainabilityEngine.risk_flags].
  unfold TrendingScorer.calculate_score, TrendingScorer.calculate_score_with.
  cbn [fst snd dict_get String.eqb Ascii.eqb Bool.eqb].
  rewrite !bool_component_is_one.
  destruct (recent_snapshot db track_id 7) as [recent|];
    repeat rewrite in_append_if; cbn [In]; rewrite negb_true_iff, orb_true_iff;
    (repeat split; intros H;
     repeat match goal with
            | H : _ \/ _ |- _ => destruct H as [H|H]
            | H : _ /\ _ |- _ => destruct H as [? H]
            | H : False |- _ => destruct H
            end;
     try discriminate; try assumption; tauto).
Qed.

Lemma trending_boolean_reasons_witness :
  exists explanation,
    ExplainabilityEngine.explain_trending dated_track "t1"
      (snd (fst (TrendingScorer.calculate_score dated_track "t1" growing_db))) growing_db
    = Ok explanation
    /\ In [Lit "Growing on BOTH TikTok and Spotify (high confidence)"]
          (ExplainabilityEngine.why_selected explanation).
Proof.
  destruct (explain_trending_dated dated_track "t1"
              (snd (fst (TrendingScorer.calculate_score dated_track "t1" growing_db)))
              growing_db (900 * day) eq_refl) as [explanation E].
  exists explanation. split; [exact E|].
  apply (proj1 (trending_boolean_reasons dated_track "t1" growing_db explanation E)).
  vm_compute. reflexivity.
Defined.

Lemma low_presence_under_gate (o : option Z) (minimum : Z) :
  (forall v, o = Some v -> v <> 0 -> minimum <= v) ->
  negb (truthy o) || (val o <? minimum) = negb (truthy o).
Proof.
  intros H. destruct (truthy o) eqn:E; cbn [negb orb]; [|reflexivity].
  apply truthy_true in E. destruct E as (v & -> & Hv). cbn [val].
  apply Z.ltb_ge. now apply H.
Qed.

(** X15.  For a track that passes the trending gate, whatever components
    are explained: "Low/no TikTok presence" is among the risk flags exactly
    when the latest snapshot's 7-day post count is null or 0, "Low Spotify
    streams" exactly when its 7-day stream count is null or 0, and the
    limited-data warning, which quotes the number of rows of the last 30
    days, exactly when that number (at least 7) is below 15. *)
Theorem trending_risk_flags_under_gate :
  forall (track : Track.t) (track_id : string) (components : components_t)
         (db : Session) (explanation : ExplainabilityEngine.explanation),
    TrendingScorer._check_thresholds track_id db = true ->
    ExplainabilityEngine.explain_trending track track_id components db = Ok explanation ->
    let risk := ExplainabilityEngine.risk_flags explanation in
    let points := TemporalFeatures.get_data_points_count track_id db 30 in
    exists recent,
      recent_snapshot db track_id 7 = Some recent
      /\ (In [Lit "Low/no TikTok presence"] risk
          <-> truthy (TrackMetric.tiktok_posts_7d recent) = false)
      /\ (In [Lit "Low Spotify streams"] risk
          <-> truthy (TrackMetric.spotify_streams_7d recent) = false)
      /\ 7 <= points
      /\ (In [Lit "Limited historical data ("; IntF points; Lit " points)"] risk
          <-> points < 15).
Proof.
  intros track track_id components db explanation Hg H. cbv zeta.
  apply trending_gate_iff in Hg. destruct Hg as (recent & Er & Hp & Hs & Hn).
  exists recent. split; [assumption|].
  unfold ExplainabilityEngine.explain_trending in H.
  destruct (TemporalFeatures.get_track_age_days (utcnow db) track) as [age|e];
    cbn [rbind] in H; [|discriminate].
  inversion H; subst explanation; clear H.
  cbn [ExplainabilityEngine.risk_flags]. rewrite Er.
  rewrite (low_presence_under_gate _ 50 Hp), (low_presence_under_gate _ 10000 Hs).
  repeat rewrite in_append_if. cbn [In].
  rewrite !negb_true_iff.
  split; [|split; [|split; [assumption|]]];
    (split; intros H;
     repeat match goal with
            | H : _ \/ _ |- _ => destruct H as [H|H]
            | H : _ /\ _ |- _ => destruct H as [? H]
            | H : False |- _ => destruct H
            end;
     try discriminate; try assumption; try tauto).
  - now apply Z.ltb_lt.
  - do 2 left. right. split; [now apply Z.ltb_lt | reflexivity].
Qed.

Lemma trending_risk_flags_under_gate_witness :
  exists explanation,
    ExplainabilityEngine.explain_trending dated_track "t1" [] zero_activity_db
    = Ok explanation
    /\ In [Lit "Low/no TikTok presence"] (ExplainabilityEngine.risk_flags explanation)
    /\ In [Lit "Low Spotify streams"] (ExplainabilityEngine.risk_flags explanation).
Proof.
  destruct (explain_trending_dated dated_track "t1" [] zero_activity_db (900 * day) eq_refl)
    as [explanation E].
  exists explanation. split; [exact E|].
  destruct (trending_risk_flags_under_gate dated_track "t1" [] zero_activity_db explanation)
    as (recent & Er & Hp & Hs & _); [vm_compute; reflexivity | exact E |].
  assert (Hrecent : recent_snapshot zero_activity_db "t1" 7
                    = Some (metric "t1" (999 * day) None (Some 0) None (Some 0) None))
    by (vm_compute; reflexivity).
  rewrite Hrecent in Er. inversion Er; subst recent.
  split; [apply Hp | apply Hs]; reflexivity.
Defined.

Lemma length_append_if (c : bool) (l : list text) (y : text) :
  (List.length (ExplainabilityEngine.append_if c l y) <= S (List.length l))%nat.
Proof.
  unfold ExplainabilityEngine.append_if. destruct c; [|apply Nat.le_succ_diag_r].
  rewrite length_app. cbn [List.length]. rewrite Nat.add_1_r. apply Nat.le_refl.
Qed.

(** X16.  Both explainers raise [TypeError] when the track's discovery date
    is NULL and return in every other case, whatever the components and the
    metric history.  A trending explanation has at most 6 reasons and at
    most 5 risk flags. *)
Theorem explanations_raise_only_without_date :
  forall (track : Track.t) (track_id : string) (components : components_t) (db : Session),
    (Track.first_discovered track = None ->
     exists msg,
       ExplainabilityEngine.explain_trending track track_id components db
       = Raise (TypeError msg)
       /\ ExplainabilityEngine.explain_evergreen track track_id components db
          = Raise (TypeError msg))
    /\ (Track.first_discovered track <> None ->
        (exists explanation,
            ExplainabilityEngine.explain_trending track track_id components db
            = Ok explanation
            /\ (List.length (ExplainabilityEngine.why_selected explanation) <= 6)%nat
            /\ (List.length (ExplainabilityEngine.risk_flags explanation) <= 5)%nat)
        /\ exists explanation,
            ExplainabilityEngine.explain_evergreen track track_id components db
            = Ok explanation).
Proof.
  intros track track_id components db.
  unfold ExplainabilityEngine.explain_trending, ExplainabilityEngine.explain_evergreen,
    TemporalFeatures.get_track_age_days.
  destruct (Track.first_discovered track) as [d|].
  - split; [discriminate|]. intros _. cbn [rbind]. split; [|eexists; reflexivity].
    eexists. split; [reflexivity|].
    cbn [ExplainabilityEngine.why_selected ExplainabilityEngine.risk_flags]. split.
    + repeat (etransitivity; [apply length_append_if | apply le_n_S]).
      apply Nat.le_0_l.
    + destruct (recent_snapshot db track_id 7);
        repeat (etransitivity; [apply length_append_if | apply le_n_S]);
        apply Nat.le_0_l.
  - split; [|congruence]. intros _. cbn [rbind]. eexists. split; reflexivity.
Qed.

Lemma bonus_is_one (consistency : R) :
  Reqb (if Rltb 0.8 consistency then 1.0
        else if Rltb 0.6 consistency then 0.5 else 0.0)%R 1.0%R
  = Rltb 0.8%R consistency.
Proof.
  destruct (Rltb 0.8 consistency); [apply Reqb_true; reflexivity|].
  destruct (Rltb 0.6 consistency).
  - destruct (Reqb 0.5 1.0) eqn:E; [apply Reqb_true in E; lra | reflexivity].
  - destruct (Reqb 0.0 1.0) eqn:E; [apply Reqb_true in E; lra | reflexivity].
Qed.

(** X17.  In the explanation of an evergreen score, for the components the
    scorer computed: the "extremely consistent" sentence and the low-variance
    sentence are given together, exactly when the stream consistency exceeds
    0.8; the variance warning is given exactly when it is at most 0.6; the
    chart sentence exactly when the track was on a Spotify chart in the last
    180 days; and the declining-streams warning exactly when the 7-vs-30-day
    stream growth is below 0.7 - in particular whenever one of the two
    snapshots is missing. *)
Theorem evergreen_explanation_mirrors_features :
  forall (track : Track.t) (track_id : string) (db : Session)
         (total : R) (components : components_t) (passes : bool)
         (explanation : ExplainabilityEngine.explanation),
    EvergreenScorer.calculate_score track track_id db = Ok (total, components, passes) ->
    ExplainabilityEngine.explain_evergreen track track_id components db = Ok explanation ->
    let why := ExplainabilityEngine.why_selected explanation in
    let risk := ExplainabilityEngine.risk_flags explanation in
    let consistency := SpotifyFeatures.calculate_stream_consistency track_id db 180 in
    let growth := SpotifyFeatures.calculate_stream_growth track_id db 7 30 in
    (In [Lit "Extremely consistent streams (CV score: "; FixedF 2 consistency; Lit ")"] why
     <-> (0.8 < consistency)%R)
    /\ (In [Lit "Very low variance - highly predictable cashflow"] why
        <-> (0.8 < consistency)%R)
    /\ (In [Lit "Some variance in streams (CV score: "; FixedF 2 consistency; Lit ")"] risk
        <-> (consistency <= 0.6)%R)
    /\ (In [Lit "Long-term chart presence (180+ days)"] why
        <-> SpotifyFeatures.has_chart_presence track_id db 180 = true)
    /\ (In [Lit "Declining streams - may be losing evergreen status"] risk
        <-> (growth < 0.7)%R)
    /\ (recent_snapshot db track_id 7 = None \/ baseline_snapshot db track_id 7 30 = None ->
        In [Lit "Declining streams - may be losing evergreen status"] risk).
Proof.
  intros track track_id db total components passes explanation Hs He. cbv zeta.
  unfold EvergreenScorer.calculate_score, EvergreenScorer.calculate_score_with in Hs.
  destruct (SpotifyFeatures.calculate_active_months_ratio track_id db 365) as [r|e];
    cbn [rbind] in Hs; [|discriminate].
  destruct (EvergreenScorer._check_thresholds track_id db) as [b|e];
    cbn [rbind] in Hs; [|discriminate].
  inversion Hs; subst total components passes; clear Hs.
  unfold ExplainabilityEngine.explain_evergreen in He.
  destruct (TemporalFeatures.get_track_age_days (utcnow db) track) as [age|e];
    cbn [rbind] in He; [|discriminate].
  inversion He; subst explanation; clear He.
  cbn [ExplainabilityEngine.why_selected ExplainabilityEngine.risk_flags
       dict_get String.eqb Ascii.eqb Bool.eqb].
  rewrite bonus_is_one, bool_component_is_one.
  set (consistency := SpotifyFeatures.calculate_stream_consistency track_id db 180).
  set (growth := SpotifyFeatures.calculate_stream_growth track_id db 7 30).
  assert (Hdecl : In [Lit "Declining streams - may be losing evergreen status"]
                     (ExplainabilityEngine.append_if
                        (negb (Rltb 3.0 growth) && Rltb growth 0.7)
                        (ExplainabilityEngine.append_if (Rltb 3.0 growth)
                           (ExplainabilityEngine.append_if
                              (TemporalFeatures.get_data_points_count track_id db 365 <? 180)
                              (ExplainabilityEngine.append_if (age <? 180)
                                 (ExplainabilityEngine.append_if
                                    (negb (Rltb 0.9 r) && negb (Rltb 0.7 r))
                                    (ExplainabilityEngine.append_if
                                       (negb (Rltb 0.8 consistency)
                                        && negb (Rltb 0.6 consistency))
                                       []
                                       [Lit "Some variance in streams (CV score: ";
                                        FixedF 2 consistency; Lit ")"])
                                    [Lit "Gaps in streaming activity"])
                                 [Lit "Relatively new ("; IntF age;
                                  Lit " days) - evergreen status unproven"])
                              [Lit "Limited long-term data (";
                               IntF (TemporalFeatures.get_data_points_count track_id db 365);
                               Lit " points)"])
                           [Lit "Currently experiencing viral growth - may destabilize"])
                        [Lit "Declining streams - may be losing evergreen status"])
                  <-> (growth < 0.7)%R).
  { repeat rewrite in_append_if. cbn [In].
    split.
    - intros H.
      repeat match goal with
             | H : _ \/ _ |- _ => destruct H as [H|H]
             | H : _ /\ _ |- _ => destruct H as [? H]
             | H : False |- _ => destruct H
             end; try discriminate.
      match goal with
      | H : _ && _ = true |- _ => apply andb_true_iff in H; destruct H as [_ H]
      end.
      now apply Rltb_true.
    - intros H. right. split; [|reflexivity]. apply andb_true_iff. split.
      + apply negb_true_iff, Rltb_false. lra.
      + now apply Rltb_true. }
  split; [|split; [|split; [|split; [|split; [exact Hdecl|]]]]].
  - repeat rewrite in_append_if. cbn [In]. rewrite <- Rltb_true.
    split; intros H;
      repeat match goal with
             | H : _ \/ _ |- _ => destruct H as [H|H]
             | H : _ /\ _ |- _ => destruct H as [? H]
             | H : False |- _ => destruct H
             end; try discriminate; try assumption; tauto.
  - repeat rewrite in_append_if. cbn [In]. rewrite <- Rltb_true.
    split; intros H;
      repeat match goal with
             | H : _ \/ _ |- _ => destruct H as [H|H]
             | H : _ /\ _ |- _ => destruct H as [? H]
             | H : False |- _ => destruct H
             end; try discriminate; try assumption; tauto.
  - repeat rewrite in_append_if. cbn [In].
    rewrite <- (Rltb_false 0.6 consistency).
    split; intros H.
    + repeat match goal with
             | H : _ \/ _ |- _ => destruct H as [H|H]
             | H : _ /\ _ |- _ => destruct H as [? H]
             | H : False |- _ => destruct H
             end; try discriminate.
      match goal with
      | H : _ && _ = true |- _ => apply andb_true_iff in H; destruct H as [_ H]
      end.
      now apply negb_true_iff.
    + do 5 left. right. split; [|reflexivity].
      rewrite H, andb_true_r. apply negb_true_iff.
      apply Rltb_false. apply Rltb_false in H. lra.
  - repeat rewrite in_append_if. cbn [In].
    split; intros H;
      repeat match goal with
             | H : _ \/ _ |- _ => destruct H as [H|H]
             | H : _ /\ _ |- _ => destruct H as [? H]
             | H : False |- _ => destruct H
             end; try discriminate; try assumption; tauto.
  - intros Hmiss. apply Hdecl. unfold growth. rewrite stream_growth_unfold.
    destruct Hmiss as [Hm|Hm]; rewrite Hm.
    + lra.
    + destruct (recent_snapshot db track_id 7); lra.
Qed.

Lemma evergreen_explanation_mirrors_features_witness :
  exists total components passes explanation,
    EvergreenScorer.calculate_score new_track "t1" no_metrics_db
    = Ok (total, components, passes)
    /\ ExplainabilityEngine.explain_evergreen new_track "t1" components no_metrics_db
       = Ok explanation
    /\ In [Lit "Declining streams - may be losing evergreen status"]
          (ExplainabilityEngine.risk_flags explanation).
Proof.
  destruct (evergreen_score_returns new_track "t1" no_metrics_db)
    as [[[total components] passes] Es].
  destruct (explain_evergreen_dated new_track "t1" components no_metrics_db
              (990 * day) eq_refl) as [explanation Ee].
  exists total, components, passes, explanation.
  split; [exact Es|]. split; [exact Ee|].
  apply (evergreen_explanation_mirrors_features
           new_track "t1" no_metrics_db total components passes explanation Es Ee).
  left. reflexivity.
Defined.

(** ** Persisting and batches *)

Lemma commit_score_append_only (track_id : string) (db : Session) (row : TrackScore.t) :
  pending db = [] ->
  TrackScore.id row = next_id (map TrackScore.id (track_scores db)) ->
  TrackScore.track_id row = track_id ->
  TrackScore.computed_at row = utcnow db ->
  append_only_outcome track_id db (commit_score db row, Ok (Some row)).
Proof.
  intros Hp Hid Ht Hc. unfold append_only_outcome. cbn [fst snd commit_score tracks
    track_metrics discovery_runs utcnow pending track_scores].
  repeat split; try assumption; try reflexivity.
  intros old Hold. rewrite Hid. apply next_id_fresh. now apply in_map.
Qed.

Lemma unchanged_append_only (track_id : string) (db : Session)
    (r : result (option TrackScore.t)) :
  pending db = [] ->
  (forall row, r <> Ok (Some row)) ->
  append_only_outcome track_id db (db, r).
Proof.
  intros Hp Hr. unfold append_only_outcome. cbn [fst snd].
  repeat split; try assumption; try reflexivity.
  destruct r as [[row|]|e]; try reflexivity. now destruct (Hr row).
Qed.

Lemma trending_persist_append_only (track : Track.t) (track_id : string) (db : Session) :
  pending db = [] ->
  append_only_outcome track_id db (TrendingSelector.score_and_persist track track_id db).
Proof.
  intros Hp. rewrite trending_persist_unfold by assumption.
  destruct (TrendingScorer._check_thresholds track_id db); cbn [negb];
    [|apply unchanged_append_only; [assumption | discriminate]].
  match goal with
  | |- context [ExplainabilityEngine.explain_trending ?t ?i ?c ?d] =>
      destruct (ExplainabilityEngine.explain_trending t i c d) as [explanation|e]
  end; [|apply unchanged_append_only; [assumption | discriminate]].
  now apply commit_score_append_only.
Qed.

Lemma evergreen_persist_append_only (track : Track.t) (track_id : string) (db : Session) :
  pending db = [] ->
  append_only_outcome track_id db (EvergreenSelector.score_and_persist track track_id db).
Proof.
  intros Hp. rewrite evergreen_persist_unfold by assumption.
  destruct (EvergreenScorer.calculate_score track track_id db)
    as [[[score components] passes]|e];
    [|apply unchanged_append_only; [assumption | discriminate]].
  destruct passes; cbn [negb];
    [|apply unchanged_append_only; [assumption | discriminate]].
  destruct (ExplainabilityEngine.explain_evergreen track track_id components db)
    as [explanation|e]; [|apply unchanged_append_only; [assumption | discriminate]].
  now apply commit_score_append_only.
Qed.

(** X18.  [score_and_persist] of either selector is append-only: on a
    session with nothing staged it leaves tracks, metrics, audit runs and
    the clock as they are, never changes or removes a score row, and
    appends at most one - the returned row, for the requested track, stamped
    with the current instant, under a fresh key.  When it returns no score
    or raises, the score table is unchanged. *)
Theorem score_and_persist_append_only :
  forall (track : Track.t) (track_id : string) (db : Session),
    pending db = [] ->
    append_only_outcome track_id db (TrendingSelector.score_and_persist track track_id db)
    /\ append_only_outcome track_id db
         (EvergreenSelector.score_and_persist track track_id db).
Proof.
  intros track track_id db Hp. split.
  - now apply trending_persist_append_only.
  - now apply evergreen_persist_append_only.
Qed.

Lemma score_and_persist_append_only_witness :
  append_only_outcome "t1" carry_db
    (TrendingSelector.score_and_persist dated_track "t1" carry_db)
  /\ append_only_outcome "t1" carry_db
       (EvergreenSelector.score_and_persist dated_track "t1" carry_db).
Proof.
  apply score_and_persist_append_only. reflexivity.
Defined.

Lemma trending_score_of_history (track : Track.t) (track_id : string) (a b : Session) :
  track_metrics a = track_metrics b ->
  utcnow a = utcnow b ->
  TrendingScorer.calculate_score track track_id a
  = TrendingScorer.calculate_score track track_id b.
Proof.
  intros Hm Hc.
  unfold TrendingScorer.calculate_score, TrendingScorer.calculate_score_with,
    TrendingScorer.weighted_total.
  unfold TikTokFeatures.calculate_posts_velocity, TikTokFeatures.calculate_views_velocity,
    SpotifyFeatures.calculate_stream_growth, SpotifyFeatures.calculate_playlist_growth,
    TikTokFeatures.calculate_cross_platform_confirmation, TikTokFeatures.has_chart_entry,
    SpotifyFeatures.has_chart_presence, TrendingScorer._check_thresholds,
    TemporalFeatures.get_data_points_count,
    recent_snapshot, baseline_snapshot, metrics_since, metrics_between.
  now rewrite Hm, Hc.
Qed.

Lemma trending_gate_of_history (track_id : string) (a b : Session) :
  track_metrics a = track_metrics b ->
  utcnow a = utcnow b ->
  TrendingScorer._check_thresholds track_id a = TrendingScorer._check_thresholds track_id b.
Proof.
  intros Hm Hc.
  unfold TrendingScorer._check_thresholds, recent_snapshot,
    TemporalFeatures.get_data_points_count, metrics_since. now rewrite Hm, Hc.
Qed.

Lemma trending_calls_rows (track : Track.t) (track_id : string) (d : Z) (db0 : Session) :
  Track.first_discovered track = Some d ->
  forall (times : list Z) (db : Session),
    pending db = [] ->
    track_metrics db = track_metrics db0 ->
    Forall (fun t => TrendingScorer._check_thresholds track_id (at_time t db0) = true) times ->
    exists rows,
      track_scores (calls_at (TrendingSelector.score_and_persist track track_id) times db)
      = (track_scores db ++ rows)%list
      /\ Forall2 (fun t row =>
                    TrackScore.track_id row = track_id
                    /\ TrackScore.computed_at row = t
                    /\ TrackScore.trending_score row
                       = Some (fst (fst (TrendingScorer.calculate_score
                                           track track_id (at_time t db0)))))
                 times rows.
Proof.
  intros Hd. induction times as [|t later IH]; intros db Hp Hm Hg.
  - exists []. cbn [calls_at]. rewrite app_nil_r. split; [reflexivity | constructor].
  - inversion Hg as [|? ? Hgt Hglater]; subst.
    cbn [calls_at].
    assert (Hp' : pending (at_time t db) = []) by exact Hp.
    rewrite trending_persist_unfold by exact Hp'.
    rewrite (trending_gate_of_history track_id (at_time t db) (at_time t db0))
      by (cbn [at_time track_metrics utcnow]; auto).
    rewrite Hgt. cbn [negb].
    destruct (explain_trending_dated track track_id
                (snd (fst (TrendingScorer.calculate_score track track_id (at_time t db))))
                (at_time t db) d Hd) as [explanation E].
    rewrite E. cbn [fst].
    set (row := trending_row track track_id (at_time t db) explanation).
    destruct (IH (commit_score (at_time t db) row) eq_refl Hm Hglater)
      as (rows & Er & Hf).
    exists (row :: rows). rewrite Er.
    cbn [commit_score track_scores at_time]. rewrite <- app_assoc.
    split; [reflexivity|]. constructor; [|assumption].
    split; [reflexivity|]. split; [reflexivity|].
    unfold row. cbn [trending_row TrackScore.trending_score].
    rewrite (trending_score_of_history track track_id (at_time t db) (at_time t db0))
      by (cbn [at_time track_metrics utcnow]; auto).
    reflexivity.
Qed.

(** X19.  Score rows never feed back into scoring.  When
    [TrendingSelector.score_and_persist] is called for a track with a
    discovery date at the instants [times], one call after the other, and
    the metric history passes the gate at each of these instants, then
    exactly one row is appended per call, in order, each for that track,
    stamped with the instant of its call and carrying the trending score
    computed from the metric history at that instant - whatever rows the
    earlier calls wrote. *)
Theorem trending_persist_n_times :
  forall (track : Track.t) (track_id : string) (db : Session) (times : list Z),
    pending db = [] ->
    Track.first_discovered track <> None ->
    Forall (fun t => TrendingScorer._check_thresholds track_id (at_time t db) = true) times ->
    exists rows,
      track_scores (calls_at (TrendingSelector.score_and_persist track track_id) times db)
      = (track_scores db ++ rows)%list
      /\ Forall2 (fun t row =>
                    TrackScore.track_id row = track_id
                    /\ TrackScore.computed_at row = t
                    /\ TrackScore.trending_score row
                       = Some (fst (fst (TrendingScorer.calculate_score
                                           track track_id (at_time t db)))))
                 times rows.
Proof.
  intros track track_id db times Hp Hd Hg.
  destruct (Track.first_discovered track) as [d|] eqn:E; [|congruence].
  now apply (trending_calls_rows track track_id d db E times db).
Qed.

Lemma trending_persist_n_times_witness :
  exists rows,
    track_scores (calls_at (TrendingSelector.score_and_persist dated_track "t1")
                           [1000 * day; 1001 * day; 1003 * day] carry_db)
    = (track_scores carry_db ++ rows)%list
    /\ Forall2 (fun t row =>
                  TrackScore.track_id row = "t1"
                  /\ TrackScore.computed_at row = t
                  /\ TrackScore.trending_score row
                     = Some (fst (fst (TrendingScorer.calculate_score
                                         dated_track "t1" (at_time t carry_db)))))
               [1000 * day; 1001 * day; 1003 * day] rows.
Proof.
  apply trending_persist_n_times.
  - reflexivity.
  - discriminate.
  - repeat constructor; vm_compute; reflexivity.
Defined.

Section BatchCounters.
Variable sp : Track.t -> string -> M (option TrackScore.t).
Hypothesis sp_one_row : persists_one_row sp.

Lemma batch_loop_counters (track_ids : list string) :
  forall (p s : Z) (db db' : Session) (p' s' : Z),
    pending db = [] ->
    batch_loop sp track_ids p s db = (db', Ok (p', s')) ->
    0 <= s' - s <= p' - p
    /\ p' - p <= Z.of_nat (List.length track_ids)
    /\ Z.of_nat (List.length (track_scores db'))
       = Z.of_nat (List.length (track_scores db)) + (s' - s).
Proof.
  induction track_ids as [|track_id rest IH]; intros p s db db' p' s' Hp H.
  - cbn in H. inversion H; subst. cbn [List.length]. lia.
  - rewrite batch_loop_cons in H. cbn [List.length]. rewrite Nat2Z.inj_succ.
    destruct (find_track db track_id) as [track|].
    + destruct (sp_one_row track track_id db Hp) as [E | [(e & E) | (row & E)]];
        rewrite E in H.
      * cbn [is_some] in H. specialize (IH _ _ _ _ _ _ Hp H). lia.
      * discriminate.
      * cbn [is_some] in H.
        specialize (IH _ _ _ _ _ _ (eq_refl : pending (commit_score db row) = []) H).
        cbn [commit_score track_scores] in IH. rewrite length_app in IH.
        cbn [List.length] in IH. lia.
    + specialize (IH _ _ _ _ _ _ Hp H). lia.
Qed.

Lemma run_batch_counters (run_type : string) (track_ids : list string)
    (db db' : Session) (run : DiscoveryRun.t) :
  pending db = [] ->
  run_batch sp run_type track_ids db = (db', Ok run) ->
  DiscoveryRun.status run = "completed" ->
  0 <= DiscoveryRun.tracks_updated run <= DiscoveryRun.tracks_processed run
  /\ DiscoveryRun.tracks_processed run <= Z.of_nat (List.length track_ids)
  /\ Z.of_nat (List.length (track_scores db'))
     = Z.of_nat (List.length (track_scores db)) + DiscoveryRun.tracks_updated run.
Proof.
  intros Hp H Hs. rewrite run_batch_unfold in H by assumption.
  destruct (batch_loop sp track_ids 0 0 (started run_type db)) as [db2 [[p s]|e]] eqn:El.
  - cbv zeta in H. inversion H; subst db' run. clear H.
    destruct (batch_loop_counters track_ids 0 0 (started run_type db) db2 p s eq_refl El)
      as (A & B & C).
    cbn [completed_run DiscoveryRun.tracks_updated DiscoveryRun.tracks_processed
         write_run track_scores started] in *.
    lia.
  - cbv zeta in H. inversion H; subst db' run. discriminate.
Qed.

Lemma batch_loop_known_only (db0 : Session) (track_ids : list string) :
  forall (p s : Z) (db : Session),
    pending db = [] ->
    tracks db = tracks db0 ->
    batch_loop sp track_ids p s db
    = batch_loop sp (filter (fun i => is_some (find_track db0 i)) track_ids) p s db.
Proof.
  induction track_ids as [|track_id rest IH]; intros p s db Hp Ht; [reflexivity|].
  cbn [filter].
  assert (Hf : find_track db0 track_id = find_track db track_id)
    by (unfold find_track; now rewrite Ht).
  rewrite Hf, batch_loop_cons.
  destruct (find_track db track_id) as [track|] eqn:Ef; cbn [is_some]; [|now apply IH].
  rewrite batch_loop_cons, Ef.
  destruct (sp_one_row track track_id db Hp) as [E | [(e & E) | (row & E)]]; rewrite E.
  - now apply IH.
  - reflexivity.
  - apply IH; [reflexivity | assumption].
Qed.

Lemma run_batch_known_only (run_type : string) (track_ids : list string) (db : Session) :
  pending db = [] ->
  run_batch sp run_type track_ids db
  = run_batch sp run_type (filter (fun i => is_some (find_track db i)) track_ids) db.
Proof.
  intros Hp. rewrite !run_batch_unfold by assumption.
  now rewrite (batch_loop_known_only db track_ids 0 0 (started run_type db)).
Qed.
End BatchCounters.

(** X20.  A completed [run_discovery_batch] of either selector reports
    counters that fit together: [0 <= tracks_updated <= tracks_processed <=
    len(track_ids)], and the score table has grown by exactly
    [tracks_updated] rows. *)
Theorem completed_batch_counters :
  forall (track_ids : list string) (db db' : Session) (run : DiscoveryRun.t),
    pending db = [] ->
    DiscoveryRun.status run = "completed" ->
    TrendingSelector.run_discovery_batch track_ids db = (db', Ok run)
    \/ EvergreenSelector.run_discovery_batch track_ids db = (db', Ok run) ->
    0 <= DiscoveryRun.tracks_updated run <= DiscoveryRun.tracks_processed run
    /\ DiscoveryRun.tracks_processed run <= Z.of_nat (List.length track_ids)
    /\ Z.of_nat (List.length (track_scores db'))
       = Z.of_nat (List.length (track_scores db)) + DiscoveryRun.tracks_updated run.
Proof.
  intros track_ids db db' run Hp Hs [H|H].
  - now apply (run_batch_counters _ trending_persists_one_row "trending" track_ids db db' run).
  - now apply (run_batch_counters _ evergreen_persists_one_row "evergreen" track_ids db db' run).
Qed.

Lemma completed_batch_counters_witness :
  exists db' run,
    TrendingSelector.run_discovery_batch ["zz"; "t1"] no_metrics_db = (db', Ok run)
    /\ 0 <= DiscoveryRun.tracks_updated run <= DiscoveryRun.tracks_processed run
    /\ DiscoveryRun.tracks_processed run <= 2.
Proof.
  pose (run := completed_run (start_run "trending" no_metrics_db)
                             (utcnow no_metrics_db) 1 0).
  pose (db' := write_run (started "trending" no_metrics_db) run).
  assert (E : TrendingSelector.run_discovery_batch ["zz"; "t1"] no_metrics_db
              = (db', Ok run)) by reflexivity.
  exists db', run. split; [exact E|].
  destruct (completed_batch_counters ["zz"; "t1"] no_metrics_db db' run eq_refl eq_refl
              (or_introl E)) as (A & B & _).
  split; [exact A | exact B].
Defined.

(** X21.  Ids that name no track are skipped without a trace: a batch over
    [track_ids] ends in the same session and returns the same audit row as
    the batch over only those ids that name a track. *)
Theorem batch_ignores_unknown_ids :
  forall (track_ids : list string) (db : Session),
    pending db = [] ->
    let known := filter (fun i => is_some (find_track db i)) track_ids in
    TrendingSelector.run_discovery_batch track_ids db
    = TrendingSelector.run_discovery_batch known db
    /\ EvergreenSelector.run_discovery_batch track_ids db
       = EvergreenSelector.run_discovery_batch known db.
Proof.
  intros track_ids db Hp. cbv zeta. split.
  - now apply (run_batch_known_only _ trending_persists_one_row).
  - now apply (run_batch_known_only _ evergreen_persists_one_row).
Qed.

Lemma batch_ignores_unknown_ids_witness :
  TrendingSelector.run_discovery_batch ["zz"; "t1"; "yy"] failing_batch_db
  = TrendingSelector.run_discovery_batch ["t1"] failing_batch_db
  /\ EvergreenSelector.run_discovery_batch ["zz"; "t1"; "yy"] failing_batch_db
     = EvergreenSelector.run_discovery_batch ["t1"] failing_batch_db.
Proof.
  apply (batch_ignores_unknown_ids ["zz"; "t1"; "yy"] failing_batch_db). reflexivity.
Defined.

(** ** Selections *)

Lemma slice_to_prefix {A : Type} (l : list A) (n m : Z) :
  0 <= n <= m -> slice_to l n = firstn (Z.to_nat n) (slice_to l m).
Proof.
  intros H. unfold slice_to.
  assert (Hn : (0 <=? n) = true) by (apply Z.leb_le; lia).
  assert (Hm : (0 <=? m) = true) by (apply Z.leb_le; lia).
  rewrite Hn, Hm, firstn_firstn. f_equal. lia.
Qed.

Lemma slice_to_all {A : Type} (l : list A) (limit : Z) :
  Z.of_nat (List.length l) <= limit -> slice_to l limit = l.
Proof.
  intros H. unfold slice_to.
  assert (Hl : (0 <=? limit) = true) by (apply Z.leb_le; lia).
  rewrite Hl. apply firstn_all2. lia.
Qed.

Section Pages.
Variable calculate_score : Track.t -> string -> Session -> result (R * components_t * bool).
Variable explain : Track.t -> string -> components_t -> Session
                   -> result ExplainabilityEngine.explanation.
Variable summarize : Track.t -> R -> list text -> list text -> text.

Lemma select_from_unfold (candidates : list Track.t) (limit : Z) (min_score : R)
    (db : Session) :
  select_from calculate_score explain summarize candidates limit min_score db
  = match score_loop calculate_score explain summarize candidates min_score [] db with
    | (db', Ok scored) => (db', Ok (slice_to (sort_desc scored) limit))
    | (db', Raise e) => (db', Raise e)
    end.
Proof.
  unfold select_from, bind, ret.
  destruct (score_loop calculate_score explain summarize candidates min_score [] db)
    as [db' [scored|e]]; reflexivity.
Qed.

Lemma select_from_prefix (candidates : list Track.t) (n m : Z) (min_score : R)
    (db : Session) (page : list ScoredTrack.t) :
  0 <= n <= m ->
  snd (select_from calculate_score explain summarize candidates m min_score db) = Ok page ->
  snd (select_from calculate_score explain summarize candidates n min_score db)
  = Ok (firstn (Z.to_nat n) page).
Proof.
  intros H. rewrite !select_from_unfold.
  destruct (score_loop calculate_score explain summarize candidates min_score [] db)
    as [db' [scored|e]]; cbn [snd]; [|discriminate].
  intros E. inversion E; subst page. f_equal. now apply slice_to_prefix.
Qed.

Lemma score_loop_complete (db : Session) (min_score : R) :
  forall (todo : list Track.t) (acc l : list ScoredTrack.t),
    snd (score_loop calculate_score explain summarize todo min_score acc db) = Ok l ->
    (forall entry, In entry acc -> In entry l)
    /\ (List.length l <= List.length acc + List.length todo)%nat
    /\ forall track score components,
        In track todo ->
        calculate_score track (Track.id track) db = Ok (score, components, true) ->
        (min_score <= score)%R ->
        exists entry,
          In entry l
          /\ ScoredTrack.track_id entry = Track.id track
          /\ ScoredTrack.score entry = py_round score 2
          /\ ScoredTrack.components entry = round_components 3 components.
Proof.
  induction todo as [|track rest IH]; intros acc l H.
  - cbn in H. inversion H; subst. split; [tauto|]. split; [lia|].
    intros t sc c [].
  - rewrite score_loop_cons in H.
    destruct (calculate_score track (Track.id track) db)
      as [[[score components] passes]|e] eqn:Ec; [|discriminate].
    destruct (negb passes || Rltb score min_score) eqn:Eskip.
    + destruct (IH acc l H) as (Ha & Hl & Hc).
      split; [assumption|]. split; [cbn [List.length]; lia|].
      intros t sc c [<-|Ht] Et Hmin; [|now apply (Hc t sc c)].
      rewrite Ec in Et. inversion Et; subst sc c passes. cbn [negb orb] in Eskip.
      apply Rltb_true in Eskip. lra.
    + destruct (explain track (Track.id track) components db) as [explanation|e];
        [|discriminate].
      destruct (isoformat (Track.first_discovered track)) as [iso|e]; [|discriminate].
      destruct (IH _ l H) as (Ha & Hl & Hc).
      split; [intros entry He; apply Ha, in_or_app; now left|].
      split; [rewrite length_app in Hl; cbn [List.length] in *; lia|].
      intros t sc c [<-|Ht] Et Hmin; [|now apply (Hc t sc c)].
      rewrite Ec in Et. inversion Et; subst sc c.
      eexists. split; [apply Ha, in_or_app; right; left; reflexivity|].
      repeat split.
Qed.

Lemma select_from_complete (candidates : list Track.t) (limit : Z) (min_score : R)
    (db : Session) (l : list ScoredTrack.t) :
  Z.of_nat (List.length candidates) <= limit ->
  snd (select_from calculate_score explain summarize candidates limit min_score db) = Ok l ->
  forall track score components,
    In track candidates ->
    calculate_score track (Track.id track) db = Ok (score, components, true) ->
    (min_score <= score)%R ->
    exists entry,
      In entry l
      /\ ScoredTrack.track_id entry = Track.id track
      /\ ScoredTrack.score entry = py_round score 2
      /\ ScoredTrack.components entry = round_components 3 components.
Proof.
  intros Hlim. rewrite select_from_unfold.
  destruct (score_loop calculate_score explain summarize candidates min_score [] db)
    as [db' [scored|e]] eqn:El; cbn [snd]; [|discriminate].
  intros E. inversion E; subst l. clear E.
  assert (Hs : snd (score_loop calculate_score explain summarize candidates min_score [] db)
               = Ok scored) by now rewrite El.
  destruct (score_loop_complete db min_score candidates [] scored Hs) as (_ & Hlen & Hc).
  intros track score components Ht Ec Hmin.
  destruct (Hc track score components Ht Ec Hmin) as (entry & He & Hrest).
  exists entry. split; [|assumption].
  rewrite slice_to_all.
  - apply (Permutation_in _ (Permutation_sym (sort_desc_perm scored))). assumption.
  - rewrite (Permutation_length (sort_desc_perm scored)). cbn [List.length] in Hlen. lia.
Qed.
End Pages.

Lemma trending_select_unfold (limit : Z) (min_score : R)
    (platform country : option string) (db : Session) :
  TrendingSelector.select_tracks limit min_score platform country db
  = select_from (fun track track_id d => Ok (TrendingScorer.calculate_score track track_id d))
                ExplainabilityEngine.explain_trending TrendingSelector.summarize
                (tracks db) limit min_score db.
Proof. reflexivity. Qed.

Lemma evergreen_select_unfold (limit : Z) (min_score : R) (min_months : Z) (db : Session) :
  EvergreenSelector.select_tracks limit min_score min_months db
  = select_from EvergreenScorer.calculate_score
                ExplainabilityEngine.explain_evergreen EvergreenSelector.summarize
                (filter (EvergreenSelector.old_enough
                           (utcnow db - timedelta_days (min_months * 30)))
                        (tracks db))
                limit min_score db.
Proof. reflexivity. Qed.

Lemma trending_total_range (track : Track.t) (track_id : string) (db : Session) :
  (0 <= fst (fst (TrendingScorer.calculate_score track track_id db)) <= 100)%R.
Proof.
  unfold TrendingScorer.calculate_score, TrendingScorer.calculate_score_with,
    TrendingScorer.weighted_total, weights.TRENDING_WEIGHTS.
  cbn [fst snd fold_left dict_get String.eqb Ascii.eqb Bool.eqb].
  pose proof (normalize_velocity_range
                (TikTokFeatures.calculate_posts_velocity track_id db 7 30)).
  pose proof (normalize_velocity_range
                (TikTokFeatures.calculate_views_velocity track_id db 7 30)).
  pose proof (normalize_velocity_range
                (SpotifyFeatures.calculate_stream_growth track_id db 7 30)).
  pose proof (normalize_velocity_range
                (SpotifyFeatures.calculate_playlist_growth track_id db 30)).
  pose proof (bool_component_cases
                (TikTokFeatures.calculate_cross_platform_confirmation track_id db)).
  pose proof (bool_component_cases
                (TikTokFeatures.has_chart_entry track_id db 30
                 || SpotifyFeatures.has_chart_presence track_id db 30)).
  split; lra.
Qed.

Lemma two_members_length {A : Type} (a b : A) (l : list A) :
  In a l -> In b l -> a <> b -> (2 <= List.length l)%nat.
Proof.
  destruct l as [|x [|y l]]; cbn [In List.length].
  - tauto.
  - intros [<-|[]] [<-|[]] H. congruence.
  - intros _ _ _. lia.
Qed.

(** On the session with two eligible tracks, a page of room for both holds
    an entry for each. *)
Lemma two_tracks_page (limit : Z) :
  2 <= limit ->
  exists page first second,
    snd (TrendingSelector.select_tracks limit 0%R None None two_tracks_db) = Ok page
    /\ In first page /\ ScoredTrack.track_id first = "t1"
    /\ In second page /\ ScoredTrack.track_id second = "t2".
Proof.
  intros Hlimit. rewrite trending_select_unfold.
  destruct (returns_on_selects
              (fun t i d => Ok (TrendingScorer.calculate_score t i d))
              ExplainabilityEngine.explain_trending TrendingSelector.summarize
              (tracks two_tracks_db) limit 0%R two_tracks_db) as [page E].
  { apply trending_returns_on. intros track [<-|[<-|[]]]; discriminate. }
  assert (Hone : forall track,
             In track (tracks two_tracks_db) ->
             TrendingScorer._check_thresholds (Track.id track) two_tracks_db = true ->
             exists entry, In entry page /\ ScoredTrack.track_id entry = Track.id track).
  { intros track Ht Hg.
    destruct (select_from_complete
                (fun t i d => Ok (TrendingScorer.calculate_score t i d))
                ExplainabilityEngine.explain_trending TrendingSelector.summarize
                (tracks two_tracks_db) limit 0%R two_tracks_db page) with
        (track := track)
        (score := fst (fst (TrendingScorer.calculate_score track (Track.id track)
                              two_tracks_db)))
        (components := snd (fst (TrendingScorer.calculate_score track (Track.id track)
                                   two_tracks_db)))
      as (entry & He & Hid & _).
    - cbn [two_tracks_db session_of tracks List.length]. lia.
    - exact E.
    - exact Ht.
    - unfold TrendingScorer.calculate_score, TrendingScorer.calculate_score_with.
      cbn [fst snd]. now rewrite Hg.
    - apply trending_total_range.
    - now exists entry. }
  destruct (Hone dated_track) as (first & H1 & I1);
    [now left | vm_compute; reflexivity |].
  destruct (Hone second_track) as (second & H2 & I2);
    [right; now left | vm_compute; reflexivity |].
  exists page, first, second. repeat split; assumption.
Qed.

(** X22.  Pages of a selection are consistent: for [0 <= n <= m], when
    [select_tracks] with limit [m] returns a list, the call with limit [n]
    on the same session returns its first [n] entries - for both
    selectors. *)
Theorem select_tracks_pages_nest :
  forall (db : Session) (n m : Z) (min_score : R) (page : list ScoredTrack.t),
    0 <= n <= m ->
    (forall platform country,
        snd (TrendingSelector.select_tracks m min_score platform country db) = Ok page ->
        snd (TrendingSelector.select_tracks n min_score platform country db)
        = Ok (firstn (Z.to_nat n) page))
    /\ (forall min_months,
           snd (EvergreenSelector.select_tracks m min_score min_months db) = Ok page ->
           snd (EvergreenSelector.select_tracks n min_score min_months db)
           = Ok (firstn (Z.to_nat n) page)).
Proof.
  intros db n m min_score page H. split.
  - intros platform country. rewrite !trending_select_unfold.
    now apply select_from_prefix.
  - intros min_months. rewrite !evergreen_select_unfold.
    now apply select_from_prefix.
Qed.

Lemma select_tracks_pages_nest_witness :
  exists page,
    (2 <= List.length page)%nat
    /\ snd (TrendingSelector.select_tracks 2 0%R None None two_tracks_db) = Ok page
    /\ snd (TrendingSelector.select_tracks 1 0%R None None two_tracks_db)
       = Ok (firstn (Z.to_nat 1) page).
Proof.
  destruct (two_tracks_page 2 ltac:(lia)) as (page & first & second & E & H1 & I1 & H2 & I2).
  exists page. split; [|split; [exact E|]].
  - apply (two_members_length first second); [assumption | assumption |].
    intros ->. rewrite I1 in I2. discriminate.
  - destruct (select_tracks_pages_nest two_tracks_db 1 2 0%R page ltac:(lia)) as [Ht _].
    now apply Ht.
Defined.



(** ** API callers *)

(** X24.  The two list endpoints never let an exception escape and never
    write: whatever [select_tracks] raises becomes an HTTP 500 whose detail
    ends with the text of the exception, and the session is as before.  A
    returned body has [total] equal to the number of tracks listed, which
    is at most [limit] for a validated [limit >= 1], and lists them by
    descending score.  [get_evergreen_tracks] always returns a body. *)
Theorem list_endpoints_contain_errors :
  forall (db : Session) (limit : Z) (min_score : R),
    (forall platform country,
        let out := TrendingAPI.get_trending_tracks limit min_score platform country db in
        fst out = db
        /\ match snd out with
           | Returned body =>
               TrendingAPI.total body = Z.of_nat (List.length (TrendingAPI.tracks body))
               /\ (1 <= limit -> TrendingAPI.total body <= limit)
               /\ StronglySorted by_score_desc (TrendingAPI.tracks body)
           | HTTPException status_code detail =>
               status_code = 500
               /\ exists e,
                   snd (TrendingSelector.select_tracks limit min_score platform country db)
                   = Raise e
                   /\ detail = ([Lit "Error fetching trending tracks: "] ++ str_exn e)%list
           | Unhandled _ => False
           end)
    /\ (forall min_months,
           let out := EvergreenAPI.get_evergreen_tracks limit min_score min_months db in
           fst out = db
           /\ exists body,
               snd out = Returned body
               /\ EvergreenAPI.total body
                  = Z.of_nat (List.length (EvergreenAPI.tracks body))
               /\ (1 <= limit -> EvergreenAPI.total body <= limit)
               /\ StronglySorted by_score_desc (EvergreenAPI.tracks body)).
Proof.
  intros db limit min_score. split.
  - intros platform country. cbv zeta. unfold TrendingAPI.get_trending_tracks.
    pose proof (select_from_spec
                  (fun t i d => Ok (TrendingScorer.calculate_score t i d))
                  ExplainabilityEngine.explain_trending TrendingSelector.summarize
                  (tracks db) limit min_score db) as [Hdb Hpost].
    rewrite <- (trending_select_unfold limit min_score platform country db) in Hdb, Hpost.
    destruct (TrendingSelector.select_tracks limit min_score platform country db)
      as [db' [l|e]]; cbn [fst snd] in *; subst db'.
    + split; [reflexivity|]. destruct (Hpost l eq_refl) as (Hs & Hl & _).
      cbn [TrendingAPI.total TrendingAPI.tracks].
      split; [reflexivity|]. split; [intros; apply Hl; lia | assumption].
    + split; [reflexivity|]. split; [reflexivity|]. exists e. split; reflexivity.
  - intros min_months. cbv zeta. unfold EvergreenAPI.get_evergreen_tracks.
    pose proof (select_from_spec
                  EvergreenScorer.calculate_score
                  ExplainabilityEngine.explain_evergreen EvergreenSelector.summarize
                  (filter (EvergreenSelector.old_enough
                             (utcnow db - timedelta_days (min_months * 30)))
                          (tracks db))
                  limit min_score db) as [Hdb Hpost].
    rewrite <- (evergreen_select_unfold limit min_score min_months db) in Hdb, Hpost.
    assert (Hret : exists l,
               snd (EvergreenSelector.select_tracks limit min_score min_months db) = Ok l).
    { rewrite evergreen_select_unfold. apply select_from_returns. intros track Ht.
      apply filter_In in Ht. destruct Ht as [_ Hold].
      unfold EvergreenSelector.old_enough in Hold.
      destruct (Track.first_discovered track) as [d|] eqn:E; [|discriminate].
      split; [apply evergreen_score_returns|]. split.
      - intros components. now apply (explain_evergreen_dated track _ components db d).
      - eexists. reflexivity. }
    destruct Hret as [l El].
    destruct (EvergreenSelector.select_tracks limit min_score min_months db)
      as [db' [l'|e]]; cbn [fst snd] in *; subst db'; [|discriminate].
    inversion El; subst l'. split; [reflexivity|].
    destruct (Hpost l eq_refl) as (Hs & Hl & _).
    eexists. split; [reflexivity|].
    cbn [EvergreenAPI.total EvergreenAPI.tracks].
    split; [reflexivity|]. split; [intros; apply Hl; lia | assumption].
Qed.

Lemma refresh_outcome_of (sp : Track.t -> string -> M (option TrackScore.t))
    (score_of : TrackScore.t -> option R) (bad_request : text)
    (track_id : string) (db : Session) :
  persists_one_row sp ->
  pending db = [] ->
  (forall track row,
      sp track track_id db = (commit_score db row, Ok (Some row)) ->
      TrackScore.computed_at row = utcnow db) ->
  refresh_outcome sp score_of track_id db
    (match find_track db track_id with
     | None => (db, HTTPException 404 [Lit "Track not found"])
     | Some track =>
         match sp track track_id db with
         | (db', Raise e) => (db', Unhandled e)
         | (db', Ok None) => (db', HTTPException 400 bad_request)
         | (db', Ok (Some track_score)) =>
             (db', Returned (Refreshed.mk track_id (score_of track_score)
                               [IsoF (TrackScore.computed_at track_score)]
                               (TrackScore.why_selected track_score)
                               (TrackScore.risk_flags track_score)))
         end
     end).
Proof.
  intros Hsp Hp Hc. unfold refresh_outcome.
  destruct (find_track db track_id) as [track|] eqn:Ef.
  - destruct (Hsp track track_id db Hp) as [E | [(e & E) | (row & E)]]; rewrite E;
      cbn [fst snd].
    + split; [reflexivity|]. right. split; [reflexivity|]. now exists track.
    + split; [reflexivity|]. now exists track.
    + exists track, row. rewrite (Hc track row E).
      split; [reflexivity|]. split; [exact E|]. split; reflexivity.
  - cbn [fst snd]. split; [reflexivity|]. now left.
Qed.

(** X25.  A refresh endpoint, on a session with nothing staged, ends in one
    of four ways: 404 when no track has the id and 400 when the track is
    not eligible, both without writing; an escaping exception, again without
    writing, when scoring raised; or a body reporting the score, instant and
    explanation of the one row it appended. *)
Theorem refresh_endpoints_outcomes :
  forall (track_id : string) (db : Session),
    pending db = [] ->
    refresh_outcome TrendingSelector.score_and_persist TrackScore.trending_score
                    track_id db (TrendingAPI.refresh_trending_score track_id db)
    /\ refresh_outcome EvergreenSelector.score_and_persist TrackScore.evergreen_score
                       track_id db (EvergreenAPI.refresh_evergreen_score track_id db).
Proof.
  intros track_id db Hp. split.
  - apply refresh_outcome_of; [exact trending_persists_one_row | assumption |].
    intros track row E.
    pose proof (trending_persist_append_only track track_id db Hp) as A.
    unfold append_only_outcome in A. rewrite E in A. cbn [fst snd] in A. tauto.
  - apply refresh_outcome_of; [exact evergreen_persists_one_row | assumption |].
    intros track row E.
    pose proof (evergreen_persist_append_only track track_id db Hp) as A.
    unfold append_only_outcome in A. rewrite E in A. cbn [fst snd] in A. tauto.
Qed.

Lemma refresh_endpoints_outcomes_witness :
  refresh_outcome TrendingSelector.score_and_persist TrackScore.trending_score
                  "t1" carry_db (TrendingAPI.refresh_trending_score "t1" carry_db)
  /\ refresh_outcome EvergreenSelector.score_and_persist TrackScore.evergreen_score
                     "t1" carry_db (EvergreenAPI.refresh_evergreen_score "t1" carry_db).
Proof.
  apply refresh_endpoints_outcomes. reflexivity.
Defined.

Lemma latest_score_from (l : list TrackScore.t) (a : TrackScore.t) :
  exists s,
    fold_left
      (fun acc s =>
         match acc with
         | None => Some s
         | Some a =>
             if TrackScore.computed_at a <? TrackScore.computed_at s then Some s else Some a
         end)
      l (Some a) = Some s
    /\ In s (a :: l)
    /\ TrackScore.computed_at a <= TrackScore.computed_at s
    /\ forall s', In s' l -> TrackScore.computed_at s' <= TrackScore.computed_at s.
Proof.
  revert a. induction l as [|x l IH]; intros a; cbn [fold_left].
  - exists a. repeat split; [now left | lia | intros s' []].
  - destruct (Z.ltb_spec (TrackScore.computed_at a) (TrackScore.computed_at x)).
    + destruct (IH x) as (s & E & Hin & Hle & Hmax). exists s.
      split; [assumption|]. split; [right; assumption|]. split; [lia|].
      intros s' [<-|Hs']; [assumption | now apply Hmax].
    + destruct (IH a) as (s & E & Hin & Hle & Hmax). exists s.
      split; [assumption|]. split; [destruct Hin as [<-|Hin]; [now left | right; now right]|].
      split; [assumption|].
      intros s' [<-|Hs']; [lia | now apply Hmax].
Qed.

Lemma latest_score_spec (l : list TrackScore.t) :
  match latest_score l with
  | None => l = []
  | Some s =>
      In s l /\ forall s', In s' l -> TrackScore.computed_at s' <= TrackScore.computed_at s
  end.
Proof.
  unfold latest_score. destruct l as [|a l]; [reflexivity|]. cbn [fold_left].
  destruct (latest_score_from l a) as (s & E & Hin & Hle & Hmax). rewrite E.
  split; [assumption|]. intros s' [<-|Hs']; [assumption | now apply Hmax].
Qed.

Lemma latest_with_spec (score_of : TrackScore.t -> option R) (db : Session)
    (track_id : string) :
  match ExplainAPI.latest_with score_of db track_id with
  | None =>
      forall s, In s (track_scores db) -> TrackScore.track_id s = track_id ->
                score_of s = None
  | Some s =>
      In s (track_scores db)
      /\ TrackScore.track_id s = track_id
      /\ score_of s <> None
      /\ forall s', In s' (track_scores db) -> TrackScore.track_id s' = track_id ->
                    score_of s' <> None ->
                    TrackScore.computed_at s' <= TrackScore.computed_at s
  end.
Proof.
  unfold ExplainAPI.latest_with.
  pose proof (latest_score_spec
                (filter (fun s => is_some (score_of s)) (scores_of db track_id))) as H.
  assert (Hin : forall s,
             In s (filter (fun s => is_some (score_of s)) (scores_of db track_id))
             <-> In s (track_scores db) /\ TrackScore.track_id s = track_id
                 /\ score_of s <> None).
  { intros s. unfold scores_of. rewrite !filter_In, String.eqb_eq.
    destruct (score_of s); cbn [is_some].
    - split.
      + intros [[A B] _]. split; [assumption|]. split; [assumption | discriminate].
      + intros (A & B & _). tauto.
    - split.
      + intros [_ C]. discriminate.
      + intros (_ & _ & C). congruence. }
  destruct (latest_score _) as [s|].
  - destruct H as [Hs Hmax]. apply Hin in Hs. destruct Hs as (A & B & C).
    repeat split; try assumption. intros s' A' B' C'. apply Hmax. apply Hin. tauto.
  - intros s A B. destruct (score_of s) eqn:E; [|reflexivity].
    exfalso. assert (Hs : In s []).
    { rewrite <- H. apply Hin. rewrite E. repeat split; try assumption. discriminate. }
    destruct Hs.
Qed.

(** X26.  [explain_track] never writes and never lets an exception escape.
    It answers 404 exactly when no track has the id or no score row of the
    track carries a trending or an evergreen score.  Otherwise the body
    names the track; its trending block is absent exactly when no row of the
    track has a trending score, and when present it reports a row of the
    track whose trending score is not null and whose [computed_at] is the
    greatest among such rows - and likewise for the evergreen block. *)
Theorem explain_track_outcomes :
  forall (track_id : string) (db : Session),
    let out := ExplainAPI.explain_track track_id db in
    let rows_with := fun score_of (s : TrackScore.t) =>
                       In s (track_scores db) /\ TrackScore.track_id s = track_id
                       /\ score_of s <> None in
    let reports := fun (score_of : TrackScore.t -> option R)
                       (b : option ExplainAPI.block) =>
                     match b with
                     | None => forall s, ~ rows_with score_of s
                     | Some blk =>
                         exists s,
                           rows_with score_of s
                           /\ (forall s', rows_with score_of s' ->
                                          TrackScore.computed_at s'
                                          <= TrackScore.computed_at s)
                           /\ blk = ExplainAPI.mkBlock (score_of s)
                                      [IsoF (TrackScore.computed_at s)]
                                      (TrackScore.why_selected s)
                                      (TrackScore.risk_flags s)
                                      (TrackScore.components s)
                     end in
    fst out = db
    /\ match snd out with
       | HTTPException status_code detail =>
           status_code = 404
           /\ (find_track db track_id = None
               \/ (forall s, ~ rows_with TrackScore.trending_score s)
                  /\ (forall s, ~ rows_with TrackScore.evergreen_score s))
       | Returned body =>
           (exists track,
               find_track db track_id = Some track
               /\ ExplainAPI.track body
                  = (Track.id track, Track.title track, Track.artist_name track))
           /\ reports TrackScore.trending_score (ExplainAPI.trending body)
           /\ reports TrackScore.evergreen_score (ExplainAPI.evergreen body)
           /\ (ExplainAPI.trending body <> None \/ ExplainAPI.evergreen body <> None)
       | Unhandled _ => False
       end.
Proof.
  intros track_id db. cbv zeta. unfold ExplainAPI.explain_track.
  destruct (find_track db track_id) as [track|] eqn:Ef;
    [|cbn [fst snd]; split; [reflexivity|]; split; [reflexivity | now left]].
  pose proof (latest_with_spec TrackScore.trending_score db track_id) as Ht.
  pose proof (latest_with_spec TrackScore.evergreen_score db track_id) as He.
  assert (R : forall score_of,
             match ExplainAPI.latest_with score_of db track_id with
             | None =>
                 forall s, ~ (In s (track_scores db) /\ TrackScore.track_id s = track_id
                              /\ score_of s <> None)
             | Some s0 =>
                 exists s,
                   (In s (track_scores db) /\ TrackScore.track_id s = track_id
                    /\ score_of s <> None)
                   /\ (forall s', In s' (track_scores db) /\ TrackScore.track_id s' = track_id
                                  /\ score_of s' <> None ->
                                  TrackScore.computed_at s' <= TrackScore.computed_at s)
                   /\ ExplainAPI.mkBlock (score_of s0) [IsoF (TrackScore.computed_at s0)]
                        (TrackScore.why_selected s0) (TrackScore.risk_flags s0)
                        (TrackScore.components s0)
                      = ExplainAPI.mkBlock (score_of s) [IsoF (TrackScore.computed_at s)]
                          (TrackScore.why_selected s) (TrackScore.risk_flags s)
                          (TrackScore.components s)
             end).
  { intros score_of. pose proof (latest_with_spec score_of db track_id) as H.
    destruct (ExplainAPI.latest_with score_of db track_id) as [s0|].
    - destruct H as (A & B & C & D). exists s0. repeat split; try assumption.
      intros s' (A' & B' & C'). now apply D.
    - intros s (A & B & C). apply C. now apply H. }
  pose proof (R TrackScore.trending_score) as Rt.
  pose proof (R TrackScore.evergreen_score) as Re.
  destruct (ExplainAPI.latest_with TrackScore.trending_score db track_id) as [st|];
    destruct (ExplainAPI.latest_with TrackScore.evergreen_score db track_id) as [se|];
    cbn [is_some negb andb option_map fst snd ExplainAPI.track ExplainAPI.trending
         ExplainAPI.evergreen];
    (split; [reflexivity|]).
  - split; [now exists track|]. split; [exact Rt|]. split; [exact Re|]. left. discriminate.
  - split; [now exists track|]. split; [exact Rt|]. split; [exact Re|]. left. discriminate.
  - split; [now exists track|]. split; [exact Rt|]. split; [exact Re|]. right. discriminate.
  - split; [reflexivity|]. right. split; assumption.
Qed.

Lemma scores_of_commit (db : Session) (row : TrackScore.t) (track_id : string) :
  scores_of (commit_score db row) track_id
  = (scores_of db track_id
     ++ (if String.eqb (TrackScore.track_id row) track_id then [row] else []))%list.
Proof.
  unfold scores_of. cbn [commit_score track_scores]. rewrite filter_app. reflexivity.
Qed.

Lemma latest_score_grows (l extra : list TrackScore.t) :
  latest_score l <> None -> latest_score (l ++ extra) <> None.
Proof.
  intros H E. pose proof (latest_score_spec (l ++ extra)) as S. rewrite E in S.
  apply app_eq_nil in S. destruct S as [-> _]. now apply H.
Qed.

(** X27.  Rescoring the trending mode does not hide the evergreen
    explanation: after a successful [TrendingSelector.score_and_persist],
    the row [explain_track] reports under "evergreen" is the same as before
    for every track, and wherever [explain_track] returned a body it still
    does, with the same evergreen block. *)
Theorem trending_rescore_keeps_evergreen_explanation :
  forall (track : Track.t) (track_id : string) (db db' : Session) (row : TrackScore.t),
    pending db = [] ->
    TrendingSelector.score_and_persist track track_id db = (db', Ok (Some row)) ->
    forall asked : string,
      ExplainAPI.latest_with TrackScore.evergreen_score db' asked
      = ExplainAPI.latest_with TrackScore.evergreen_score db asked
      /\ forall body,
          snd (ExplainAPI.explain_track asked db) = Returned body ->
          exists body',
            snd (ExplainAPI.explain_track asked db') = Returned body'
            /\ ExplainAPI.evergreen body' = ExplainAPI.evergreen body
            /\ ExplainAPI.track body' = ExplainAPI.track body.
Proof.
  intros track track_id db db' row Hp H asked.
  destruct (trending_persist_no_evergreen track track_id db db' row Hp H) as [Hn _].
  assert (Hdb : db' = commit_score db row).
  { destruct (trending_persists_one_row track track_id db Hp)
      as [E | [(e & E) | (row' & E)]]; rewrite E in H; inversion H; subst; reflexivity. }
  subst db'.
  assert (He : ExplainAPI.latest_with TrackScore.evergreen_score (commit_score db row) asked
               = ExplainAPI.latest_with TrackScore.evergreen_score db asked).
  { unfold ExplainAPI.latest_with. rewrite scores_of_commit, filter_app.
    destruct (String.eqb (TrackScore.track_id row) asked); cbn [filter];
      [rewrite Hn; cbn [is_some]|]; now rewrite app_nil_r. }
  split; [exact He|].
  intros body. unfold ExplainAPI.explain_track. rewrite He.
  change (find_track (commit_score db row) asked) with (find_track db asked).
  destruct (find_track db asked) as [t|]; cbn [snd]; [|discriminate].
  assert (Ht : ExplainAPI.latest_with TrackScore.trending_score db asked <> None ->
               ExplainAPI.latest_with TrackScore.trending_score (commit_score db row) asked
               <> None).
  { unfold ExplainAPI.latest_with. rewrite scores_of_commit, filter_app.
    apply latest_score_grows. }
  destruct (ExplainAPI.latest_with TrackScore.trending_score db asked) as [st|];
    destruct (ExplainAPI.latest_with TrackScore.evergreen_score db asked) as [se|];
    cbn [is_some negb andb snd]; try discriminate;
    intros E; inversion E; subst body; clear E;
    destruct (ExplainAPI.latest_with TrackScore.trending_score (commit_score db row) asked)
      as [st'|]; cbn [is_some negb andb snd];
    try (eexists; split; [reflexivity|]; split; reflexivity).
  exfalso. now apply Ht.
Qed.

Lemma trending_rescore_keeps_evergreen_explanation_witness :
  exists db' row,
    TrendingSelector.score_and_persist dated_track "t1" carry_db = (db', Ok (Some row))
    /\ ExplainAPI.latest_with TrackScore.evergreen_score db' "t1"
       = Some prior_evergreen_row.
Proof.
  destruct (trending_persists_one_row dated_track "t1" carry_db eq_refl)
    as [E | [(e & E) | (row & E)]].
  - exfalso. rewrite trending_persist_unfold in E by reflexivity.
    assert (G : TrendingScorer._check_thresholds "t1" carry_db = true)
      by (vm_compute; reflexivity).
    rewrite G in E. cbn [negb] in E.
    destruct (explain_trending_dated dated_track "t1"
                (snd (fst (TrendingScorer.calculate_score dated_track "t1" carry_db)))
                carry_db (900 * day) eq_refl) as [x Ex].
    rewrite Ex in E. discriminate.
  - exfalso. rewrite trending_persist_unfold in E by reflexivity.
    assert (G : TrendingScorer._check_thresholds "t1" carry_db = true)
      by (vm_compute; reflexivity).
    rewrite G in E. cbn [negb] in E.
    destruct (explain_trending_dated dated_track "t1"
                (snd (fst (TrendingScorer.calculate_score dated_track "t1" carry_db)))
                carry_db (900 * day) eq_refl) as [x Ex].
    rewrite Ex in E. discriminate.
  - exists (commit_score carry_db row), row. split; [exact E|].
    destruct (trending_rescore_keeps_evergreen_explanation
                dated_track "t1" carry_db (commit_score carry_db row) row eq_refl E "t1")
      as [Hl _].
    rewrite Hl. reflexivity.
Defined.

(** X28.  A Spotify chart position seen in the last 30 days counts for both
    scorers: the trending component [chart_entry_bonus] is 1.0, and the
    evergreen score returns with [chart_persistence] equal to 1.0, since
    its 180-day window contains the 30-day one. *)
Theorem spotify_chart_feeds_both_scorers :
  forall (track : Track.t) (track_id : string) (db : Session),
    SpotifyFeatures.has_chart_presence track_id db 30 = true ->
    dict_get (snd (fst (TrendingScorer.calculate_score track track_id db)))
             "chart_entry_bonus" 0%R = 1%R
    /\ exists total components passes,
        EvergreenScorer.calculate_score track track_id db = Ok (total, components, passes)
        /\ dict_get components "chart_persistence" 0%R = 1%R.
Proof.
  intros track track_id db H.
  assert (H180 : SpotifyFeatures.has_chart_presence track_id db 180 = true).
  { unfold SpotifyFeatures.has_chart_presence in *.
    apply (chart_window_wider db track_id 30 180); [lia | assumption]. }
  split.
  - unfold TrendingScorer.calculate_score, TrendingScorer.calculate_score_with.
    cbn [fst snd dict_get String.eqb Ascii.eqb Bool.eqb].
    rewrite H, orb_true_r. lra.
  - unfold EvergreenScorer.calculate_score, EvergreenScorer.calculate_score_with.
    destruct (active_months_ratio_year track_id db) as [r Er].
    destruct (evergreen_gate_returns track_id db) as [b Eb].
    rewrite Er, Eb. cbn [rbind]. eexists. eexists. eexists. split; [reflexivity|].
    cbn [dict_get String.eqb Ascii.eqb Bool.eqb]. rewrite H180. lra.
Qed.

Lemma spotify_chart_feeds_both_scorers_witness :
  dict_get (snd (fst (TrendingScorer.calculate_score dated_track "t1" charted_db)))
           "chart_entry_bonus" 0%R = 1%R
  /\ exists total components passes,
      EvergreenScorer.calculate_score dated_track "t1" charted_db
      = Ok (total, components, passes)
      /\ dict_get components "chart_persistence" 0%R = 1%R.
Proof.
  apply spotify_chart_feeds_both_scorers. vm_compute. reflexivity.
Defined.
